(** * svfm-weatherai: the forecast aggregator and bulletin composer of
      [weatherbulletin.py], embedded shallowly.

    Python objects are modelled as follows.
    - A feed entry (a JSON object of the Met Office time series) is the record
      [Observation]; the two temperatures are JSON numbers, modelled by
      [num]: a finite number by its exact rational value (every integer and
      every finite float is one; [max]/[min] only compare them and [round]
      is exact on the value), or one of the three values [json.loads] also
      yields, the two infinities (for a literal such as 1e999) and NaN.
    - Dictionaries that are iterated ([daily_data], [day_parts]) are
      insertion-ordered association lists; dictionaries that are only looked
      up ([weather_forecast], [highs_lows]) are [gmap]s.
    - Exceptions are the type [exn]; a computation that can raise returns
      [result].  Code that mutates an object it was handed (the code list of
      a period, the [defaultdict] of the forecast) lives in the state and
      error monad [M]. *)

From Stdlib Require Import ZArith QArith Qround String Ascii List.
From Stdlib Require Import Permutation Sorted Lia Lqa DecimalString.
From stdpp Require Import gmap strings list fin_maps.

Local Open Scope Z_scope.

(** ** Exceptions and results *)

Inductive exn : Type :=
| KeyError
| IndexError
| ValueError
| OverflowError
| UnboundLocalError.

Inductive result (A : Type) : Type :=
| Ok (a : A)
| Err (e : exn).
Arguments Ok {A} a.
Arguments Err {A} e.

Definition rbind {A B} (r : result A) (k : A -> result B) : result B :=
  match r with
  | Ok a => k a
  | Err e => Err e
  end.

Declare Scope result_scope.
Delimit Scope result_scope with result.
Notation "x <- r ;; k" := (rbind r (fun x => k))
  (at level 100, r at next level, right associativity) : result_scope.

(** [for x in l: acc = step(acc, x)], stopping at the first exception. *)
Fixpoint foldR {A B} (step : A -> B -> result A) (l : list B) (acc : A)
  : result A :=
  match l with
  | [] => Ok acc
  | x :: l' => rbind (step acc x) (foldR step l')
  end.

(** ** The state and error monad: a mutable object of type [S] is threaded
    through; an exception keeps the mutations made before it. *)

Definition M (S A : Type) : Type := S -> S * result A.

Definition mret {S A} (a : A) : M S A := fun s => (s, Ok a).
Definition mraise {S A} (e : exn) : M S A := fun s => (s, Err e).
Definition mbind {S A B} (m : M S A) (k : A -> M S B) : M S B :=
  fun s =>
    match m s with
    | (s', Ok a) => k a s'
    | (s', Err e) => (s', Err e)
    end.
Definition mget {S} : M S S := fun s => (s, Ok s).
Definition mput {S} (s' : S) : M S unit := fun _ => (s', Ok tt).

Declare Scope monad_scope.
Delimit Scope monad_scope with monad.
Notation "x <~ m ;; k" := (mbind m (fun x => k))
  (at level 100, m at next level, right associativity) : monad_scope.
Notation "m ;;; k" := (mbind m (fun _ => k))
  (at level 100, right associativity) : monad_scope.

(** [for x in l: body(x)] over a mutable state. *)
Fixpoint mfor {S B} (l : list B) (body : B -> M S unit) : M S unit :=
  match l with
  | [] => mret tt
  | x :: l' => mbind (body x) (fun _ => mfor l' body)
  end.

(** ** Python built-ins *)

(** [s[:n]] *)
Fixpoint str_take (n : nat) (s : string) : string :=
  match n, s with
  | O, _ => EmptyString
  | S _, EmptyString => EmptyString
  | S n', String c s' => String c (str_take n' s')
  end.

(** [s.split(sep)] for a separator of one character: never empty. *)
Fixpoint py_split (sep : ascii) (s : string) : list string :=
  match s with
  | EmptyString => [EmptyString]
  | String c s' =>
      if Ascii.eqb c sep then EmptyString :: py_split sep s'
      else match py_split sep s' with
           | [] => [String c EmptyString]
           | w :: ws => String c w :: ws
           end
  end.

(** [l[i]] *)
Definition py_index {A} (l : list A) (i : nat) : result A :=
  match nth_error l i with
  | Some x => Ok x
  | None => Err IndexError
  end.

Definition is_space (c : ascii) : bool :=
  let n := nat_of_ascii c in
  ((9 <=? n)%nat && (n <=? 13)%nat) || ((28 <=? n)%nat && (n <=? 32)%nat).

Definition digit_of (c : ascii) : option Z :=
  let n := nat_of_ascii c in
  if ((48 <=? n)%nat && (n <=? 57)%nat) then Some (Z.of_nat n - 48) else None.

Fixpoint lstrip (s : string) : string :=
  match s with
  | String c s' => if is_space c then lstrip s' else s
  | EmptyString => EmptyString
  end.

Fixpoint rstrip (s : string) : string :=
  match s with
  | EmptyString => EmptyString
  | String c s' =>
      match rstrip s' with
      | EmptyString => if is_space c then EmptyString else String c EmptyString
      | r => String c r
      end
  end.

(** Digits with single underscores between them, as [int] accepts. *)
Fixpoint parse_digits (s : string) (acc : Z) (after_digit : bool) : option Z :=
  match s with
  | EmptyString => if after_digit then Some acc else None
  | String c s' =>
      match digit_of c with
      | Some d => parse_digits s' (10 * acc + d) true
      | None =>
          if Ascii.eqb c "_"%char && after_digit then parse_digits s' acc false
          else None
      end
  end.

(** [int(s)] on a string: surrounding white space, an optional sign, decimal
    digits.  (Strings are byte strings here: the ASCII literals.) *)
Definition py_int (s : string) : result Z :=
  let body := rstrip (lstrip s) in
  let parsed :=
    match body with
    | String "-"%char r => Z.opp <$> parse_digits r 0 false
    | String "+"%char r => parse_digits r 0 false
    | _ => parse_digits body 0 false
    end in
  match parsed with
  | Some z => Ok z
  | None => Err ValueError
  end.

(** [str(z)] *)
Definition py_str_int (z : Z) : string :=
  NilZero.string_of_int (Z.to_int z).

(** A Python number as [json.loads] returns it. *)
Inductive num : Type :=
| Fin (q : Q)
| PInf
| NInf
| NaN.

(** To the nearest integer, ties to even. *)
Definition round_half_even (x : Q) : Z :=
  let f := Qfloor x in
  match Qcompare (x - inject_Z f) (1 # 2) with
  | Lt => f
  | Gt => f + 1
  | Eq => if Z.even f then f else f + 1
  end.

(** [round(x)] with one argument: [OverflowError] on an infinity,
    [ValueError] on NaN. *)
Definition py_round (x : num) : result Z :=
  match x with
  | Fin q => Ok (round_half_even q)
  | PInf | NInf => Err OverflowError
  | NaN => Err ValueError
  end.

Definition Qltb (x y : Q) : bool :=
  match Qcompare x y with
  | Lt => true
  | _ => false
  end.

(** [x < y] on Python numbers: every comparison with NaN is false. *)
Definition num_ltb (x y : num) : bool :=
  match x, y with
  | NaN, _ | _, NaN => false
  | Fin a, Fin b => Qltb a b
  | Fin _, PInf => true
  | Fin _, NInf => false
  | PInf, _ => false
  | NInf, NInf => false
  | NInf, _ => true
  end.

(** [max(l)] and [min(l)]: the first extremal element; [ValueError] on an
    empty sequence. *)
Definition py_max {A} (ltb : A -> A -> bool) (l : list A) : result A :=
  match l with
  | [] => Err ValueError
  | x :: l' => Ok (fold_left (fun m y => if ltb m y then y else m) l' x)
  end.

Definition py_min {A} (ltb : A -> A -> bool) (l : list A) : result A :=
  match l with
  | [] => Err ValueError
  | x :: l' => Ok (fold_left (fun m y => if ltb y m then y else m) l' x)
  end.

(** [sorted(l)]: a stable sort, here by insertion. *)
Fixpoint sorted_insert {A} (ltb : A -> A -> bool) (x : A) (l : list A)
  : list A :=
  match l with
  | [] => [x]
  | y :: l' => if ltb y x then y :: sorted_insert ltb x l' else x :: l
  end.

Definition py_sorted {A} (ltb : A -> A -> bool) (l : list A) : list A :=
  fold_right (sorted_insert ltb) [] l.

(** [x in l] and [l.remove(x)] on a list of integers. *)
Definition py_in (x : Z) (l : list Z) : bool := existsb (Z.eqb x) l.

Fixpoint py_remove (x : Z) (l : list Z) : result (list Z) :=
  match l with
  | [] => Err ValueError
  | y :: l' =>
      if Z.eqb y x then Ok l'
      else rbind (py_remove x l') (fun r => Ok (y :: r))
  end.

(** ** Dictionaries that are iterated: insertion-ordered association lists *)

Definition dict (V : Type) : Type := list (string * V).

Fixpoint dict_get {V} (k : string) (d : dict V) : option V :=
  match d with
  | [] => None
  | (k', v) :: d' => if decide (k = k') then Some v else dict_get k d'
  end.

(** [if k not in d: d[k] = []] followed by [d[k].append(x)]; the same as
    [d[k].append(x)] on a [defaultdict(list)]. *)
Fixpoint dict_append {V} (k : string) (x : V) (d : dict (list V))
  : dict (list V) :=
  match d with
  | [] => [(k, [x])]
  | (k', vs) :: d' =>
      if decide (k = k') then (k', vs ++ [x]) :: d'
      else (k', vs) :: dict_append k x d'
  end.

(** ** The data model *)

Record Observation : Type := {
  time : string;
  maxScreenAirTemp : num;
  minScreenAirTemp : num;
  significantWeatherCode : Z;
  uvIndex : Z;
  probOfRain : Z
}.

Record PeriodSummary : Type := {
  max_temp : Z;
  min_temp : Z;
  weather_code : list Z;
  uv_index : Z;
  prob_of_rain : Z
}.

Record DailyHighLow : Type := {
  high : Z;
  low : Z
}.

(** The aggregator's output, as the composer holds it: [forecast] is a
    [defaultdict(dict)], [temps] a plain dict. *)
Record ForecastIndex : Type := {
  forecast : gmap string (gmap string PeriodSummary);
  temps : gmap string DailyHighLow
}.

(** ** class MetOfficeWeatherForecast; [data] is [self.data] *)

(** [entry["time"][:10]] *)
Definition date_of (entry : Observation) : string := str_take 10 (time entry).

Definition _get_daily_data (data : list Observation)
  : dict (list Observation) :=
  fold_left
    (fun daily_data entry => dict_append (date_of entry) entry daily_data)
    data [].

Definition _calculate_high_low (temps : list num) : result (num * num) :=
  (hi <- py_max num_ltb temps ;;
   lo <- py_min num_ltb temps ;;
   Ok (hi, lo))%result.

Definition _determine_day_part (the_time : string) : result string :=
  (after_T <- py_index (py_split "T" the_time) 1 ;;
   hh <- py_index (py_split ":" after_T) 0 ;;
   hour <- py_int hh ;;
   Ok (if (6 <=? hour) && (hour <? 12) then "morning"
       else if (12 <=? hour) && (hour <? 18) then "afternoon"
       else if (18 <=? hour) && (hour <? 24) then "evening"
       else "overnight"))%result.

(** The four lists of [_get_day_periods], in the order of its literal. *)
Record DayPeriods : Type := {
  dp_morning : list Observation;
  dp_afternoon : list Observation;
  dp_evening : list Observation;
  dp_overnight : list Observation
}.

Definition _get_day_periods (daily_data : dict (list Observation))
  : result DayPeriods :=
  foldR
    (fun day_periods (item : string * list Observation) =>
       foldR
         (fun day_periods entry =>
            (hour <- py_int (String.substring 11 2 (time entry)) ;;
             Ok (if (7 <=? hour) && (hour <? 12) then
                   {| dp_morning := dp_morning day_periods ++ [entry];
                      dp_afternoon := dp_afternoon day_periods;
                      dp_evening := dp_evening day_periods;
                      dp_overnight := dp_overnight day_periods |}
                 else if (12 <=? hour) && (hour <? 17) then
                   {| dp_morning := dp_morning day_periods;
                      dp_afternoon := dp_afternoon day_periods ++ [entry];
                      dp_evening := dp_evening day_periods;
                      dp_overnight := dp_overnight day_periods |}
                 else if (17 <=? hour) && (hour <? 24) then
                   {| dp_morning := dp_morning day_periods;
                      dp_afternoon := dp_afternoon day_periods;
                      dp_evening := dp_evening day_periods ++ [entry];
                      dp_overnight := dp_overnight day_periods |}
                 else
                   {| dp_morning := dp_morning day_periods;
                      dp_afternoon := dp_afternoon day_periods;
                      dp_evening := dp_evening day_periods;
                      dp_overnight := dp_overnight day_periods ++ [entry] |}))%result)
         (snd item) day_periods)
    daily_data
    {| dp_morning := []; dp_afternoon := []; dp_evening := [];
       dp_overnight := [] |}.

(** The body of the loop of [get_highs_lows]. *)
Definition highs_lows_step (highs_lows : gmap string DailyHighLow)
    (item : string * list Observation) : result (gmap string DailyHighLow) :=
  let temps := map maxScreenAirTemp (snd item) in
  (hl <- _calculate_high_low temps ;;
   rounded_high <- py_round (fst hl) ;;
   rounded_low <- py_round (snd hl) ;;
   Ok (<[fst item := {| high := rounded_high;
                        low := rounded_low |}]> highs_lows))%result.

Definition get_highs_lows (data : list Observation)
  : result (gmap string DailyHighLow) :=
  let daily_data := _get_daily_data data in
  foldR highs_lows_step daily_data ∅.

Definition _get_weather_for_day (entries : list Observation)
  : result PeriodSummary :=
  (mx <- py_max num_ltb (map maxScreenAirTemp entries) ;;
   max_temp <- py_round mx ;;
   mn <- py_min num_ltb (map minScreenAirTemp entries) ;;
   min_temp <- py_round mn ;;
   uv <- py_max Z.ltb (map uvIndex entries) ;;
   rain <- py_max Z.ltb (map probOfRain entries) ;;
   let weather_codes :=
     py_sorted Z.ltb
       (elements (list_to_set (map significantWeatherCode entries) : gset Z)) in
   Ok {| max_temp := max_temp;
         min_temp := min_temp;
         weather_code := weather_codes;
         uv_index := uv;
         prob_of_rain := rain |})%result.

(** [weather_forecast[date][day_part] = v] on a [defaultdict(dict)]. *)
Definition forecast_setitem (date day_part : string) (v : PeriodSummary)
    (weather_forecast : gmap string (gmap string PeriodSummary))
  : gmap string (gmap string PeriodSummary) :=
  <[date := <[day_part := v]> (default ∅ (weather_forecast !! date))]>
    weather_forecast.

(** The inner loops of [get_day_periods_weather] for one date. *)
Definition group_day_parts (day_data : list Observation)
  : result (dict (list Observation)) :=
  foldR
    (fun day_parts entry =>
       (day_part <- _determine_day_part (time entry) ;;
        Ok (dict_append day_part entry day_parts))%result)
    day_data [].

Definition store_day_parts (date : string)
    (day_parts : dict (list Observation))
    (weather_forecast : gmap string (gmap string PeriodSummary))
  : result (gmap string (gmap string PeriodSummary)) :=
  foldR
    (fun wf (item : string * list Observation) =>
       (v <- _get_weather_for_day (snd item) ;;
        Ok (forecast_setitem date (fst item) v wf))%result)
    day_parts weather_forecast.

(** The body of the loop over [sorted_dates]. *)
Definition process_date (daily_data : dict (list Observation))
    (weather_forecast : gmap string (gmap string PeriodSummary))
    (date : string) : result (gmap string (gmap string PeriodSummary)) :=
  (day_data <- match dict_get date daily_data with
               | Some entries => Ok entries
               | None => Err KeyError
               end ;;
   day_parts <- group_day_parts day_data ;;
   store_day_parts date day_parts weather_forecast)%result.

Definition get_day_periods_weather (data : list Observation)
  : result (gmap string (gmap string PeriodSummary)) :=
  let daily_data := _get_daily_data data in
  let sorted_dates := py_sorted String.ltb (map fst daily_data) in
  foldR (process_date daily_data) sorted_dates ∅.

(** ** metoffice_weather_codes_to_str *)

Definition values (code : Z) : option string :=
  match code with
  | 0 => Some "Clear"
  | 1 => Some "Clear and sunny"
  | 2 => Some "Partially cloudy"
  | 3 => Some "Sunny with a few clouds"
  | 5 => Some "Misty"
  | 6 => Some "Foggy"
  | 7 => Some "Cloudy skies"
  | 8 => Some "Overcast"
  | 9 => Some "Light rain showers"
  | 10 => Some "Light rain showers"
  | 11 => Some "Drizzle"
  | 12 => Some "Light rain"
  | 13 => Some "Heavy rain showers"
  | 14 => Some "Heavy rain showers"
  | 15 => Some "Heavy rain"
  | 16 => Some "Sleet showers"
  | 17 => Some "Sleet showers"
  | 18 => Some "Sleet"
  | 19 => Some "Hail showers"
  | 20 => Some "Hail showers"
  | 21 => Some "Hail"
  | 22 => Some "Light snow showers"
  | 23 => Some "Light snow showers"
  | 24 => Some "Light snow"
  | 25 => Some "Heavy snow showers"
  | 26 => Some "Heavy snow showers"
  | 27 => Some "Heavy snow"
  | 28 => Some "Thunder showers"
  | 29 => Some "Thunder showers"
  | 30 => Some "Thunder"
  | _ => None
  end.

(** [values.get(code, "Some weather")] *)
Definition phrase (code : Z) : string := default "Some weather" (values code).

Definition day_skip_codes : gset Z :=
  list_to_set [1; 2; 3; 4; 5; 6; 7; 8; 11; 12; 15; 18; 21; 24; 27; 30].

Definition night_skip_codes : gset Z :=
  list_to_set [0; 9; 10; 13; 14; 16; 17; 19; 20; 22; 23; 25; 26; 28; 29].

(** [codes_to_skip] after the [if]/[elif]: [None] is the unbound local. *)
Definition codes_to_skip_of (part : string) : option (gset Z) :=
  if decide (part = "night") then Some day_skip_codes
  else if decide (part = "day") then Some night_skip_codes
  else None.

(** [codes.remove(x)] on the mutable list. *)
Definition codes_remove (x : Z) : M (list Z) unit :=
  fun codes =>
    match py_remove x codes with
    | Ok codes' => (codes', Ok tt)
    | Err e => (codes, Err e)
    end.

(** The body of the first loop, for one [code] of the copy [codes[:]]. *)
Definition prune_body (code : Z) : M (list Z) unit :=
  (codes <~ mget ;;
   (if (code =? 7) && py_in 3 codes then codes_remove 7 else mret tt) ;;;
   codes <~ mget ;;
   (if (code =? 2) && py_in 3 codes then codes_remove 2 else mret tt))%monad.

(** The second loop; [len] is [len(codes)], [i] and [weather] its locals. *)
Fixpoint render_loop (codes_to_skip : option (gset Z)) (len : nat)
    (codes : list Z) (weather : string) (i : Z) : result string :=
  match codes with
  | [] => Ok weather
  | code :: rest =>
      match codes_to_skip with
      | None => Err UnboundLocalError
      | Some skip =>
          if decide (code ∈ skip) then
            render_loop codes_to_skip len rest weather i
          else
            let i := i + 1 in
            let weather :=
              if (i =? 2) && (2 <=? len)%nat then weather +:+ ", with "
              else weather in
            let weather :=
              if (i =? 3) && (3 <=? len)%nat then weather +:+ " and "
              else weather in
            render_loop codes_to_skip len rest (weather +:+ phrase code) i
      end
  end.

(** The state is the list object [codes] the caller passed. *)
Definition metoffice_weather_codes_to_str (part : string)
  : M (list Z) string :=
  (copy <~ mget ;;
   mfor copy prune_body ;;;
   codes <~ mget ;;
   fun s => (s, render_loop (codes_to_skip_of part) (length codes) codes "" 0))%monad.

(** ** bulletin_metoffice *)

(** [metoffice_weather_codes_to_str(forecast[date][day_part]["weather_code"],
    part)]: the subscript on the [defaultdict] inserts an empty dict for a
    missing date, and the list handed over is the one stored in the index. *)
Definition render_period (date day_part part : string)
  : M ForecastIndex string :=
  fun ix =>
    match forecast ix !! date with
    | None =>
        ({| forecast := <[date := ∅]> (forecast ix); temps := temps ix |},
         Err KeyError)
    | Some periods =>
        match periods !! day_part with
        | None => (ix, Err KeyError)
        | Some summary =>
            let '(codes', r) :=
              metoffice_weather_codes_to_str part (weather_code summary) in
            let summary' :=
              {| max_temp := max_temp summary;
                 min_temp := min_temp summary;
                 weather_code := codes';
                 uv_index := uv_index summary;
                 prob_of_rain := prob_of_rain summary |} in
            ({| forecast :=
                  <[date := <[day_part := summary']> periods]> (forecast ix);
                temps := temps ix |}, r)
        end
    end.

(** [temps[date]] *)
Definition temps_getitem (date : string) : M ForecastIndex DailyHighLow :=
  fun ix =>
    (ix, match temps ix !! date with
         | Some hl => Ok hl
         | None => Err KeyError
         end).

(** [str(d)] of the dict [{"high": h, "low": l}]. *)
Definition py_str_high_low (hl : DailyHighLow) : string :=
  "{'high': " +:+ py_str_int (high hl) +:+ ", 'low': "
    +:+ py_str_int (low hl) +:+ "}".

(** The templates of [bulletin_metoffice] (from "Generate the bulletin" on);
    [hour] is [now.hour], [today] and [tomorrow] the two formatted dates. *)
Definition compose (hour : Z) (today tomorrow : string)
  : M ForecastIndex string :=
  (if (5 <=? hour) && (hour <? 11) then
     morning_weather <~ render_period today "morning" "day" ;;
     afternoon_weather <~ render_period today "afternoon" "day" ;;
     peak_temp <~ temps_getitem today ;;
     let bulletin := morning_weather +:+ " this morning, " in
     let bulletin :=
       if decide (morning_weather = afternoon_weather) then
         bulletin +:+
         "staying much the same throughout the afternoon in North East Somerset, "
       else
         bulletin +:+
         (afternoon_weather +:+ " across North East Somerset this afternoon ") in
     mret (bulletin +:+
           ("with temperatures reaching " +:+ py_str_high_low peak_temp
            +:+ " degrees."))
   else if (11 <=? hour) && (hour <? 17) then
     afternoon_weather <~ render_period today "afternoon" "day" ;;
     evening_weather <~ render_period today "evening" "day" ;;
     peak_temp <~ temps_getitem today ;;
     let bulletin := afternoon_weather +:+ " this afternoon" in
     let bulletin :=
       if decide (afternoon_weather = evening_weather) then
         bulletin +:+ ", continuing into the evening"
       else
         bulletin +:+ (", " +:+ evening_weather +:+ " later into the evening") in
     mret (bulletin +:+
           (". Highs across North East Somerset of "
            +:+ py_str_int (high peak_temp) +:+ " degrees."))
   else if (17 <=? hour) && (hour <? 24) then
     evening_weather <~ render_period today "evening" "day" ;;
     overnight_weather <~ render_period tomorrow "overnight" "night" ;;
     tomorrow_weather <~ render_period tomorrow "morning" "day" ;;
     temps_tomorrow <~ temps_getitem tomorrow ;;
     let bulletin := evening_weather +:+ " this evening. " in
     let bulletin :=
       bulletin +:+
       (overnight_weather +:+ " overnight with lows of "
        +:+ py_str_int (low temps_tomorrow) +:+ " degrees. ") in
     mret (bulletin +:+
           ("Tomorrow we will expect " +:+ tomorrow_weather
            +:+ " with highs of " +:+ py_str_int (high temps_tomorrow) +:+ "."))
   else
     overnight_weather <~ render_period tomorrow "overnight" "night" ;;
     tomorrow_morning_weather <~ render_period tomorrow "morning" "day" ;;
     tomorrow_afternoon_weather <~ render_period tomorrow "afternoon" "day" ;;
     temps_tomorrow <~ temps_getitem tomorrow ;;
     let bulletin :=
       overnight_weather +:+ " overnight with lows of "
       +:+ py_str_int (low temps_tomorrow) +:+ " degrees. " in
     let bulletin :=
       if decide (tomorrow_morning_weather = tomorrow_afternoon_weather) then
         (bulletin +:+
          ("Tomorrow we are expecting " +:+ tomorrow_morning_weather +:+ ", "))
         +:+ ("with temperatures reaching highs of "
              +:+ py_str_int (high temps_tomorrow) +:+ " degrees.")
       else
         (bulletin +:+
          ("Tomorrow morning will start with " +:+ tomorrow_morning_weather
           +:+ ", "))
         +:+ (tomorrow_afternoon_weather +:+ " later on, highs of "
              +:+ py_str_int (high temps_tomorrow) +:+ ".") in
     mret bulletin)%monad.

(** [bulletin_metoffice], with the parsed feed and the clock as arguments. *)
Definition bulletin_metoffice (data : list Observation) (hour : Z)
    (today tomorrow : string) : result string :=
  (forecast <- get_day_periods_weather data ;;
   temps <- get_highs_lows data ;;
   snd (compose hour today tomorrow
          {| forecast := forecast; temps := temps |}))%result.

(** ** Scheme A of the specification, for comparison with the code *)

(** The day-part of an hour under the boundaries the specification calls
    Scheme A (those of [_get_day_periods]). *)
Definition scheme_A (hour : Z) : string :=
  if (7 <=? hour) && (hour <? 12) then "morning"
  else if (12 <=? hour) && (hour <? 17) then "afternoon"
  else if (17 <=? hour) && (hour <? 24) then "evening"
  else "overnight".

(** The boundaries of [_determine_day_part] (Scheme B). *)
Definition scheme_B (hour : Z) : string :=
  if (6 <=? hour) && (hour <? 12) then "morning"
  else if (12 <=? hour) && (hour <? 18) then "afternoon"
  else if (18 <=? hour) && (hour <? 24) then "evening"
  else "overnight".

(** The hour [_determine_day_part] reads from a time stamp. *)
Definition hour_of (the_time : string) : result Z :=
  (after_T <- py_index (py_split "T" the_time) 1 ;;
   hh <- py_index (py_split ":" after_T) 0 ;;
   py_int hh)%result.

(** The codes that survive the first loop when code 3 is present. *)
Definition keep (c : Z) : bool := negb (c =? 7) && negb (c =? 2).

(** What the first loop of [metoffice_weather_codes_to_str] leaves in the
    list, in closed form (see [prune_loop]). *)
Definition pruned (codes : list Z) : list Z :=
  if py_in 3 codes then List.filter keep codes else codes.

(** ** Vocabulary for the statements about the index *)

(** [wf.get(d, {}).get(p)]: the summary stored for a date and a day-part. *)
Definition lookup2 (wf : gmap string (gmap string PeriodSummary))
    (d p : string) : option PeriodSummary :=
  wf !! d ≫= (.!! p).

(** A summary whose code list went through the first loop of the renderer. *)
Definition prune_summary (s : PeriodSummary) : PeriodSummary :=
  {| max_temp := max_temp s;
     min_temp := min_temp s;
     weather_code := pruned (weather_code s);
     uv_index := uv_index s;
     prob_of_rain := prob_of_rain s |}.

(** How composing a bulletin may change the index [a] into [b]: the
    highs and lows stay; a date of [a] keeps its day-parts, each summary
    either untouched or with its code list pruned; a date missing from [a] is
    still missing or, if it is [today] or [tomorrow], maps to an empty
    dictionary. *)
Definition evolves (today tomorrow : string) (a b : ForecastIndex) : Prop :=
  temps b = temps a /\
  forall d : string,
    match forecast a !! d, forecast b !! d with
    | Some ps, Some ps' =>
        forall p : string,
          match ps !! p, ps' !! p with
          | Some s, Some s' => s' = s \/ s' = prune_summary s
          | None, None => True
          | _, _ => False
          end
    | None, None => True
    | None, Some ps' => ps' = ∅ /\ (d = today \/ d = tomorrow)
    | Some _, None => False
    end.

(** The (date, day-part) pairs each template of [bulletin_metoffice]
    subscripts, in the order of the calls, and the date whose highs and lows
    it reads. *)
Definition required_periods (hour : Z) (today tomorrow : string)
  : list (string * string) :=
  if (5 <=? hour) && (hour <? 11) then
    [(today, "morning"); (today, "afternoon")]
  else if (11 <=? hour) && (hour <? 17) then
    [(today, "afternoon"); (today, "evening")]
  else if (17 <=? hour) && (hour <? 24) then
    [(today, "evening"); (tomorrow, "overnight"); (tomorrow, "morning")]
  else
    [(tomorrow, "overnight"); (tomorrow, "morning"); (tomorrow, "afternoon")].

Definition required_temps (hour : Z) (today tomorrow : string) : string :=
  if (5 <=? hour) && (hour <? 11) then today
  else if (11 <=? hour) && (hour <? 17) then today
  else tomorrow.

(** ** Vocabulary for the statements about the aggregator *)

(** The entries of a calendar date, in feed order. *)
Definition on_date (d : string) (data : list Observation)
  : list Observation :=
  List.filter (fun e => bool_decide (date_of e = d)) data.

(** Whether [_determine_day_part] puts the entry under day-part [p]. *)
Definition part_is (p : string) (e : Observation) : bool :=
  match _determine_day_part (time e) with
  | Ok q => bool_decide (q = p)
  | Err _ => false
  end.

(** The (date, day-part) bucket of the aggregator. *)
Definition bucket (d p : string) (data : list Observation)
  : list Observation :=
  List.filter (part_is p) (on_date d data).

(** The time stamp has an hour [_determine_day_part] can read. *)
Definition readable (e : Observation) : Prop :=
  exists h : Z, hour_of (time e) = Ok h.

(** A result without the kind of its exception. *)
Definition value_of {A} (r : result A) : option A :=
  match r with
  | Ok a => Some a
  | Err _ => None
  end.

(** The call returns: it raises nothing. *)
Definition returns {A} (r : result A) : Prop := exists a, r = Ok a.

(** The order of the numbers: NaN is below and above nothing. *)
Definition num_le (x y : num) : Prop :=
  match x, y with
  | NaN, _ | _, NaN => False
  | NInf, _ => True
  | _, PInf => True
  | Fin a, Fin b => (a <= b)%Q
  | _, _ => False
  end.

Definition is_finite (x : num) : Prop :=
  match x with
  | Fin _ => True
  | _ => False
  end.

Definition not_nan (x : num) : Prop :=
  match x with
  | NaN => False
  | _ => True
  end.

(** Feed entries whose temperatures are finite numbers, resp. not NaN. *)
Definition finite_max (e : Observation) : Prop :=
  is_finite (maxScreenAirTemp e).
Definition finite_temps (e : Observation) : Prop :=
  is_finite (maxScreenAirTemp e) /\ is_finite (minScreenAirTemp e).
Definition no_nan_temps (e : Observation) : Prop :=
  not_nan (maxScreenAirTemp e) /\ not_nan (minScreenAirTemp e).

(** [m] is a greatest, resp. least, element of [l]. *)
Definition Nmax_of (m : num) (l : list num) : Prop :=
  In m l /\ forall x, In x l -> num_le x m.
Definition Nmin_of (m : num) (l : list num) : Prop :=
  In m l /\ forall x, In x l -> num_le m x.
Definition Zmax_of (m : Z) (l : list Z) : Prop :=
  In m l /\ forall x, In x l -> x <= m.

(** No date maps to an empty dictionary. *)
Definition no_empty_date (wf : gmap string (gmap string PeriodSummary))
  : Prop :=
  forall d ps, wf !! d = Some ps -> ps <> ∅.

(** The day-part of a readable entry ([""] stands for an exception). *)
Definition part_of (e : Observation) : string :=
  match _determine_day_part (time e) with
  | Ok p => p
  | Err _ => ""
  end.

(** Both loops grouping entries under a key, as one fold. *)
Definition group_fold {V} (key : V -> string) (l : list V)
    (d0 : dict (list V)) : dict (list V) :=
  fold_left (fun d e => dict_append (key e) e d) l d0.

(** An entry with its minimum temperature replaced. *)
Definition with_min (f : Observation -> num) (e : Observation)
  : Observation :=
  {| time := time e;
     maxScreenAirTemp := maxScreenAirTemp e;
     minScreenAirTemp := f e;
     significantWeatherCode := significantWeatherCode e;
     uvIndex := uvIndex e;
     probOfRain := probOfRain e |}.

(** What the loop over the dates stores for a date and a day-part. *)
Definition stored (daily_data : dict (list Observation)) (d p : string)
  : option PeriodSummary :=
  match dict_get d daily_data with
  | Some es =>
      match List.filter (part_is p) es with
      | [] => None
      | b => value_of (_get_weather_for_day b)
      end
  | None => None
  end.

(** The highs and lows computed from the entries of one date. *)
Definition high_low_res (es : list Observation) : result DailyHighLow :=
  (hl <- _calculate_high_low (map maxScreenAirTemp es) ;;
   rounded_high <- py_round (fst hl) ;;
   rounded_low <- py_round (snd hl) ;;
   Ok {| high := rounded_high; low := rounded_low |})%result.

Definition high_low_of (es : list Observation) : option DailyHighLow :=
  value_of (high_low_res es).

(** What one [render_period] call leaves of the index, whatever the part:
    a missing date is added with an empty dictionary, the code list of a
    stored summary is pruned. *)
Definition touch (d p : string) (ix : ForecastIndex) : ForecastIndex :=
  match forecast ix !! d with
  | None => {| forecast := <[d := ∅]> (forecast ix); temps := temps ix |}
  | Some periods =>
      match periods !! p with
      | None => ix
      | Some s =>
          {| forecast :=
               <[d := <[p := prune_summary s]> periods]> (forecast ix);
             temps := temps ix |}
      end
  end.

(** The subscripts a template performs before it returns or raises: those
    of its list up to and including the first that is missing. *)
Fixpoint executed (ix : ForecastIndex) (l : list (string * string))
  : list (string * string) :=
  match l with
  | [] => []
  | dp :: l' =>
      match lookup2 (forecast ix) (fst dp) (snd dp) with
      | Some _ => dp :: executed ix l'
      | None => [dp]
      end
  end.

(** ** Sample data *)

Definition summary_of_codes (codes : list Z) : PeriodSummary :=
  {| max_temp := 14; min_temp := 9; weather_code := codes;
     uv_index := 2; prob_of_rain := 10 |}.

(** An index for 2024-05-01 only; its morning list holds 3 and 7. *)
Definition ix_sunny : ForecastIndex :=
  {| forecast :=
       {[ "2024-05-01" :=
            {[ "morning" := summary_of_codes [3; 7];
               "afternoon" := summary_of_codes [7];
               "evening" := summary_of_codes [0; 7] ]} ]};
     temps := {[ "2024-05-01" := {| high := 18; low := 12 |} ]} |}.

(** An index for two days on which no list is touched by pruning. *)
Definition ix_two_days : ForecastIndex :=
  {| forecast :=
       {[ "2024-05-01" :=
            {[ "morning" := summary_of_codes [1];
               "afternoon" := summary_of_codes [1; 9];
               "evening" := summary_of_codes [7; 12] ]};
          "2024-05-02" :=
            {[ "overnight" := summary_of_codes [0; 2];
               "morning" := summary_of_codes [7; 8];
               "afternoon" := summary_of_codes [8; 15] ]} ]};
     temps := {[ "2024-05-01" := {| high := 18; low := 12 |};
                 "2024-05-02" := {| high := 16; low := 11 |} ]} |}.

(** A feed of four entries over two dates, and the same entries in another
    order. *)
Definition obs (t : string) (mx mn : Q) (code uv rain : Z) : Observation :=
  {| time := t; maxScreenAirTemp := Fin mx; minScreenAirTemp := Fin mn;
     significantWeatherCode := code; uvIndex := uv; probOfRain := rain |}.

Definition feed_sample : list Observation :=
  [ obs "2024-05-01T06:00Z" (25 # 2) (10 # 1) 3 1 10;
    obs "2024-05-01T09:00Z" (27 # 2) (11 # 1) 7 2 20;
    obs "2024-05-01T15:00Z" (35 # 2) (23 # 2) 7 3 5;
    obs "2024-04-30T21:00Z" (7 # 2) (3 # 1) 0 0 0 ].

Definition feed_shuffled : list Observation :=
  [ obs "2024-05-01T09:00Z" (27 # 2) (11 # 1) 7 2 20;
    obs "2024-04-30T21:00Z" (7 # 2) (3 # 1) 0 0 0;
    obs "2024-05-01T06:00Z" (25 # 2) (10 # 1) 3 1 10;
    obs "2024-05-01T15:00Z" (35 # 2) (23 # 2) 7 3 5 ].

(** Two entries of one date, the first with NaN as maximum temperature, and
    the same two in the other order. *)
Definition feed_nan_first : list Observation :=
  [ {| time := "2024-05-01T06:00Z"; maxScreenAirTemp := NaN;
       minScreenAirTemp := Fin (10 # 1); significantWeatherCode := 1;
       uvIndex := 1; probOfRain := 10 |};
    obs "2024-05-01T09:00Z" (1 # 1) (1 # 1) 1 1 10 ].

Definition feed_nan_last : list Observation :=
  [ obs "2024-05-01T09:00Z" (1 # 1) (1 # 1) 1 1 10;
    {| time := "2024-05-01T06:00Z"; maxScreenAirTemp := NaN;
       minScreenAirTemp := Fin (10 # 1); significantWeatherCode := 1;
       uvIndex := 1; probOfRain := 10 |} ].

(** One entry whose maximum temperature is an infinity (the JSON number
    [1e999]). *)
Definition feed_inf : list Observation :=
  [ {| time := "2024-05-01T09:00Z"; maxScreenAirTemp := PInf;
       minScreenAirTemp := Fin (1 # 1); significantWeatherCode := 1;
       uvIndex := 1; probOfRain := 10 |} ].

(** One entry at six in the morning. *)
Definition feed_six : list Observation :=
  [ obs "2024-05-01T06:00Z" (25 # 2) (10 # 1) 1 1 10 ].

(** ** get_weather_forecast_types *)

(** The table [weather_types] of [_get_weather_type]. *)
Definition weather_types (weather_code : Z) : option string :=
  match weather_code with
  | 0 => Some "Clear night"
  | 1 => Some "Sunny day"
  | 2 => Some "Partly cloudy (night)"
  | 3 => Some "Partly cloudy (day)"
  | 5 => Some "Mist"
  | 6 => Some "Fog"
  | 7 => Some "Cloudy"
  | 8 => Some "Overcast"
  | 9 => Some "Light rain shower (night)"
  | 10 => Some "Light rain shower (day)"
  | 11 => Some "Drizzle"
  | 12 => Some "Light rain"
  | 13 => Some "Heavy rain shower (night)"
  | 14 => Some "Heavy rain shower (day)"
  | 15 => Some "Heavy rain"
  | 16 => Some "Sleet shower (night)"
  | 17 => Some "Sleet shower (day)"
  | 18 => Some "Sleet"
  | 19 => Some "Hail shower (night)"
  | 20 => Some "Hail shower (day)"
  | 21 => Some "Hail"
  | 22 => Some "Light snow shower (night)"
  | 23 => Some "Light snow shower (day)"
  | 24 => Some "Light snow"
  | 25 => Some "Heavy snow shower (night)"
  | 26 => Some "Heavy snow shower (day)"
  | 27 => Some "Heavy snow"
  | 28 => Some "Thunder shower (night)"
  | 29 => Some "Thunder shower (day)"
  | 30 => Some "Thunder"
  | _ => None
  end.

(** [weather_types[weather_code]] *)
Definition _get_weather_type (weather_code : Z) : result string :=
  match weather_types weather_code with
  | Some weather_type => Ok weather_type
  | None => Err KeyError
  end.

(** The body of the loop of [get_weather_forecast_types]; [if weather_type:]
    tests that the string is not empty. *)
Definition forecast_types_step (weather_forecast_types : gset string)
    (entry : Observation) : result (gset string) :=
  (weather_type <- _get_weather_type (significantWeatherCode entry) ;;
   Ok (if decide (weather_type = "") then weather_forecast_types
       else {[weather_type]} ∪ weather_forecast_types))%result.

(** [list(weather_forecast_types)]: the order in which Python lists a set of
    strings is not fixed; [elements] stands for one such order, and only
    membership and distinctness are stated about it. *)
Definition get_weather_forecast_types (data : list Observation)
  : result (list string) :=
  (weather_forecast_types <- foldR forecast_types_step data ∅ ;;
   Ok (elements weather_forecast_types))%result.

(** ** get_metoffice_forecast *)

(** The network is an oracle: [network n] is the outcome of the [n]-th call
    of [requests.get], [None] for a [RequestException].  A run records what
    became of the call, how many requests were made and the seconds slept. *)
Inductive fetch_outcome : Type :=
| Fetched (text : string)
| Exited
| ReqUnbound.

Record fetch_run : Type := {
  outcome : fetch_outcome;
  requests_made : nat;
  seconds_slept : Z
}.

(** [while not success and retries > 0], by recursion on [retries]; leaving
    the loop without success would find [req] unbound. *)
Fixpoint fetch_loop (network : nat -> option string) (retries made : nat)
    (slept : Z) : fetch_run :=
  match retries with
  | O => {| outcome := ReqUnbound; requests_made := made;
            seconds_slept := slept |}
  | S retries' =>
      match network made with
      | Some text =>
          {| outcome := Fetched text; requests_made := S made;
             seconds_slept := slept |}
      | None =>
          if Nat.eqb retries' 0 then
            {| outcome := Exited; requests_made := S made;
               seconds_slept := slept + 10 |}
          else fetch_loop network retries' (S made) (slept + 10)
      end
  end.

Definition get_metoffice_forecast (network : nat -> option string)
  : fetch_run :=
  fetch_loop network 5 0 0.

(** ** Vocabulary for the further statements *)

(** What the second loop of the renderer puts before the phrase of the
    [i]-th narrated code. *)
Definition separator (i : nat) : string :=
  match i with
  | 2%nat => ", with "
  | 3%nat => " and "
  | _ => ""
  end.

(** The phrases of [codes] joined, [i] codes having been narrated before. *)
Fixpoint join_from (i : nat) (codes : list Z) : string :=
  match codes with
  | [] => ""
  | c :: rest => separator (S i) +:+ phrase c +:+ join_from (S i) rest
  end.

(** The codes of a list that are not in the skip set. *)
Definition narrated (skip : gset Z) (codes : list Z) : list Z :=
  List.filter (fun c => negb (bool_decide (c ∈ skip))) codes.

(** The hour [_get_day_periods] reads: [int(entry["time"][11:13])]. *)
Definition hour_A (e : Observation) : result Z :=
  py_int (String.substring 11 2 (time e)).

(** Whether [_get_day_periods] puts the entry in the list of day-part [p]. *)
Definition in_period_A (p : string) (e : Observation) : bool :=
  match hour_A e with
  | Ok h => bool_decide (scheme_A h = p)
  | Err _ => false
  end.

(** All entries of a dictionary of lists, in iteration order. *)
Definition all_entries {V} (d : dict (list V)) : list V :=
  concat (map snd d).

(** Whether the character occurs in the string. *)
Fixpoint occurs (c : ascii) (s : string) : bool :=
  match s with
  | EmptyString => false
  | String c' s' => Ascii.eqb c' c || occurs c s'
  end.

(** The four lists of [day_periods] after the entries [es] have been filed
    behind those of [acc]. *)
Definition extend_periods (acc : DayPeriods) (es : list Observation)
  : DayPeriods :=
  {| dp_morning := dp_morning acc ++ List.filter (in_period_A "morning") es;
     dp_afternoon :=
       dp_afternoon acc ++ List.filter (in_period_A "afternoon") es;
     dp_evening := dp_evening acc ++ List.filter (in_period_A "evening") es;
     dp_overnight :=
       dp_overnight acc ++ List.filter (in_period_A "overnight") es |}.

(** Whether [int(entry["time"][11:13])] returns. *)
Definition hour_A_ok (e : Observation) : bool :=
  match hour_A e with
  | Ok _ => true
  | Err _ => false
  end.

(** A dictionary of two dates as [_get_daily_data] builds it. *)
Definition daily_sample : dict (list Observation) :=
  _get_daily_data feed_sample.

(** An entry whose time stamp stops after the date. *)
Definition daily_short : dict (list Observation) :=
  [("2024-05-01", [obs "2024-05-01" (25 # 2) (10 # 1) 1 1 10])].

(** A feed with the reserved code 4 in its second entry. *)
Definition feed_code4 : list Observation :=
  [ obs "2024-05-01T06:00Z" (25 # 2) (10 # 1) 3 1 10;
    obs "2024-05-01T09:00Z" (27 # 2) (11 # 1) 4 2 20 ].

(** An endless failing network, and one that answers at the third call. *)
Definition network_down : nat -> option string := fun _ => None.
Definition network_third : nat -> option string :=
  fun n => if Nat.eqb n 2 then Some "{}" else None.

(** * Properties of the renderer *)

Lemma append_assoc (s1 s2 s3 : string) :
  (s1 +:+ s2) +:+ s3 = s1 +:+ (s2 +:+ s3).
Proof.
  induction s1 as [|c s1 IH]; [reflexivity|].
  change (String c ((s1 +:+ s2) +:+ s3) = String c (s1 +:+ (s2 +:+ s3))).
  now rewrite IH.
Qed.

Lemma py_in_In (x : Z) (l : list Z) : py_in x l = true <-> In x l.
Proof.
  unfold py_in. rewrite existsb_exists. split.
  - intros (y & Hy & Heq). apply Z.eqb_eq in Heq. now subst.
  - intros H. exists x. split; [assumption|apply Z.eqb_refl].
Qed.

Lemma py_in_app (x : Z) (l1 l2 : list Z) :
  py_in x (l1 ++ l2) = py_in x l1 || py_in x l2.
Proof. unfold py_in. apply existsb_app. Qed.

(** [remove] deletes the first occurrence: behind a prefix without [x]. *)
Lemma py_remove_first (x : Z) (pre rest : list Z) :
  ~ In x pre -> py_remove x (pre ++ x :: rest) = Ok (pre ++ rest).
Proof.
  induction pre as [|y pre IH]; intros Hnin; simpl.
  - now rewrite Z.eqb_refl.
  - destruct (Z.eqb_spec y x) as [->|Hne].
    + exfalso. apply Hnin. now left.
    + rewrite IH; [reflexivity|]. intros Hin. apply Hnin. now right.
Qed.

(** One iteration of the first loop, by cases. *)
Lemma prune_body_no3 (c : Z) (s : list Z) :
  py_in 3 s = false -> prune_body c s = (s, Ok tt).
Proof.
  intros H3. unfold prune_body, mbind, mget.
  rewrite H3, andb_false_r. unfold mret. now rewrite H3, andb_false_r.
Qed.

Lemma prune_body_7 (s : list Z) :
  py_in 3 s = true -> prune_body 7 s = codes_remove 7 s.
Proof.
  intros H3. unfold prune_body, mbind, mget. rewrite H3.
  cbn [Z.eqb Pos.eqb andb]. unfold codes_remove.
  destruct (py_remove 7 s); reflexivity.
Qed.

Lemma prune_body_2 (s : list Z) :
  py_in 3 s = true -> prune_body 2 s = codes_remove 2 s.
Proof.
  intros H3. unfold prune_body, mbind, mget. rewrite H3.
  cbn [Z.eqb Pos.eqb andb]. unfold mret. now rewrite H3.
Qed.

Lemma prune_body_other (c : Z) (s : list Z) :
  c <> 7 -> c <> 2 -> prune_body c s = (s, Ok tt).
Proof.
  intros H7 H2. apply Z.eqb_neq in H7, H2.
  unfold prune_body, mbind, mget. rewrite H7. cbn [andb]. unfold mret.
  now rewrite H2.
Qed.

(** Without a 3 in the list the first loop changes nothing. *)
Lemma prune_loop_no3 (rest s : list Z) :
  py_in 3 s = false -> mfor rest prune_body s = (s, Ok tt).
Proof.
  intros H3. induction rest as [|c rest IH]; [reflexivity|].
  cbn [mfor]. unfold mbind. now rewrite prune_body_no3.
Qed.

(** With a 3: once the copy has been walked up to [rest], the list is the
    pruned prefix followed by the untouched [rest]. *)
Lemma prune_loop_3 (rest pre : list Z) :
  py_in 3 (pre ++ rest) = true -> ~ In 7 pre -> ~ In 2 pre ->
  mfor rest prune_body (pre ++ rest) = (pre ++ List.filter keep rest, Ok tt).
Proof.
  revert pre. induction rest as [|c rest IH]; intros pre H3 H7 H2.
  - reflexivity.
  - cbn [mfor]. unfold mbind.
    assert (H3' : c <> 3 -> py_in 3 (pre ++ rest) = true).
    { intros Hc. rewrite py_in_app in *. cbn [py_in existsb] in H3.
      apply Z.eqb_neq in Hc. rewrite Z.eqb_sym in Hc. rewrite Hc in H3.
      exact H3. }
    destruct (Z.eq_dec c 7) as [->|Hc7]; [|destruct (Z.eq_dec c 2) as [->|Hc2]].
    + rewrite prune_body_7 by assumption. unfold codes_remove.
      rewrite (py_remove_first 7 pre rest H7).
      cbn [List.filter keep Z.eqb Pos.eqb negb andb].
      apply IH; [apply H3'; discriminate|assumption|assumption].
    + rewrite prune_body_2 by assumption. unfold codes_remove.
      rewrite (py_remove_first 2 pre rest H2).
      cbn [List.filter keep Z.eqb Pos.eqb negb andb].
      apply IH; [apply H3'; discriminate|assumption|assumption].
    + rewrite prune_body_other by assumption.
      assert (Hk : keep c = true).
      { unfold keep. apply andb_true_intro.
        split; apply negb_true_iff; now apply Z.eqb_neq. }
      cbn [List.filter]. rewrite Hk.
      replace (pre ++ c :: rest) with ((pre ++ [c]) ++ rest) in *
        by (now rewrite <- app_assoc).
      replace (pre ++ c :: List.filter keep rest)
        with ((pre ++ [c]) ++ List.filter keep rest)
        by (now rewrite <- app_assoc).
      apply IH; [assumption| |].
      * intros Hin. apply in_app_or in Hin as [Hin|[Hin|[]]]; auto.
      * intros Hin. apply in_app_or in Hin as [Hin|[Hin|[]]]; auto.
Qed.

(** The first loop never raises and leaves [pruned codes] in the list. *)
Lemma prune_loop (codes : list Z) :
  mfor codes prune_body codes = (pruned codes, Ok tt).
Proof.
  unfold pruned. destruct (py_in 3 codes) eqn:H3.
  - apply (prune_loop_3 codes []); simpl; auto.
  - now apply prune_loop_no3.
Qed.

(** The renderer: the list is pruned in place, then the phrase is built from
    the pruned list. *)
Lemma metoffice_weather_codes_to_str_eq (part : string) (codes : list Z) :
  metoffice_weather_codes_to_str part codes =
  (pruned codes,
   render_loop (codes_to_skip_of part) (length (pruned codes))
     (pruned codes) "" 0).
Proof.
  unfold metoffice_weather_codes_to_str, mbind, mget.
  now rewrite prune_loop.
Qed.

Lemma render_loop_total (skip : gset Z) (len : nat) (codes : list Z)
    (weather : string) (i : Z) :
  exists s, render_loop (Some skip) len codes weather i = Ok s.
Proof.
  revert weather i. induction codes as [|c codes IH]; intros weather i; simpl.
  - now exists weather.
  - destruct (decide (c ∈ skip)); apply IH.
Qed.

Lemma pruned_nil_iff (codes : list Z) : pruned codes = [] <-> codes = [].
Proof.
  split; [|intros ->; reflexivity].
  unfold pruned. destruct (py_in 3 codes) eqn:H3; [|auto].
  intros Hnil. apply py_in_In in H3.
  assert (Hin : In 3 (List.filter keep codes)).
  { apply filter_In. split; [assumption|reflexivity]. }
  rewrite Hnil in Hin. destruct Hin.
Qed.

Lemma pruned_idem (codes : list Z) : pruned (pruned codes) = pruned codes.
Proof.
  unfold pruned. destruct (py_in 3 codes) eqn:H3; [|now rewrite H3].
  assert (H3' : py_in 3 (List.filter keep codes) = true).
  { apply py_in_In, filter_In. split; [now apply py_in_In|reflexivity]. }
  rewrite H3'. clear. induction codes as [|c codes IH]; simpl; [reflexivity|].
  destruct (keep c) eqn:Hk; simpl; [rewrite Hk, IH|]; auto.
Qed.

(** ** C5 *)

(** C5: for every code sequence containing code 3, the renderer removes the
    codes 7 and 2 from the list before it builds the phrase (the phrase is
    built from the filtered list, in which neither 7 nor 2 occurs); and on
    [3, 7, 2] for "day" the phrase is exactly that of code 3. *)
Theorem C5_code3_prunes_7_and_2 (codes : list Z) (part : string) :
  In 3 codes ->
  let survivors := List.filter (fun c => negb (c =? 7) && negb (c =? 2)) codes in
  metoffice_weather_codes_to_str part codes =
    (survivors,
     render_loop (codes_to_skip_of part) (length survivors) survivors "" 0)
  /\ ~ In 7 survivors /\ ~ In 2 survivors
  /\ metoffice_weather_codes_to_str "day" [3; 7; 2] =
       ([3], Ok "Sunny with a few clouds")
  /\ phrase 3 = "Sunny with a few clouds".
Proof.
  intros H3 survivors.
  rewrite metoffice_weather_codes_to_str_eq. unfold pruned.
  apply py_in_In in H3. rewrite H3. fold keep. fold survivors.
  split; [reflexivity|].
  split; [|split; [|split; reflexivity]].
  - unfold survivors. intros Hin. apply filter_In in Hin as [_ Hk].
    discriminate Hk.
  - unfold survivors. intros Hin. apply filter_In in Hin as [_ Hk].
    discriminate Hk.
Qed.

Lemma C5_code3_prunes_7_and_2_witness :
  In 3 [3; 7; 2] /\
  metoffice_weather_codes_to_str "day" [3; 7; 2] =
    ([3], Ok "Sunny with a few clouds").
Proof.
  split; [simpl; auto|].
  exact (proj1 (proj2 (proj2 (proj2
           (C5_code3_prunes_7_and_2 [3; 7; 2] "day" (or_introl eq_refl)))))).
Defined.

(** ** C6 *)

(** Three codes that are neither pruned nor skipped are joined as
    "a, with b and c". *)
Lemma render_three (part : string) (skip : gset Z) (a b c : Z) :
  codes_to_skip_of part = Some skip ->
  a ∉ skip -> b ∉ skip -> c ∉ skip ->
  pruned [a; b; c] = [a; b; c] ->
  metoffice_weather_codes_to_str part [a; b; c] =
    ([a; b; c],
     Ok (phrase a +:+ ", with " +:+ phrase b +:+ " and " +:+ phrase c)).
Proof.
  intros Hskip Ha Hb Hc Hpr.
  rewrite metoffice_weather_codes_to_str_eq, Hpr, Hskip.
  cbn [render_loop length].
  rewrite !decide_False by assumption.
  cbv beta iota delta [Z.add Z.eqb Pos.eqb Pos.add Pos.succ andb Nat.leb].
  change ("" +:+ phrase a) with (phrase a).
  now rewrite !append_assoc.
Qed.

(** The claim as stated fails: code 9 is in the set skipped for "day". *)
Lemma C6_counterexample :
  snd (metoffice_weather_codes_to_str "day" [9; 12; 15])
  <> Ok (phrase 9 +:+ ", with " +:+ phrase 12 +:+ " and " +:+ phrase 15).
Proof. vm_compute. discriminate. Qed.

(** C6 (amended): code 9 is one of the codes skipped when rendering for
    "day", so [9, 12, 15] renders as the phrase for 12, ", with ", the phrase
    for 15; three codes of which none is skipped for the part (and none
    pruned) are joined as "<a>, with <b> and <c>". *)
Theorem C6_three_code_join (part : string) (skip : gset Z) (a b c : Z) :
  codes_to_skip_of part = Some skip ->
  a ∉ skip -> b ∉ skip -> c ∉ skip ->
  pruned [a; b; c] = [a; b; c] ->
  snd (metoffice_weather_codes_to_str part [a; b; c]) =
    Ok (phrase a +:+ ", with " +:+ phrase b +:+ " and " +:+ phrase c)
  /\ codes_to_skip_of "day" = Some night_skip_codes
  /\ 9 ∈ night_skip_codes
  /\ snd (metoffice_weather_codes_to_str "day" [9; 12; 15]) =
       Ok (phrase 12 +:+ ", with " +:+ phrase 15)
  /\ phrase 12 +:+ ", with " +:+ phrase 15 = "Light rain, with Heavy rain".
Proof.
  intros Hskip Ha Hb Hc Hpr.
  split; [now rewrite (render_three part skip a b c)|].
  split; [reflexivity|].
  split; [|split; reflexivity].
  unfold night_skip_codes. apply elem_of_list_to_set.
  apply list_elem_of_In. simpl. auto.
Qed.

Lemma C6_three_code_join_witness :
  snd (metoffice_weather_codes_to_str "day" [1; 12; 15]) =
    Ok "Clear and sunny, with Light rain and Heavy rain".
Proof.
  refine (proj1 (C6_three_code_join "day" night_skip_codes 1 12 15
                   eq_refl _ _ _ eq_refl));
    unfold night_skip_codes; rewrite elem_of_list_to_set;
    rewrite list_elem_of_In; simpl; intuition discriminate.
Defined.

(** ** C10 *)

(** C10: for a part other than "day" and "night" the skip set is unbound:
    the renderer raises [UnboundLocalError] whenever the list is non-empty
    after pruning (which is whenever it was non-empty before) and returns the
    empty string on the empty list. *)
Theorem C10_other_part_unbound (part : string) (codes : list Z) :
  part <> "day" -> part <> "night" ->
  (fst (metoffice_weather_codes_to_str part codes) <> [] ->
   snd (metoffice_weather_codes_to_str part codes) = Err UnboundLocalError)
  /\ (fst (metoffice_weather_codes_to_str part codes) = [] <-> codes = [])
  /\ metoffice_weather_codes_to_str part [] = ([], Ok "").
Proof.
  intros Hday Hnight.
  assert (Hskip : codes_to_skip_of part = None).
  { unfold codes_to_skip_of. now rewrite !decide_False. }
  rewrite !metoffice_weather_codes_to_str_eq, Hskip. cbn [fst snd].
  split; [|split].
  - destruct (pruned codes) as [|c l]; [congruence|reflexivity].
  - apply pruned_nil_iff.
  - reflexivity.
Qed.

Lemma C10_other_part_unbound_witness :
  snd (metoffice_weather_codes_to_str "dusk" [3; 7; 2]) = Err UnboundLocalError
  /\ metoffice_weather_codes_to_str "dusk" [] = ([], Ok "").
Proof.
  assert (Hd : "dusk" <> "day") by discriminate.
  assert (Hn : "dusk" <> "night") by discriminate.
  split.
  - apply (proj1 (C10_other_part_unbound "dusk" [3; 7; 2] Hd Hn)).
    vm_compute. discriminate.
  - apply (proj2 (proj2 (C10_other_part_unbound "dusk" [] Hd Hn))).
Defined.

(** * Properties of the composer *)

Lemma prune_summary_idem (s : PeriodSummary) :
  prune_summary (prune_summary s) = prune_summary s.
Proof. unfold prune_summary. simpl. now rewrite pruned_idem. Qed.

Lemma evolves_refl (today tomorrow : string) (a : ForecastIndex) :
  evolves today tomorrow a a.
Proof.
  split; [reflexivity|]. intros d.
  destruct (forecast a !! d) as [ps|]; [|exact I].
  intros p. destruct (ps !! p); [now left|exact I].
Qed.

Lemma evolves_trans (today tomorrow : string) (a b c : ForecastIndex) :
  evolves today tomorrow a b -> evolves today tomorrow b c ->
  evolves today tomorrow a c.
Proof.
  intros [Ht1 H1] [Ht2 H2]. split; [congruence|]. intros d.
  specialize (H1 d). specialize (H2 d).
  destruct (forecast a !! d) as [ps|], (forecast b !! d) as [ps'|],
    (forecast c !! d) as [ps''|]; try easy.
  - intros p. specialize (H1 p). specialize (H2 p).
    destruct (ps !! p) as [s|], (ps' !! p) as [s'|], (ps'' !! p) as [s''|];
      try easy.
    destruct H1 as [->| ->], H2 as [->| ->]; auto.
    right. apply prune_summary_idem.
  - destruct H1 as [-> Hd]. split; [|assumption].
    apply map_eq. intros p. specialize (H2 p). rewrite lookup_empty in *.
    now destruct (ps'' !! p).
Qed.

Lemma evolves_lookup2 (today tomorrow : string) (a b : ForecastIndex)
    (d p : string) :
  evolves today tomorrow a b ->
  match lookup2 (forecast a) d p, lookup2 (forecast b) d p with
  | Some s, Some s' => s' = s \/ s' = prune_summary s
  | None, None => True
  | _, _ => False
  end.
Proof.
  intros [_ H]. specialize (H d). unfold lookup2.
  destruct (forecast a !! d) as [ps|], (forecast b !! d) as [ps'|];
    simpl; try easy.
  - apply H.
  - destruct H as [-> _]. now rewrite lookup_empty.
Qed.

(** The phrase rendered for a period does not depend on whether its list has
    been pruned before. *)
Lemma phrase_after_prune (part : string) (s s' : PeriodSummary) :
  s' = s \/ s' = prune_summary s ->
  snd (metoffice_weather_codes_to_str part (weather_code s')) =
  snd (metoffice_weather_codes_to_str part (weather_code s)).
Proof.
  intros [->| ->]; [reflexivity|].
  rewrite !metoffice_weather_codes_to_str_eq. simpl.
  now rewrite pruned_idem.
Qed.

Lemma phrase_total (part : string) (codes : list Z) :
  part = "day" \/ part = "night" ->
  exists str, snd (metoffice_weather_codes_to_str part codes) = Ok str.
Proof.
  intros Hpart. rewrite metoffice_weather_codes_to_str_eq. simpl.
  destruct Hpart as [->| ->]; apply render_loop_total.
Qed.

(** One subscript-and-render step, seen from the index [ix0] the composer
    started with. *)
Lemma render_period_step (today tomorrow : string) (ix0 ix : ForecastIndex)
    (d p part : string) :
  evolves today tomorrow ix0 ix ->
  d = today \/ d = tomorrow ->
  evolves today tomorrow ix0 (fst (render_period d p part ix)) /\
  snd (render_period d p part ix) =
    match lookup2 (forecast ix0) d p with
    | None => Err KeyError
    | Some s => snd (metoffice_weather_codes_to_str part (weather_code s))
    end.
Proof.
  intros Hev Hd.
  pose proof (evolves_lookup2 today tomorrow ix0 ix d p Hev) as Hl.
  unfold render_period, lookup2 in *.
  destruct (forecast ix !! d) as [ps|] eqn:Ed; simpl in Hl.
  - destruct (ps !! p) as [s'|] eqn:Ep.
    + destruct (forecast ix0 !! d) as [ps0|] eqn:Ed0; simpl in Hl; [|easy].
      destruct (ps0 !! p) as [s|] eqn:Ep0; [|easy]. simpl.
      pose proof (phrase_after_prune part s s' Hl) as Hphrase.
      rewrite metoffice_weather_codes_to_str_eq in *. simpl in *.
      split; [|rewrite Ep0; exact Hphrase].
      eapply evolves_trans; [exact Hev|].
      split; [reflexivity|]. intros d'. simpl.
      destruct (decide (d = d')) as [<-|Hne].
      * rewrite Ed, lookup_insert_eq. intros p'.
        destruct (decide (p = p')) as [<-|Hnp].
        -- rewrite Ep, lookup_insert_eq. now right.
        -- rewrite lookup_insert_ne by assumption.
           destruct (ps !! p'); [now left|exact I].
      * rewrite lookup_insert_ne by assumption.
        destruct (forecast ix !! d') as [ps'|]; [|exact I].
        intros p'. destruct (ps' !! p'); [now left|exact I].
    + simpl. split; [assumption|].
      destruct (forecast ix0 !! d) as [ps0|]; simpl in *; [|reflexivity].
      now destruct (ps0 !! p).
  - simpl. split.
    + eapply evolves_trans; [exact Hev|].
      split; [reflexivity|]. intros d'. simpl.
      destruct (decide (d = d')) as [<-|Hne].
      * rewrite Ed, lookup_insert_eq. now split.
      * rewrite lookup_insert_ne by assumption.
        destruct (forecast ix !! d') as [ps'|]; [|exact I].
        intros p'. destruct (ps' !! p'); [now left|exact I].
    + destruct (forecast ix0 !! d) as [ps0|]; simpl in *; [|reflexivity].
      now destruct (ps0 !! p).
Qed.

Lemma temps_getitem_step (today tomorrow : string) (ix0 ix : ForecastIndex)
    (d : string) :
  evolves today tomorrow ix0 ix ->
  fst (temps_getitem d ix) = ix /\
  snd (temps_getitem d ix) =
    match temps ix0 !! d with
    | Some hl => Ok hl
    | None => Err KeyError
    end.
Proof. intros [Ht _]. unfold temps_getitem. simpl. now rewrite Ht. Qed.

(** A [render_period] call followed by the rest [k] of a template: either the
    period is missing from the index the composer started with and the whole
    raises [KeyError], or its phrase [str] is passed on. *)
Lemma render_then (today tomorrow : string) (ix0 ix : ForecastIndex)
    (d p part : string) (k : string -> M ForecastIndex string) :
  evolves today tomorrow ix0 ix ->
  d = today \/ d = tomorrow ->
  part = "day" \/ part = "night" ->
  (lookup2 (forecast ix0) d p = None /\
   snd (mbind (render_period d p part) k ix) = Err KeyError /\
   evolves today tomorrow ix0 (fst (mbind (render_period d p part) k ix)))
  \/
  (exists s str,
     lookup2 (forecast ix0) d p = Some s /\
     snd (metoffice_weather_codes_to_str part (weather_code s)) = Ok str /\
     evolves today tomorrow ix0 (fst (render_period d p part ix)) /\
     mbind (render_period d p part) k ix =
       k str (fst (render_period d p part ix))).
Proof.
  intros Hev Hd Hpart.
  destruct (render_period_step today tomorrow ix0 ix d p part Hev Hd)
    as [Hev' Hr].
  unfold mbind. destruct (render_period d p part ix) as [ix' r]. simpl in *.
  destruct (lookup2 (forecast ix0) d p) as [s|].
  - right. destruct (phrase_total part (weather_code s) Hpart) as [str Hstr].
    exists s, str. rewrite Hr, Hstr. auto.
  - left. subst r. auto.
Qed.

Lemma temps_then (today tomorrow : string) (ix0 ix : ForecastIndex)
    (d : string) (k : DailyHighLow -> M ForecastIndex string) :
  evolves today tomorrow ix0 ix ->
  (temps ix0 !! d = None /\
   mbind (temps_getitem d) k ix = (ix, Err KeyError))
  \/
  (exists hl, temps ix0 !! d = Some hl /\ mbind (temps_getitem d) k ix = k hl ix).
Proof.
  intros [Ht _]. unfold mbind, temps_getitem. rewrite Ht.
  destruct (temps ix0 !! d) as [hl|]; [right; eauto|left; auto].
Qed.

(** Walks a template: one case per call that can raise. *)
Ltac template_step today tomorrow :=
  match goal with
  | Hev : evolves today tomorrow ?ix0 ?ix
    |- context [mbind (render_period ?d ?p ?part) ?k ?ix] =>
      let s := fresh "s" in
      let str := fresh "str" in
      let Hl := fresh "Hlook" in
      let Hs := fresh "Hphrase" in
      let Hev' := fresh "Hev" in
      let Heq := fresh "Heq" in
      let Herr := fresh "Herr" in
      destruct (render_then today tomorrow ix0 ix d p part k Hev
                  ltac:(auto) ltac:(auto))
        as [(Hl & Herr & Hev') | (s & str & Hl & Hs & Hev' & Heq)];
      [| rewrite Heq; clear Heq; cbv beta ]
  | Hev : evolves today tomorrow ?ix0 ?ix
    |- context [mbind (temps_getitem ?d) ?k ?ix] =>
      let hl := fresh "hl" in
      let Hl := fresh "Htemps" in
      let Heq := fresh "Heq" in
      destruct (temps_then today tomorrow ix0 ix d k Hev)
        as [(Hl & Heq) | (hl & Hl & Heq)];
      rewrite Heq; clear Heq; cbv beta
  end.

(** The composer only raises [KeyError], and whatever it returns, the index
    has changed by [evolves] at most. *)
Lemma compose_evolves (hour : Z) (today tomorrow : string)
    (ix : ForecastIndex) :
  evolves today tomorrow ix (fst (compose hour today tomorrow ix)).
Proof.
  pose proof (evolves_refl today tomorrow ix) as Hev0.
  unfold compose.
  destruct ((5 <=? hour) && (hour <? 11));
    [|destruct ((11 <=? hour) && (hour <? 17));
      [|destruct ((17 <=? hour) && (hour <? 24))]];
    repeat (template_step today tomorrow; [assumption|]);
    try (template_step today tomorrow; [assumption|]);
    try (template_step today tomorrow); unfold mret; simpl; assumption.
Qed.

(** ** C3 *)

(** C3: if the index lacks a (date, day-part) the selected template
    subscripts (or the date whose highs and lows it reads), composing raises
    [KeyError], the lookup failure: no bulletin string is returned.  In
    particular at hour 20 with no "overnight" entry for tomorrow. *)
Theorem C3_missing_period_raises (ix : ForecastIndex) (hour : Z)
    (today tomorrow : string) :
  (exists dp : string * string,
     In dp (required_periods hour today tomorrow) /\
     lookup2 (forecast ix) (fst dp) (snd dp) = None)
  \/ temps ix !! required_temps hour today tomorrow = None ->
  snd (compose hour today tomorrow ix) = Err KeyError.
Proof.
  intros Hmiss.
  pose proof (evolves_refl today tomorrow ix) as Hev0.
  unfold compose, required_periods, required_temps in *.
  destruct ((5 <=? hour) && (hour <? 11));
    [|destruct ((11 <=? hour) && (hour <? 17));
      [|destruct ((17 <=? hour) && (hour <? 24))]];
    repeat (template_step today tomorrow; [assumption|]);
    (template_step today tomorrow; [reflexivity|]);
    exfalso;
    (destruct Hmiss as [((d & p) & Hin & Hnone)|Hnone]; [|congruence]);
    simpl in Hin, Hnone;
    repeat (destruct Hin as [Hin|Hin];
            [injection Hin as <- <-; congruence|]);
    destruct Hin.
Qed.

Lemma C3_missing_period_raises_witness :
  lookup2 (forecast ix_sunny) "2024-05-02" "overnight" = None /\
  snd (compose 20 "2024-05-01" "2024-05-02" ix_sunny) = Err KeyError.
Proof.
  split; [reflexivity|].
  apply C3_missing_period_raises. left.
  exists ("2024-05-02", "overnight"). split; [simpl; auto|reflexivity].
Defined.

(** ** C4 *)

(** The claim as stated fails: composing at hour 6 prunes the stored morning
    list [3, 7] to [3], and composing at hour 2 adds an entry for the missing
    date 2024-05-02. *)
Lemma C4_counterexample :
  (weather_code <$> lookup2 (forecast ix_sunny) "2024-05-01" "morning"
     = Some [3; 7] /\
   weather_code <$>
     lookup2 (forecast (fst (compose 6 "2024-05-01" "2024-05-02" ix_sunny)))
       "2024-05-01" "morning" = Some [3]) /\
  (forecast ix_sunny !! "2024-05-02" = None /\
   forecast (fst (compose 2 "2024-05-01" "2024-05-02" ix_sunny))
     !! "2024-05-02" = Some ∅) /\
  fst (compose 6 "2024-05-01" "2024-05-02" ix_sunny) <> ix_sunny.
Proof.
  split; [split; vm_compute; reflexivity|].
  split; [split; vm_compute; reflexivity|].
  intros Heq.
  assert (H : weather_code <$>
     lookup2 (forecast (fst (compose 6 "2024-05-01" "2024-05-02" ix_sunny)))
       "2024-05-01" "morning" = Some [3]) by (vm_compute; reflexivity).
  rewrite Heq in H. vm_compute in H. discriminate H.
Qed.

Lemma evolves_fixed (today tomorrow : string) (a b : ForecastIndex) :
  evolves today tomorrow a b ->
  is_Some (forecast a !! today) -> is_Some (forecast a !! tomorrow) ->
  map_Forall
    (fun _ ps =>
       map_Forall (fun _ s => pruned (weather_code s) = weather_code s) ps)
    (forecast a) ->
  b = a.
Proof.
  intros [Ht H] [pt Htoday] [pm Htomorrow] Hfix.
  destruct a as [fa ta], b as [fb tb]. simpl in *. subst tb. f_equal.
  apply map_eq. intros d. specialize (H d).
  destruct (fa !! d) as [ps|] eqn:Ea, (fb !! d) as [ps'|] eqn:Eb; try easy.
  - f_equal. apply map_eq. intros p. specialize (H p).
    destruct (ps !! p) as [s|] eqn:Ep, (ps' !! p) as [s'|] eqn:Ep'; try easy.
    destruct H as [->| ->]; [reflexivity|]. f_equal.
    assert (Hs : pruned (weather_code s) = weather_code s).
    { exact (Hfix d ps Ea p s Ep). }
    destruct s. unfold prune_summary. simpl in *. now rewrite Hs.
  - destruct H as [_ [->| ->]]; congruence.
Qed.

(** What a [render_period] call leaves of the index. *)
Lemma render_period_fst (d p part : string) (ix : ForecastIndex) :
  fst (render_period d p part ix) = touch d p ix.
Proof.
  unfold render_period, touch.
  destruct (forecast ix !! d) as [ps|]; [|reflexivity].
  destruct (ps !! p) as [s|]; [|reflexivity].
  now rewrite metoffice_weather_codes_to_str_eq.
Qed.

Lemma lookup2_touch (d0 p0 : string) (ix : ForecastIndex) (d p : string) :
  lookup2 (forecast (touch d0 p0 ix)) d p =
    if decide (d = d0 /\ p = p0)
    then prune_summary <$> lookup2 (forecast ix) d p
    else lookup2 (forecast ix) d p.
Proof.
  unfold touch, lookup2.
  destruct (forecast ix !! d0) as [ps|] eqn:Ed0.
  - destruct (ps !! p0) as [s|] eqn:Ep0.
    + cbn [forecast]. destruct (decide (d = d0)) as [->|Hd].
      * rewrite lookup_insert_eq, Ed0. cbn.
        destruct (decide (p = p0)) as [->|Hp].
        -- rewrite lookup_insert_eq, Ep0, decide_True by auto. reflexivity.
        -- rewrite lookup_insert_ne by congruence.
           now rewrite decide_False by (intros [_ ?]; congruence).
      * rewrite lookup_insert_ne by congruence.
        now rewrite decide_False by (intros [? _]; congruence).
    + destruct (decide (d = d0 /\ p = p0)) as [[-> ->]|_]; [|reflexivity].
      rewrite Ed0. cbn. now rewrite Ep0.
  - cbn [forecast]. destruct (decide (d = d0)) as [->|Hd].
    + rewrite lookup_insert_eq, Ed0. cbn. rewrite lookup_empty.
      now destruct (decide (d0 = d0 /\ p = p0)).
    + rewrite lookup_insert_ne by congruence.
      now rewrite decide_False by (intros [? _]; congruence).
Qed.

Lemma lookup2_touch_None (d0 p0 : string) (ix : ForecastIndex)
    (d p : string) :
  lookup2 (forecast (touch d0 p0 ix)) d p = None <->
  lookup2 (forecast ix) d p = None.
Proof.
  rewrite lookup2_touch. destruct (decide (d = d0 /\ p = p0)); [|reflexivity].
  destruct (lookup2 (forecast ix) d p); cbn; split; congruence.
Qed.

Lemma forecast_touch (d0 p0 : string) (ix : ForecastIndex) (d : string) :
  (d <> d0 -> forecast (touch d0 p0 ix) !! d = forecast ix !! d) /\
  (forecast ix !! d0 = None -> forecast (touch d0 p0 ix) !! d0 = Some ∅) /\
  (forecast ix !! d = Some ∅ -> forecast (touch d0 p0 ix) !! d = Some ∅) /\
  (is_Some (forecast ix !! d) -> is_Some (forecast (touch d0 p0 ix) !! d)) /\
  temps (touch d0 p0 ix) = temps ix.
Proof.
  unfold touch.
  destruct (forecast ix !! d0) as [ps|] eqn:Ed0.
  - destruct (ps !! p0) as [s|] eqn:Ep0; cbn [forecast temps].
    + repeat split; try congruence.
      * intros Hd. now rewrite lookup_insert_ne by congruence.
      * intros Hd. destruct (decide (d = d0)) as [->|Hne].
        -- rewrite Ed0 in Hd. injection Hd as ->.
           rewrite lookup_empty in Ep0. discriminate Ep0.
        -- now rewrite lookup_insert_ne by congruence.
      * intros Hd. destruct (decide (d = d0)) as [->|Hne].
        -- rewrite lookup_insert_eq. eauto.
        -- now rewrite lookup_insert_ne by congruence.
    + repeat split; auto; congruence.
  - cbn [forecast temps]. repeat split.
    + intros Hd. now rewrite lookup_insert_ne by congruence.
    + intros _. apply lookup_insert_eq.
    + intros Hd. destruct (decide (d = d0)) as [->|Hne]; [congruence|].
      now rewrite lookup_insert_ne by congruence.
    + intros Hd. destruct (decide (d = d0)) as [->|Hne].
      * rewrite lookup_insert_eq. eauto.
      * now rewrite lookup_insert_ne by congruence.
Qed.

(** A [render_period] call followed by the rest of a template, with the
    index it leaves. *)
Lemma render_bind_state (ix0 s : ForecastIndex) (d p part : string)
    (k : string -> M ForecastIndex string) :
  (forall d' p', lookup2 (forecast s) d' p' = None <->
                 lookup2 (forecast ix0) d' p' = None) ->
  part = "day" \/ part = "night" ->
  match lookup2 (forecast ix0) d p with
  | None => mbind (render_period d p part) k s = (touch d p s, Err KeyError)
  | Some _ =>
      exists str, mbind (render_period d p part) k s = k str (touch d p s)
  end /\
  (forall d' p', lookup2 (forecast (touch d p s)) d' p' = None <->
                 lookup2 (forecast ix0) d' p' = None).
Proof.
  intros Hinv Hpart. split.
  - pose proof (render_period_fst d p part s) as Hfst.
    specialize (Hinv d p). unfold mbind.
    destruct (render_period d p part s) as [s' r] eqn:E. cbn [fst] in Hfst.
    subst s'.
    destruct (lookup2 (forecast ix0) d p) as [s0|] eqn:E0.
    + assert (Hs : lookup2 (forecast s) d p <> None)
        by (rewrite Hinv; discriminate).
      unfold render_period, lookup2 in E, Hs.
      destruct (forecast s !! d) as [ps|]; [|now cbn in Hs].
      cbn in Hs. destruct (ps !! p) as [sm|]; [|congruence].
      destruct (phrase_total part (weather_code sm) Hpart) as [str Hstr].
      destruct (metoffice_weather_codes_to_str part (weather_code sm))
        as [codes' r'].
      cbn [snd] in Hstr. subst r'. injection E as _ <-. eauto.
    + assert (Hs : lookup2 (forecast s) d p = None) by now apply Hinv.
      unfold render_period, lookup2 in E, Hs.
      destruct (forecast s !! d) as [ps|]; [|now injection E as _ <-].
      cbn in Hs. rewrite Hs in E. now injection E as _ <-.
  - intros d' p'. now rewrite lookup2_touch_None.
Qed.

(** The index a template leaves: every subscript it performs has touched
    it, in order. *)
Lemma compose_state (ix : ForecastIndex) (hour : Z)
    (today tomorrow : string) :
  fst (compose hour today tomorrow ix) =
    fold_left (fun s dp => touch (fst dp) (snd dp) s)
      (executed ix (required_periods hour today tomorrow)) ix.
Proof.
  assert (Hinv0 : forall d' p', lookup2 (forecast ix) d' p' = None <->
                                lookup2 (forecast ix) d' p' = None)
    by reflexivity.
  unfold compose, required_periods.
  destruct ((5 <=? hour) && (hour <? 11));
    [|destruct ((11 <=? hour) && (hour <? 17));
      [|destruct ((17 <=? hour) && (hour <? 24))]];
    cbn [executed fst snd];
    repeat
      match goal with
      | Hinv : forall d' p', lookup2 (forecast ?s) d' p' = None <-> _
        |- context [mbind (render_period ?d ?p ?part) ?k ?s] =>
          let Hb := fresh "Hb" in
          let Hinv' := fresh "Hinv" in
          let str := fresh "str" in
          destruct (render_bind_state ix s d p part k Hinv ltac:(auto))
            as [Hb Hinv'];
          clear Hinv;
          destruct (lookup2 (forecast ix) d p);
          [destruct Hb as [str Hb]; rewrite Hb; clear Hb;
           cbn [fold_left fst snd]
          |rewrite Hb; reflexivity]
      end;
    unfold mbind, temps_getitem, mret;
    match goal with
    | |- context [temps ?s !! ?d] => destruct (temps s !! d)
    end; reflexivity.
Qed.

Lemma fold_touch_lookup2 (E : list (string * string)) (s : ForecastIndex)
    (d p : string) :
  lookup2 (forecast (fold_left (fun s dp => touch (fst dp) (snd dp) s) E s))
    d p =
  if decide ((d, p) ∈ E) then prune_summary <$> lookup2 (forecast s) d p
  else lookup2 (forecast s) d p.
Proof.
  revert s. induction E as [|[d0 p0] E IH]; intros s.
  - cbn [fold_left]. rewrite decide_False; [reflexivity|].
    apply not_elem_of_nil.
  - cbn [fold_left fst snd]. rewrite IH, lookup2_touch.
    assert (Hidem : forall o : option PeriodSummary,
               prune_summary <$> (prune_summary <$> o) = prune_summary <$> o).
    { intros [x|]; cbn; [now rewrite prune_summary_idem|reflexivity]. }
    destruct (decide ((d, p) ∈ (d0, p0) :: E)) as [Hin2|Hnin2];
      destruct (decide ((d, p) ∈ E)) as [Hin|Hnin];
      destruct (decide (d = d0 /\ p = p0)) as [[-> ->]|Hne];
      try reflexivity; try apply Hidem.
    + apply elem_of_cons in Hin2 as [[= -> ->]|Hin2]; [|contradiction].
      exfalso. apply Hne. auto.
    + exfalso. apply Hnin2, elem_of_cons. auto.
    + exfalso. apply Hnin2, elem_of_cons. auto.
    + exfalso. apply Hnin2, elem_of_cons. auto.
Qed.

Lemma fold_touch_dates (E : list (string * string)) (s : ForecastIndex)
    (d : string) :
  temps (fold_left (fun s dp => touch (fst dp) (snd dp) s) E s) = temps s /\
  (forecast s !! d = Some ∅ ->
   forecast (fold_left (fun s dp => touch (fst dp) (snd dp) s) E s) !! d
     = Some ∅) /\
  (forecast s !! d = None -> (exists p, In (d, p) E) ->
   forecast (fold_left (fun s dp => touch (fst dp) (snd dp) s) E s) !! d
     = Some ∅) /\
  (forecast s !! d = None -> ~ (exists p, In (d, p) E) ->
   forecast (fold_left (fun s dp => touch (fst dp) (snd dp) s) E s) !! d
     = None) /\
  (is_Some (forecast s !! d) ->
   is_Some
     (forecast (fold_left (fun s dp => touch (fst dp) (snd dp) s) E s) !! d)).
Proof.
  revert s. induction E as [|[d0 p0] E IH]; intros s.
  - cbn [fold_left]. repeat split; auto. intros _ [p []].
  - cbn [fold_left fst snd].
    destruct (IH (touch d0 p0 s)) as (Ht & Hempty & Hadd & Hnone & Hsome).
    destruct (forecast_touch d0 p0 s d) as (Fne & _ & Fempty & Fsome & Ftemps).
    destruct (forecast_touch d0 p0 s d0) as (_ & Fadd & _).
    split; [congruence|]. split; [auto|]. split; [|split; [|auto]].
    + intros Hd (p & [[= -> ->]|Hin]).
      * apply Hempty. now apply Fadd.
      * destruct (decide (d = d0)) as [->|Hne].
        -- apply Hempty. now apply Fadd.
        -- apply Hadd; [rewrite Fne; assumption|eauto].
    + intros Hd Hno.
      assert (Hne : d <> d0).
      { intros ->. apply Hno. exists p0. now left. }
      apply Hnone; [rewrite Fne; assumption|].
      intros (p & Hin). apply Hno. exists p. now right.
Qed.

(** C4 (amended): composing a bulletin does change the index, in two ways
    only.  For every subscript the template performs before it returns or
    raises (those of its list up to and including the first missing one),
    the stored summary has its code list pruned in place (7 and 2 removed
    when 3 is there), and a missing date so subscripted is added with an
    empty dictionary.  Every other summary and date is as before; the highs
    and lows, the dates and day-parts present and the other fields of a
    summary never change.  When today and tomorrow are present and pruning
    changes no stored list, the index is left unchanged. *)
Theorem C4_index_changed_by_lookup_and_pruning (ix : ForecastIndex)
    (hour : Z) (today tomorrow : string) :
  let ix' := fst (compose hour today tomorrow ix) in
  let subscripted := executed ix (required_periods hour today tomorrow) in
  temps ix' = temps ix /\
  (forall d p, In (d, p) subscripted ->
     lookup2 (forecast ix') d p =
       prune_summary <$> lookup2 (forecast ix) d p) /\
  (forall d p, ~ In (d, p) subscripted ->
     lookup2 (forecast ix') d p = lookup2 (forecast ix) d p) /\
  (forall d, forecast ix !! d = None -> (exists p, In (d, p) subscripted) ->
     forecast ix' !! d = Some ∅) /\
  (forall d, forecast ix !! d = None -> ~ (exists p, In (d, p) subscripted) ->
     forecast ix' !! d = None) /\
  (forall d, is_Some (forecast ix !! d) -> is_Some (forecast ix' !! d)) /\
  evolves today tomorrow ix ix' /\
  (is_Some (forecast ix !! today) -> is_Some (forecast ix !! tomorrow) ->
   map_Forall
     (fun _ ps =>
        map_Forall (fun _ s => pruned (weather_code s) = weather_code s) ps)
     (forecast ix) ->
   ix' = ix).
Proof.
  intros ix' subscripted.
  assert (Hst : ix' = fold_left (fun s dp => touch (fst dp) (snd dp) s)
                        subscripted ix) by apply compose_state.
  split; [rewrite Hst; apply (fold_touch_dates subscripted ix "")|].
  split.
  { intros d p Hin. rewrite Hst, fold_touch_lookup2.
    rewrite decide_True by (now apply list_elem_of_In). reflexivity. }
  split.
  { intros d p Hnin. rewrite Hst, fold_touch_lookup2.
    rewrite decide_False by (now rewrite list_elem_of_In). reflexivity. }
  split.
  { intros d. rewrite Hst. apply (fold_touch_dates subscripted ix d). }
  split.
  { intros d. rewrite Hst. apply (fold_touch_dates subscripted ix d). }
  split.
  { intros d. rewrite Hst. apply (fold_touch_dates subscripted ix d). }
  split; [apply compose_evolves|].
  intros Ht Hm Hfix.
  now apply (evolves_fixed today tomorrow ix _ (compose_evolves _ _ _ _)).
Qed.

Lemma C4_index_changed_by_lookup_and_pruning_witness :
  fst (compose 6 "2024-05-01" "2024-05-02" ix_two_days) = ix_two_days.
Proof.
  apply (C4_index_changed_by_lookup_and_pruning
           ix_two_days 6 "2024-05-01" "2024-05-02").
  - eexists. vm_compute. reflexivity.
  - eexists. vm_compute. reflexivity.
  - unfold ix_two_days. cbn [forecast].
    apply map_Forall_insert_2.
    + apply map_Forall_insert_2; [reflexivity|].
      apply map_Forall_insert_2; [reflexivity|].
      apply map_Forall_singleton. reflexivity.
    + apply map_Forall_singleton.
      apply map_Forall_insert_2; [reflexivity|].
      apply map_Forall_insert_2; [reflexivity|].
      apply map_Forall_singleton. reflexivity.
Defined.

(** ** C7 *)

(** The comparison in the morning template is on the rendered strings: the
    code lists [1] and [1, 9] differ, both render as "Clear and sunny" for
    "day", and the template collapses. *)
Example collapse_on_equal_phrases :
  snd (compose 6 "2024-05-01" "2024-05-02" ix_two_days) =
    Ok ("Clear and sunny this morning, staying much the same throughout the "
        +:+ "afternoon in North East Somerset, with temperatures reaching "
        +:+ "{'high': 18, 'low': 12} degrees.").
Proof. vm_compute. reflexivity. Qed.

(** C7: in the morning window (hour in [5,11)) with the morning and the
    afternoon of today and today's highs and lows present, the bulletin is
    the morning phrase, " this morning, ", then the "staying much the same"
    clause when the two rendered phrases are equal strings, and the afternoon
    phrase with its own clause when they differ, then the temperature
    clause. *)
Theorem C7_morning_template_collapse (ix : ForecastIndex) (hour : Z)
    (today tomorrow : string) (sm sa : PeriodSummary) (hl : DailyHighLow) :
  5 <= hour < 11 ->
  lookup2 (forecast ix) today "morning" = Some sm ->
  lookup2 (forecast ix) today "afternoon" = Some sa ->
  temps ix !! today = Some hl ->
  exists m a : string,
    snd (metoffice_weather_codes_to_str "day" (weather_code sm)) = Ok m /\
    snd (metoffice_weather_codes_to_str "day" (weather_code sa)) = Ok a /\
    (m = a ->
     snd (compose hour today tomorrow ix) =
       Ok ((m +:+ " this morning, " +:+
            "staying much the same throughout the afternoon in North East Somerset, ")
           +:+ "with temperatures reaching " +:+ py_str_high_low hl
           +:+ " degrees.")) /\
    (m <> a ->
     snd (compose hour today tomorrow ix) =
       Ok ((m +:+ " this morning, " +:+
            a +:+ " across North East Somerset this afternoon ")
           +:+ "with temperatures reaching " +:+ py_str_high_low hl
           +:+ " degrees.")).
Proof.
  intros Hhour Hm Ha Ht.
  pose proof (evolves_refl today tomorrow ix) as Hev0.
  unfold compose.
  replace ((5 <=? hour) && (hour <? 11)) with true
    by (symmetry; apply andb_true_intro; split;
        [apply Z.leb_le|apply Z.ltb_lt]; lia).
  template_step today tomorrow; [congruence|].
  template_step today tomorrow; [congruence|].
  template_step today tomorrow; [congruence|].
  rewrite Hm in Hlook. rewrite Ha in Hlook0. rewrite Ht in Htemps.
  injection Hlook as <-. injection Hlook0 as <-. injection Htemps as <-.
  exists str, str0. split; [assumption|]. split; [assumption|].
  unfold mret. cbn [snd].
  split; intros Hcmp.
  - rewrite decide_True by assumption. now rewrite !append_assoc.
  - rewrite decide_False by assumption. now rewrite !append_assoc.
Qed.

Lemma C7_morning_template_collapse_witness :
  exists m a : string,
    snd (metoffice_weather_codes_to_str "day" [1]) = Ok m /\
    snd (metoffice_weather_codes_to_str "day" [1; 9]) = Ok a /\
    (m = a ->
     snd (compose 6 "2024-05-01" "2024-05-02" ix_two_days) =
       Ok ((m +:+ " this morning, " +:+
            "staying much the same throughout the afternoon in North East Somerset, ")
           +:+ "with temperatures reaching "
           +:+ py_str_high_low {| high := 18; low := 12 |} +:+ " degrees.")) /\
    (m <> a ->
     snd (compose 6 "2024-05-01" "2024-05-02" ix_two_days) =
       Ok ((m +:+ " this morning, " +:+
            a +:+ " across North East Somerset this afternoon ")
           +:+ "with temperatures reaching "
           +:+ py_str_high_low {| high := 18; low := 12 |} +:+ " degrees.")).
Proof.
  apply (C7_morning_template_collapse ix_two_days 6 "2024-05-01" "2024-05-02"
           (summary_of_codes [1]) (summary_of_codes [1; 9])
           {| high := 18; low := 12 |}).
  - lia.
  - vm_compute. reflexivity.
  - vm_compute. reflexivity.
  - vm_compute. reflexivity.
Defined.

(** * Properties of the built-ins used by the aggregator *)

Section Extrema.
Context {A : Type} (ltb : A -> A -> bool).
Hypothesis ltb_irrefl : forall x, ltb x x = false.
Hypothesis ltb_trans :
  forall x y z, ltb x y = true -> ltb y z = true -> ltb x z = true.

Lemma fold_max_spec (l : list A) (m0 : A) (seen : A -> Prop) :
  (forall y, seen y -> ltb m0 y = false) ->
  let m := fold_left (fun m y => if ltb m y then y else m) l m0 in
  (m = m0 \/ In m l) /\
  (forall y, seen y \/ In y l -> ltb m y = false).
Proof.
  revert m0 seen. induction l as [|x l IH]; intros m0 seen Hseen; simpl.
  - split; [now left|]. intros y [Hy|[]]. now apply Hseen.
  - destruct (ltb m0 x) eqn:Hlt.
    + destruct (IH x (fun y => seen y \/ y = m0 \/ y = x)) as [Hin Hub].
      * intros y [Hy|[->| ->]].
        -- destruct (ltb x y) eqn:Hxy; [|reflexivity].
           pose proof (Hseen y Hy) as Hc.
           rewrite (ltb_trans m0 x y Hlt Hxy) in Hc. discriminate Hc.
        -- destruct (ltb x m0) eqn:Hxm; [|reflexivity].
           pose proof (ltb_trans m0 x m0 Hlt Hxm) as Hc.
           rewrite ltb_irrefl in Hc. discriminate Hc.
        -- apply ltb_irrefl.
      * split; [destruct Hin as [->|Hin]; auto|].
        intros y [Hy|[->|Hy]]; apply Hub; auto.
    + destruct (IH m0 (fun y => seen y \/ y = x)) as [Hin Hub].
      * intros y [Hy| ->]; auto.
      * split; [destruct Hin as [->|Hin]; auto|].
        intros y [Hy|[->|Hy]]; apply Hub; auto.
Qed.

Lemma fold_min_spec (l : list A) (m0 : A) (seen : A -> Prop) :
  (forall y, seen y -> ltb y m0 = false) ->
  let m := fold_left (fun m y => if ltb y m then y else m) l m0 in
  (m = m0 \/ In m l) /\
  (forall y, seen y \/ In y l -> ltb y m = false).
Proof.
  revert m0 seen. induction l as [|x l IH]; intros m0 seen Hseen; simpl.
  - split; [now left|]. intros y [Hy|[]]. now apply Hseen.
  - destruct (ltb x m0) eqn:Hlt.
    + destruct (IH x (fun y => seen y \/ y = m0 \/ y = x)) as [Hin Hub].
      * intros y [Hy|[->| ->]].
        -- destruct (ltb y x) eqn:Hyx; [|reflexivity].
           pose proof (Hseen y Hy) as Hc.
           rewrite (ltb_trans y x m0 Hyx Hlt) in Hc. discriminate Hc.
        -- destruct (ltb m0 x) eqn:Hmx; [|reflexivity].
           pose proof (ltb_trans m0 x m0 Hmx Hlt) as Hc.
           rewrite ltb_irrefl in Hc. discriminate Hc.
        -- apply ltb_irrefl.
      * split; [destruct Hin as [->|Hin]; auto|].
        intros y [Hy|[->|Hy]]; apply Hub; auto.
    + destruct (IH m0 (fun y => seen y \/ y = x)) as [Hin Hub].
      * intros y [Hy| ->]; auto.
      * split; [destruct Hin as [->|Hin]; auto|].
        intros y [Hy|[->|Hy]]; apply Hub; auto.
Qed.

Lemma py_max_spec (l : list A) (m : A) :
  py_max ltb l = Ok m -> In m l /\ forall y, In y l -> ltb m y = false.
Proof.
  destruct l as [|x l]; [discriminate|]. intros [= <-].
  destruct (fold_max_spec l x (fun y => y = x)) as [Hin Hub].
  - intros y ->. apply ltb_irrefl.
  - split; [destruct Hin as [->|Hin]; simpl; auto|].
    intros y [<-|Hy]; apply Hub; auto.
Qed.

Lemma py_min_spec (l : list A) (m : A) :
  py_min ltb l = Ok m -> In m l /\ forall y, In y l -> ltb y m = false.
Proof.
  destruct l as [|x l]; [discriminate|]. intros [= <-].
  destruct (fold_min_spec l x (fun y => y = x)) as [Hin Hub].
  - intros y ->. apply ltb_irrefl.
  - split; [destruct Hin as [->|Hin]; simpl; auto|].
    intros y [<-|Hy]; apply Hub; auto.
Qed.
(** The running maximum is the first element or above it; the running
    minimum is the first element or below it. *)
Lemma fold_max_first (l : list A) (m0 : A) :
  let m := fold_left (fun m y => if ltb m y then y else m) l m0 in
  m = m0 \/ ltb m0 m = true.
Proof.
  revert m0. induction l as [|x l IH]; intros m0; simpl; [now left|].
  destruct (ltb m0 x) eqn:Hlt.
  - destruct (IH x) as [->|Hx]; [now right|]. right.
    exact (ltb_trans _ _ _ Hlt Hx).
  - apply IH.
Qed.

Lemma fold_min_first (l : list A) (m0 : A) :
  let m := fold_left (fun m y => if ltb y m then y else m) l m0 in
  m = m0 \/ ltb m m0 = true.
Proof.
  revert m0. induction l as [|x l IH]; intros m0; simpl; [now left|].
  destruct (ltb x m0) eqn:Hlt.
  - destruct (IH x) as [->|Hx]; [now right|]. right.
    exact (ltb_trans _ _ _ Hx Hlt).
  - apply IH.
Qed.
End Extrema.

Lemma py_max_total {A} (ltb : A -> A -> bool) (l : list A) :
  l <> [] -> exists m, py_max ltb l = Ok m.
Proof. destruct l; [congruence|]. intros _. eexists. reflexivity. Qed.

Lemma py_min_total {A} (ltb : A -> A -> bool) (l : list A) :
  l <> [] -> exists m, py_min ltb l = Ok m.
Proof. destruct l; [congruence|]. intros _. eexists. reflexivity. Qed.

Lemma Qltb_lt (x y : Q) : Qltb x y = true <-> (x < y)%Q.
Proof.
  unfold Qltb. rewrite Qlt_alt.
  destruct (x ?= y)%Q; split; congruence.
Qed.

Lemma Qltb_ge (x y : Q) : Qltb x y = false <-> (y <= x)%Q.
Proof.
  rewrite <- not_true_iff_false, Qltb_lt. split.
  - apply Qnot_lt_le.
  - intros Hle Hlt. exact (Qle_not_lt _ _ Hle Hlt).
Qed.

Lemma Qltb_irrefl (x : Q) : Qltb x x = false.
Proof. apply Qltb_ge, Qle_refl. Qed.

Lemma Qltb_trans (x y z : Q) :
  Qltb x y = true -> Qltb y z = true -> Qltb x z = true.
Proof. rewrite !Qltb_lt. apply Qlt_trans. Qed.

Lemma Zltb_trans (x y z : Z) :
  Z.ltb x y = true -> Z.ltb y z = true -> Z.ltb x z = true.
Proof. rewrite !Z.ltb_lt. lia. Qed.

Lemma num_ltb_irrefl (x : num) : num_ltb x x = false.
Proof. destruct x; try reflexivity. apply Qltb_irrefl. Qed.

Lemma num_ltb_trans (x y z : num) :
  num_ltb x y = true -> num_ltb y z = true -> num_ltb x z = true.
Proof.
  destruct x, y, z; cbn; try congruence. apply Qltb_trans.
Qed.

(** Away from NaN, "not below" is "at least". *)
Lemma num_ltb_ge (x y : num) :
  not_nan x -> not_nan y -> num_ltb x y = false -> num_le y x.
Proof.
  destruct x, y; cbn; try easy. intros _ _. apply Qltb_ge.
Qed.

Lemma py_max_N (l : list num) (m : num) :
  Forall not_nan l -> py_max num_ltb l = Ok m -> Nmax_of m l.
Proof.
  intros Hnn H. rewrite List.Forall_forall in Hnn.
  destruct (py_max_spec num_ltb num_ltb_irrefl num_ltb_trans l m H)
    as [Hin Hub].
  split; [assumption|]. intros x Hx. apply num_ltb_ge; auto.
Qed.

Lemma py_min_N (l : list num) (m : num) :
  Forall not_nan l -> py_min num_ltb l = Ok m -> Nmin_of m l.
Proof.
  intros Hnn H. rewrite List.Forall_forall in Hnn.
  destruct (py_min_spec num_ltb num_ltb_irrefl num_ltb_trans l m H)
    as [Hin Hub].
  split; [assumption|]. intros x Hx. apply num_ltb_ge; auto.
Qed.

Lemma py_max_Z (l : list Z) (m : Z) :
  py_max Z.ltb l = Ok m -> Zmax_of m l.
Proof.
  intros H.
  destruct (py_max_spec Z.ltb Z.ltb_irrefl Zltb_trans l m H) as [Hin Hub].
  split; [assumption|]. intros x Hx. apply Z.ltb_ge. now apply Hub.
Qed.

Lemma round_half_even_comp (x y : Q) :
  (x == y)%Q -> round_half_even x = round_half_even y.
Proof.
  intros Heq. unfold round_half_even. rewrite (Qfloor_comp x y Heq).
  assert (Hc : ((x - inject_Z (Qfloor y)) ?= (1 # 2))%Q
               = ((y - inject_Z (Qfloor y)) ?= (1 # 2))%Q).
  { apply Qcompare_comp; [|reflexivity]. now rewrite Heq. }
  now rewrite Hc.
Qed.

(** Numbers that are each at most the other round alike (or raise alike). *)
Lemma py_round_antisym (x y : num) :
  num_le x y -> num_le y x -> py_round x = py_round y.
Proof.
  destruct x, y; cbn; try easy. intros H1 H2. f_equal.
  apply round_half_even_comp. now apply Qle_antisym.
Qed.

Lemma Nmax_of_perm (l l' : list num) (m m' : num) :
  Permutation l l' -> Nmax_of m l -> Nmax_of m' l' ->
  py_round m = py_round m'.
Proof.
  intros Hp [Hin Hub] [Hin' Hub']. apply py_round_antisym.
  - apply Hub'. now apply (Permutation_in _ Hp).
  - apply Hub. now apply (Permutation_in _ (Permutation_sym Hp)).
Qed.

Lemma Nmin_of_perm (l l' : list num) (m m' : num) :
  Permutation l l' -> Nmin_of m l -> Nmin_of m' l' ->
  py_round m = py_round m'.
Proof.
  intros Hp [Hin Hub] [Hin' Hub']. apply py_round_antisym.
  - apply Hub. now apply (Permutation_in _ (Permutation_sym Hp)).
  - apply Hub'. now apply (Permutation_in _ Hp).
Qed.

Lemma Zmax_of_perm (l l' : list Z) (m m' : Z) :
  Permutation l l' -> Zmax_of m l -> Zmax_of m' l' -> m = m'.
Proof.
  intros Hp [Hin Hub] [Hin' Hub']. apply Z.le_antisymm.
  - apply Hub'. now apply (Permutation_in _ Hp).
  - apply Hub. now apply (Permutation_in _ (Permutation_sym Hp)).
Qed.

(** [round] raises on NaN and on the infinities only. *)
Lemma py_round_finite (x : num) :
  is_finite x -> exists z, py_round x = Ok z.
Proof. destruct x; cbn; try easy. eauto. Qed.

Lemma py_round_error (x : num) (e : exn) :
  py_round x = Err e -> not_nan x -> e = OverflowError.
Proof. destruct x; cbn; try easy; congruence. Qed.

Lemma sorted_insert_perm {A} (ltb : A -> A -> bool) (x : A) (l : list A) :
  Permutation (sorted_insert ltb x l) (x :: l).
Proof.
  induction l as [|y l IH]; simpl; [reflexivity|].
  destruct (ltb y x); [|reflexivity].
  rewrite IH. apply perm_swap.
Qed.

Lemma py_sorted_perm {A} (ltb : A -> A -> bool) (l : list A) :
  Permutation (py_sorted ltb l) l.
Proof.
  induction l as [|x l IH]; simpl; [reflexivity|].
  rewrite sorted_insert_perm. now rewrite IH.
Qed.

Lemma sorted_insert_Z (x : Z) (l : list Z) :
  StronglySorted Z.lt l -> ~ In x l ->
  StronglySorted Z.lt (sorted_insert Z.ltb x l).
Proof.
  induction l as [|y l IH]; intros Hs Hnin; simpl.
  - constructor; constructor.
  - apply StronglySorted_inv in Hs as [Hs Hall].
    destruct (Z.ltb_spec y x) as [Hlt|Hge].
    + constructor.
      * apply IH; [assumption|]. intros Hin. apply Hnin. now right.
      * apply (Permutation_Forall (Permutation_sym (sorted_insert_perm _ _ _))).
        constructor; assumption.
    + assert (Hxy : x < y).
      { assert (x <> y) by (intros ->; apply Hnin; now left). lia. }
      constructor; [constructor; assumption|].
      constructor; [assumption|].
      eapply List.Forall_impl; [|exact Hall]. simpl. intros z Hz. lia.
Qed.

Lemma py_sorted_Z (l : list Z) :
  List.NoDup l -> StronglySorted Z.lt (py_sorted Z.ltb l).
Proof.
  induction 1 as [|x l Hnin Hnd IH]; simpl; [constructor|].
  apply sorted_insert_Z; [assumption|].
  intros Hin. apply Hnin.
  now apply (Permutation_in _ (py_sorted_perm Z.ltb l)).
Qed.

(** * Properties of the aggregator *)

(** ** One bucket: [_get_weather_for_day] *)

Lemma Forall_map_fst_finite (entries : list Observation) :
  Forall finite_temps entries ->
  Forall is_finite (map maxScreenAirTemp entries) /\
  Forall is_finite (map minScreenAirTemp entries).
Proof.
  induction 1 as [|e l [Hmx Hmn] _ [IH1 IH2]]; split; constructor; auto.
Qed.

Lemma Forall_map_not_nan (entries : list Observation) :
  Forall no_nan_temps entries ->
  Forall not_nan (map maxScreenAirTemp entries) /\
  Forall not_nan (map minScreenAirTemp entries).
Proof.
  induction 1 as [|e l [Hmx Hmn] _ [IH1 IH2]]; split; constructor; auto.
Qed.

Lemma is_finite_not_nan (x : num) : is_finite x -> not_nan x.
Proof. now destruct x. Qed.

Lemma finite_no_nan (entries : list Observation) :
  Forall finite_temps entries -> Forall no_nan_temps entries.
Proof.
  apply List.Forall_impl. intros e [H1 H2].
  split; now apply is_finite_not_nan.
Qed.

(** A bucket with an entry and finite temperatures has a summary. *)
Lemma _get_weather_for_day_total (entries : list Observation) :
  entries <> [] -> Forall finite_temps entries ->
  returns (_get_weather_for_day entries).
Proof.
  intros Hne Hfin.
  destruct (Forall_map_fst_finite entries Hfin) as [Hmx Hmn].
  rewrite List.Forall_forall in Hmx, Hmn.
  assert (Hne1 : map maxScreenAirTemp entries <> [])
    by (destruct entries; [congruence|discriminate]).
  assert (Hne2 : map minScreenAirTemp entries <> [])
    by (destruct entries; [congruence|discriminate]).
  assert (Hne3 : map uvIndex entries <> [])
    by (destruct entries; [congruence|discriminate]).
  assert (Hne4 : map probOfRain entries <> [])
    by (destruct entries; [congruence|discriminate]).
  destruct (py_max_total num_ltb _ Hne1) as [mx Emx].
  destruct (py_min_total num_ltb _ Hne2) as [mn Emn].
  destruct (py_max_total Z.ltb _ Hne3) as [uv Euv].
  destruct (py_max_total Z.ltb _ Hne4) as [rain Erain].
  destruct (py_round_finite mx) as [zx Ezx].
  { apply Hmx.
    exact (proj1 (py_max_spec num_ltb num_ltb_irrefl num_ltb_trans _ _ Emx)). }
  destruct (py_round_finite mn) as [zn Ezn].
  { apply Hmn.
    exact (proj1 (py_min_spec num_ltb num_ltb_irrefl num_ltb_trans _ _ Emn)). }
  unfold _get_weather_for_day.
  rewrite Emx. cbn [rbind]. rewrite Ezx. cbn [rbind].
  rewrite Emn. cbn [rbind]. rewrite Ezn. cbn [rbind].
  rewrite Euv. cbn [rbind]. rewrite Erain. cbn [rbind].
  eexists. reflexivity.
Qed.

Lemma _get_weather_for_day_nil :
  _get_weather_for_day [] = Err ValueError.
Proof. reflexivity. Qed.

Lemma codes_of_spec (entries : list Observation) :
  let codes :=
    py_sorted Z.ltb
      (elements (list_to_set (map significantWeatherCode entries) : gset Z)) in
  StronglySorted Z.lt codes /\
  forall c, In c codes <->
            exists e, In e entries /\ significantWeatherCode e = c.
Proof.
  intros codes. split.
  - apply py_sorted_Z. apply NoDup_ListNoDup, NoDup_elements.
  - intros c. unfold codes. split.
    + intros Hin. apply (Permutation_in _ (py_sorted_perm Z.ltb _)) in Hin.
      apply list_elem_of_In, elem_of_elements, elem_of_list_to_set in Hin.
      apply list_elem_of_In, in_map_iff in Hin as (e & He & Hin). eauto.
    + intros (e & Hin & He).
      apply (Permutation_in _ (Permutation_sym (py_sorted_perm Z.ltb _))).
      apply list_elem_of_In, elem_of_elements, elem_of_list_to_set.
      apply list_elem_of_In, in_map_iff. eauto.
Qed.

(** The steps of [_get_weather_for_day] that led to a summary. *)
Lemma _get_weather_for_day_inv (entries : list Observation)
    (s : PeriodSummary) :
  _get_weather_for_day entries = Ok s ->
  exists mx mn : Q,
    py_max num_ltb (map maxScreenAirTemp entries) = Ok (Fin mx) /\
    max_temp s = round_half_even mx /\
    py_min num_ltb (map minScreenAirTemp entries) = Ok (Fin mn) /\
    min_temp s = round_half_even mn /\
    py_max Z.ltb (map uvIndex entries) = Ok (uv_index s) /\
    py_max Z.ltb (map probOfRain entries) = Ok (prob_of_rain s) /\
    weather_code s =
      py_sorted Z.ltb
        (elements (list_to_set (map significantWeatherCode entries) : gset Z)).
Proof.
  unfold _get_weather_for_day, rbind.
  destruct (py_max num_ltb (map maxScreenAirTemp entries)) as [mx|] eqn:Emx;
    [|discriminate].
  destruct (py_round mx) as [zx|] eqn:Ezx; [|discriminate].
  destruct (py_min num_ltb (map minScreenAirTemp entries)) as [mn|] eqn:Emn;
    [|discriminate].
  destruct (py_round mn) as [zn|] eqn:Ezn; [|discriminate].
  destruct (py_max Z.ltb (map uvIndex entries)) as [uv|] eqn:Euv;
    [|discriminate].
  destruct (py_max Z.ltb (map probOfRain entries)) as [rain|] eqn:Erain;
    [|discriminate].
  intros [= <-]. cbn [max_temp min_temp weather_code uv_index prob_of_rain].
  destruct mx as [qx| | |]; try discriminate Ezx.
  destruct mn as [qn| | |]; try discriminate Ezn.
  cbn in Ezx, Ezn. injection Ezx as <-. injection Ezn as <-.
  exists qx, qn. repeat split; reflexivity.
Qed.

(** What [_get_weather_for_day] returns, field by field. *)
Lemma _get_weather_for_day_spec (entries : list Observation)
    (s : PeriodSummary) :
  Forall no_nan_temps entries ->
  _get_weather_for_day entries = Ok s ->
  (exists mx : Q, Nmax_of (Fin mx) (map maxScreenAirTemp entries) /\
                  max_temp s = round_half_even mx) /\
  (exists mn : Q, Nmin_of (Fin mn) (map minScreenAirTemp entries) /\
                  min_temp s = round_half_even mn) /\
  StronglySorted Z.lt (weather_code s) /\
  (forall c, In c (weather_code s) <->
             exists e, In e entries /\ significantWeatherCode e = c) /\
  Zmax_of (uv_index s) (map uvIndex entries) /\
  Zmax_of (prob_of_rain s) (map probOfRain entries).
Proof.
  intros Hnn Hs.
  destruct (Forall_map_not_nan entries Hnn) as [Hnx Hnm].
  destruct (_get_weather_for_day_inv entries s Hs)
    as (mx & mn & Emx & Ezx & Emn & Ezn & Euv & Erain & Ecodes).
  destruct (codes_of_spec entries) as [Hsorted Hcodes].
  rewrite Ecodes.
  split; [exists mx; split; [now apply py_max_N|assumption]|].
  split; [exists mn; split; [now apply py_min_N|assumption]|].
  split; [exact Hsorted|]. split; [exact Hcodes|].
  split; now apply py_max_Z.
Qed.

(** The weather codes of a summary, whatever the temperatures. *)
Lemma _get_weather_for_day_codes (entries : list Observation)
    (s : PeriodSummary) :
  _get_weather_for_day entries = Ok s ->
  StronglySorted Z.lt (weather_code s) /\
  (forall c, In c (weather_code s) <->
             exists e, In e entries /\ significantWeatherCode e = c).
Proof.
  intros Hs.
  destruct (_get_weather_for_day_inv entries s Hs)
    as (mx & mn & _ & _ & _ & _ & _ & _ & Ecodes).
  rewrite Ecodes. apply codes_of_spec.
Qed.

Lemma Forall_perm {A} (P : A -> Prop) (l l' : list A) :
  Permutation l l' -> Forall P l -> Forall P l'.
Proof.
  intros Hp. rewrite !List.Forall_forall. intros H x Hx. apply H.
  now apply (Permutation_in _ (Permutation_sym Hp)).
Qed.

(** Without NaN, the outcome of [_get_weather_for_day] (summary or
    exception) does not depend on the order of the entries. *)
Lemma _get_weather_for_day_perm (es es' : list Observation) :
  Permutation es es' -> Forall no_nan_temps es ->
  _get_weather_for_day es = _get_weather_for_day es'.
Proof.
  intros Hp Hnn. destruct es as [|e es].
  - apply Permutation_nil in Hp. now subst.
  - assert (Hnn' : Forall no_nan_temps es') by exact (Forall_perm _ _ _ Hp Hnn).
    destruct (Forall_map_not_nan _ Hnn) as [Hnx Hnm].
    destruct (Forall_map_not_nan _ Hnn') as [Hnx' Hnm'].
    assert (Hne' : es' <> []).
    { intros ->. apply Permutation_sym, Permutation_nil in Hp. discriminate. }
    assert (Hm : forall (B : Type) (f : Observation -> B),
               map f (e :: es) <> [] /\ map f es' <> []).
    { intros B f. split; [discriminate|]. destruct es'; [congruence|].
      discriminate. }
    destruct (py_max_total num_ltb _ (proj1 (Hm _ maxScreenAirTemp)))
      as [mx Emx].
    destruct (py_max_total num_ltb _ (proj2 (Hm _ maxScreenAirTemp)))
      as [mx' Emx'].
    destruct (py_min_total num_ltb _ (proj1 (Hm _ minScreenAirTemp)))
      as [mn Emn].
    destruct (py_min_total num_ltb _ (proj2 (Hm _ minScreenAirTemp)))
      as [mn' Emn'].
    destruct (py_max_total Z.ltb _ (proj1 (Hm _ uvIndex))) as [uv Euv].
    destruct (py_max_total Z.ltb _ (proj2 (Hm _ uvIndex))) as [uv' Euv'].
    destruct (py_max_total Z.ltb _ (proj1 (Hm _ probOfRain))) as [rn Ern].
    destruct (py_max_total Z.ltb _ (proj2 (Hm _ probOfRain))) as [rn' Ern'].
    assert (Hrx : py_round mx = py_round mx').
    { exact (Nmax_of_perm _ _ _ _ (Permutation_map maxScreenAirTemp Hp)
               (py_max_N _ _ Hnx Emx) (py_max_N _ _ Hnx' Emx')). }
    assert (Hrn : py_round mn = py_round mn').
    { exact (Nmin_of_perm _ _ _ _ (Permutation_map minScreenAirTemp Hp)
               (py_min_N _ _ Hnm Emn) (py_min_N _ _ Hnm' Emn')). }
    assert (Huv : uv = uv').
    { exact (Zmax_of_perm _ _ _ _ (Permutation_map uvIndex Hp)
               (py_max_Z _ _ Euv) (py_max_Z _ _ Euv')). }
    assert (Hrain : rn = rn').
    { exact (Zmax_of_perm _ _ _ _ (Permutation_map probOfRain Hp)
               (py_max_Z _ _ Ern) (py_max_Z _ _ Ern')). }
    assert (Hcodes :
      (list_to_set (map significantWeatherCode (e :: es)) : gset Z) =
      list_to_set (map significantWeatherCode es')).
    { apply list_to_set_perm_L. now apply Permutation_map. }
    unfold _get_weather_for_day.
    rewrite Emx, Emx', Emn, Emn', Euv, Euv', Ern, Ern'. cbn [rbind].
    rewrite Hrx, Hrn, Huv, Hrain, Hcodes. reflexivity.
Qed.

(** ** Grouping into an insertion-ordered dictionary *)

Section Grouping.
Context {V : Type}.
Implicit Types (d : dict (list V)) (k : string) (x : V).

Lemma dict_get_append_eq k x d :
  dict_get k (dict_append k x d) = Some (default [] (dict_get k d) ++ [x]).
Proof.
  induction d as [|[k' vs] d IH]; simpl.
  - now rewrite decide_True.
  - destruct (decide (k = k')) as [->|Hne]; simpl.
    + now rewrite decide_True.
    + now rewrite decide_False.
Qed.

Lemma dict_get_append_ne k k' x d :
  k <> k' -> dict_get k' (dict_append k x d) = dict_get k' d.
Proof.
  intros Hne. induction d as [|[k0 vs] d IH]; simpl.
  - rewrite decide_False; [reflexivity|congruence].
  - destruct (decide (k = k0)) as [->|Hne0]; simpl.
    + rewrite !decide_False; [reflexivity|congruence|congruence].
    + now rewrite IH.
Qed.

Lemma dict_append_keys k x d (k' : string) :
  In k' (map fst (dict_append k x d)) <-> k' = k \/ In k' (map fst d).
Proof.
  induction d as [|[k0 vs] d IH]; simpl.
  - intuition.
  - destruct (decide (k = k0)) as [->|Hne]; simpl.
    + intuition.
    + rewrite IH. intuition.
Qed.

Lemma dict_append_NoDup k x d :
  List.NoDup (map fst d) -> List.NoDup (map fst (dict_append k x d)).
Proof.
  induction d as [|[k0 vs] d IH]; simpl; intros Hnd.
  - constructor; [intros []|constructor].
  - apply List.NoDup_cons_iff in Hnd as [Hnin Hnd].
    destruct (decide (k = k0)) as [->|Hne]; simpl.
    + now constructor.
    + constructor; [|now apply IH].
      rewrite dict_append_keys. intros [->|Hin]; auto.
Qed.

Lemma dict_get_None k (d : dict (list V)) :
  dict_get k d = None <-> ~ In k (map fst d).
Proof.
  induction d as [|[k0 vs] d IH]; simpl.
  - intuition.
  - destruct (decide (k = k0)) as [->|Hne].
    + split; [discriminate|]. intros H. exfalso. apply H. now left.
    + rewrite IH. intuition.
Qed.

Lemma dict_get_In k (vs : list V) d :
  List.NoDup (map fst d) -> In (k, vs) d -> dict_get k d = Some vs.
Proof.
  induction d as [|[k0 vs0] d IH]; simpl; intros Hnd Hin; [destruct Hin|].
  apply List.NoDup_cons_iff in Hnd as [Hnin Hnd].
  destruct Hin as [[= -> ->]|Hin].
  - now rewrite decide_True.
  - rewrite decide_False; [now apply IH|].
    intros ->. apply Hnin. apply in_map_iff. now exists (k0, vs).
Qed.

Lemma dict_get_Some_In k (vs : list V) d :
  dict_get k d = Some vs -> In (k, vs) d.
Proof.
  induction d as [|[k0 vs0] d IH]; simpl; [discriminate|].
  destruct (decide (k = k0)) as [->|Hne].
  - intros [= ->]. now left.
  - intros H. right. now apply IH.
Qed.

Variable key : V -> string.

Lemma group_fold_NoDup (l : list V) d :
  List.NoDup (map fst d) -> List.NoDup (map fst (group_fold key l d)).
Proof.
  revert d. induction l as [|e l IH]; intros d Hnd; simpl; [assumption|].
  apply IH. now apply dict_append_NoDup.
Qed.

(** The list under [k] after grouping: what was there, followed by the
    entries with key [k], in order. *)
Lemma dict_get_group_fold (l : list V) d k :
  dict_get k (group_fold key l d) =
    match List.filter (fun e => bool_decide (key e = k)) l with
    | [] => dict_get k d
    | es => Some (default [] (dict_get k d) ++ es)
    end.
Proof.
  revert d. induction l as [|e l IH]; intros d; simpl; [reflexivity|].
  rewrite IH. destruct (decide (key e = k)) as [<-|Hne].
  - rewrite bool_decide_eq_true_2 by reflexivity.
    rewrite dict_get_append_eq. cbn [default].
    destruct (List.filter _ l); [reflexivity|].
    unfold id. now rewrite <- app_assoc.
  - rewrite bool_decide_eq_false_2 by assumption.
    now rewrite dict_get_append_ne.
Qed.

Lemma group_fold_keys (l : list V) (k : string) :
  In k (map fst (group_fold key l [])) <-> exists e, In e l /\ key e = k.
Proof.
  pose proof (dict_get_None k (group_fold key l [])) as Hnone.
  rewrite dict_get_group_fold in Hnone. cbn [dict_get] in Hnone.
  destruct (List.filter (fun e => bool_decide (key e = k)) l)
    as [|e es] eqn:Ef.
  - split.
    + intros Hin. exfalso. now apply (proj1 Hnone).
    + intros (e & Hin & He). exfalso.
      assert (Hf : In e (List.filter (fun e => bool_decide (key e = k)) l)).
      { apply filter_In. split; [assumption|].
        now apply bool_decide_eq_true_2. }
      rewrite Ef in Hf. destruct Hf.
  - split.
    + intros _. exists e.
      assert (Hf : In e (List.filter (fun e => bool_decide (key e = k)) l))
        by (rewrite Ef; now left).
      apply filter_In in Hf as [Hin He]. split; [assumption|].
      now apply bool_decide_eq_true_1 in He.
    + intros _.
      destruct (in_dec String.string_dec k (map fst (group_fold key l [])))
        as [Hin|Hnin]; [assumption|].
      apply Hnone in Hnin. discriminate Hnin.
Qed.
End Grouping.

(** ** The loops of [get_day_periods_weather] *)

Lemma _determine_day_part_eq (the_time : string) :
  _determine_day_part the_time =
  rbind (hour_of the_time) (fun h => Ok (scheme_B h)).
Proof.
  unfold _determine_day_part, hour_of, rbind, scheme_B.
  destruct (py_index (py_split "T" the_time) 1); [|reflexivity].
  destruct (py_index (py_split ":" a) 0); reflexivity.
Qed.

Lemma readable_part (e : Observation) :
  readable e <-> _determine_day_part (time e) = Ok (part_of e).
Proof.
  unfold readable, part_of. rewrite _determine_day_part_eq.
  destruct (hour_of (time e)) as [h|err]; simpl.
  - split; eauto.
  - split; [intros [h Hh]; discriminate|discriminate].
Qed.

Lemma part_is_part_of (e : Observation) (p : string) :
  readable e -> part_is p e = bool_decide (part_of e = p).
Proof.
  intros Hr. apply readable_part in Hr. unfold part_is. now rewrite Hr.
Qed.

Lemma group_day_parts_ok (day_data : list Observation) :
  Forall readable day_data ->
  group_day_parts day_data = Ok (group_fold part_of day_data []).
Proof.
  unfold group_day_parts. generalize (@nil (string * list Observation)).
  induction day_data as [|e l IH]; intros acc Hall; [reflexivity|].
  apply Forall_cons_1 in Hall as [He Hall]. apply readable_part in He.
  cbn [foldR]. rewrite He. cbn [rbind]. now apply IH.
Qed.

Lemma group_day_parts_inv (day_data : list Observation)
    (day_parts : dict (list Observation)) :
  group_day_parts day_data = Ok day_parts -> Forall readable day_data.
Proof.
  unfold group_day_parts. generalize (@nil (string * list Observation)).
  induction day_data as [|e l IH]; intros acc H; [constructor|].
  cbn [foldR] in H.
  destruct (_determine_day_part (time e)) as [p|err] eqn:Ep;
    [|discriminate H].
  cbn [rbind] in H. constructor; [|now apply (IH _ H)].
  apply readable_part. unfold part_of. now rewrite Ep.
Qed.

Lemma lookup2_setitem (date k : string) (v : PeriodSummary)
    (wf : gmap string (gmap string PeriodSummary)) (d p : string) :
  lookup2 (forecast_setitem date k v wf) d p =
    if decide (d = date /\ p = k) then Some v else lookup2 wf d p.
Proof.
  unfold lookup2, forecast_setitem.
  destruct (decide (d = date)) as [->|Hd].
  - rewrite lookup_insert_eq. cbn.
    destruct (decide (p = k)) as [->|Hp].
    + rewrite lookup_insert_eq. now rewrite decide_True.
    + rewrite lookup_insert_ne by congruence.
      rewrite decide_False by (intros [_ ?]; congruence).
      destruct (wf !! date); [reflexivity|apply lookup_empty].
  - rewrite lookup_insert_ne by congruence.
    now rewrite decide_False by (intros [? _]; congruence).
Qed.

Lemma no_empty_setitem (date k : string) (v : PeriodSummary)
    (wf : gmap string (gmap string PeriodSummary)) :
  no_empty_date wf -> no_empty_date (forecast_setitem date k v wf).
Proof.
  intros Hne d ps. unfold forecast_setitem.
  destruct (decide (d = date)) as [->|Hd].
  - rewrite lookup_insert_eq. intros [= <-]. apply insert_non_empty.
  - rewrite lookup_insert_ne by congruence. apply Hne.
Qed.

Lemma store_day_parts_spec (date : string)
    (day_parts : dict (list Observation))
    (wf : gmap string (gmap string PeriodSummary)) :
  List.NoDup (map fst day_parts) ->
  (forall k es, In (k, es) day_parts -> returns (_get_weather_for_day es)) ->
  exists wf',
    store_day_parts date day_parts wf = Ok wf' /\
    (no_empty_date wf -> no_empty_date wf') /\
    forall d p,
      lookup2 wf' d p =
        if decide (d = date) then
          match dict_get p day_parts with
          | Some es => value_of (_get_weather_for_day es)
          | None => lookup2 wf d p
          end
        else lookup2 wf d p.
Proof.
  unfold store_day_parts. revert wf.
  induction day_parts as [|[k es] dp IH]; intros wf Hnd Hne.
  - exists wf. split; [reflexivity|]. split; [auto|].
    intros d p. simpl. now destruct (decide (d = date)).
  - cbn [map fst] in Hnd. apply List.NoDup_cons_iff in Hnd as [Hnin Hnd].
    destruct (Hne k es) as [s Hs]; [now left|].
    cbn [foldR fst snd]. rewrite Hs. cbn [rbind].
    destruct (IH (forecast_setitem date k s wf) Hnd) as (wf' & Hok & Hinv & Hl).
    { intros k' es' Hin. apply (Hne k'). now right. }
    exists wf'. split; [exact Hok|].
    split; [intros H; now apply Hinv, no_empty_setitem|].
    intros d p. rewrite Hl, lookup2_setitem. cbn [dict_get].
    destruct (decide (d = date)) as [->|Hd].
    + destruct (decide (p = k)) as [->|Hp].
      * apply dict_get_None in Hnin. rewrite Hnin, Hs.
        now rewrite decide_True.
      * rewrite decide_False by (intros [_ ?]; congruence). reflexivity.
    + now rewrite decide_False by (intros [? _]; congruence).
Qed.

Lemma store_day_parts_inv (date : string)
    (day_parts : dict (list Observation))
    (wf wf' : gmap string (gmap string PeriodSummary)) :
  store_day_parts date day_parts wf = Ok wf' ->
  forall k es, In (k, es) day_parts -> returns (_get_weather_for_day es).
Proof.
  unfold store_day_parts. revert wf.
  induction day_parts as [|[k0 es0] dp IH]; intros wf H k es Hin;
    [destruct Hin|].
  cbn [foldR fst snd] in H.
  destruct (_get_weather_for_day es0) as [s|err] eqn:Es; [|discriminate H].
  cbn [rbind] in H. destruct Hin as [[= <- <-]|Hin].
  - now exists s.
  - exact (IH _ H k es Hin).
Qed.

(** The day-part dictionary of one date. *)
Lemma group_fold_part_of (es : list Observation) (p : string) :
  Forall readable es ->
  dict_get p (group_fold part_of es []) =
    match List.filter (part_is p) es with
    | [] => None
    | b => Some b
    end.
Proof.
  intros Hall. rewrite dict_get_group_fold. cbn [dict_get].
  rewrite (filter_ext_in (part_is p)
             (fun e => bool_decide (part_of e = p)) es).
  - now destruct (List.filter _ es).
  - intros e He. apply part_is_part_of.
    rewrite List.Forall_forall in Hall. now apply Hall.
Qed.

(** The summaries of one date: what the loops store under it. *)
Lemma process_date_ok (daily_data : dict (list Observation))
    (wf : gmap string (gmap string PeriodSummary)) (date : string)
    (es : list Observation) :
  dict_get date daily_data = Some es ->
  Forall readable es ->
  (forall p, List.filter (part_is p) es <> [] ->
             returns (_get_weather_for_day (List.filter (part_is p) es))) ->
  (forall p, lookup2 wf date p = None) ->
  exists wf',
    process_date daily_data wf date = Ok wf' /\
    (no_empty_date wf -> no_empty_date wf') /\
    forall d p,
      lookup2 wf' d p =
        if decide (d = date) then
          match List.filter (part_is p) es with
          | [] => None
          | b => value_of (_get_weather_for_day b)
          end
        else lookup2 wf d p.
Proof.
  intros Hget Hall Hsum Hfresh. unfold process_date. rewrite Hget.
  cbn [rbind]. rewrite (group_day_parts_ok es Hall). cbn [rbind].
  set (dp := group_fold part_of es []).
  assert (Hnd : List.NoDup (map fst dp)).
  { apply group_fold_NoDup. constructor. }
  pose proof (group_fold_part_of es) as Hdp. fold dp in Hdp.
  destruct (store_day_parts_spec date dp wf Hnd) as (wf' & Hok & Hinv & Hl).
  { intros k b Hin. apply (dict_get_In k b dp Hnd) in Hin.
    rewrite (Hdp k Hall) in Hin.
    destruct (List.filter (part_is k) es) as [|x xs] eqn:Ef;
      [discriminate Hin|].
    injection Hin as <-. rewrite <- Ef. apply Hsum. rewrite Ef. discriminate. }
  exists wf'. split; [exact Hok|]. split; [exact Hinv|].
  intros d p. rewrite Hl. destruct (decide (d = date)) as [->|Hd];
    [|reflexivity].
  rewrite (Hdp p Hall), Hfresh. now destruct (List.filter (part_is p) es).
Qed.

Lemma process_date_inv (daily_data : dict (list Observation))
    (wf wf' : gmap string (gmap string PeriodSummary)) (date : string) :
  process_date daily_data wf date = Ok wf' ->
  exists es,
    dict_get date daily_data = Some es /\ Forall readable es /\
    forall p, List.filter (part_is p) es <> [] ->
              returns (_get_weather_for_day (List.filter (part_is p) es)).
Proof.
  unfold process_date.
  destruct (dict_get date daily_data) as [es|]; [|discriminate].
  cbn [rbind]. destruct (group_day_parts es) as [dp|err] eqn:Edp;
    [|discriminate].
  cbn [rbind]. intros Hstore. exists es. split; [reflexivity|].
  pose proof (group_day_parts_inv es dp Edp) as Hall.
  split; [exact Hall|]. intros p Hne.
  rewrite (group_day_parts_ok es Hall) in Edp. injection Edp as <-.
  apply (store_day_parts_inv _ _ _ _ Hstore p).
  apply dict_get_Some_In. rewrite (group_fold_part_of es p Hall).
  now destruct (List.filter (part_is p) es).
Qed.

Lemma dates_loop_ok (daily_data : dict (list Observation))
    (dates : list string) (wf : gmap string (gmap string PeriodSummary)) :
  List.NoDup dates ->
  (forall d, In d dates ->
     exists es,
       dict_get d daily_data = Some es /\ Forall readable es /\
       forall p, List.filter (part_is p) es <> [] ->
                 returns (_get_weather_for_day (List.filter (part_is p) es)))
  ->
  (forall d p, In d dates -> lookup2 wf d p = None) ->
  exists wf',
    foldR (process_date daily_data) dates wf = Ok wf' /\
    (no_empty_date wf -> no_empty_date wf') /\
    forall d p,
      lookup2 wf' d p =
        if in_dec String.string_dec d dates then stored daily_data d p
        else lookup2 wf d p.
Proof.
  revert wf. induction dates as [|date dates IH]; intros wf Hnd Hdd Hfresh.
  - exists wf. split; [reflexivity|]. split; [auto|]. reflexivity.
  - apply List.NoDup_cons_iff in Hnd as [Hnin Hnd].
    destruct (Hdd date (or_introl eq_refl)) as (es & Hget & Hall & Hsum).
    destruct (process_date_ok daily_data wf date es Hget Hall Hsum)
      as (wf1 & Hok1 & Hinv1 & Hl1).
    { intros p. apply Hfresh. now left. }
    cbn [foldR]. rewrite Hok1. cbn [rbind].
    destruct (IH wf1 Hnd) as (wf' & Hok & Hinv & Hl).
    { intros d Hd. apply Hdd. now right. }
    { intros d p Hd. rewrite Hl1.
      rewrite decide_False by (intros ->; contradiction).
      apply Hfresh. now right. }
    exists wf'. split; [exact Hok|]. split; [auto|].
    intros d p. rewrite Hl.
    destruct (in_dec String.string_dec d dates) as [Hin|Hnin'];
      destruct (in_dec String.string_dec d (date :: dates)) as [Hin2|Hnin2];
      try reflexivity.
    + exfalso. apply Hnin2. now right.
    + rewrite Hl1. destruct Hin2 as [->|Hin2]; [|contradiction].
      rewrite decide_True by reflexivity. unfold stored. now rewrite Hget.
    + rewrite Hl1. rewrite decide_False; [reflexivity|].
      intros ->. apply Hnin2. now left.
Qed.

Lemma dates_loop_inv (daily_data : dict (list Observation))
    (dates : list string) (wf wf' : gmap string (gmap string PeriodSummary)) :
  foldR (process_date daily_data) dates wf = Ok wf' ->
  forall d, In d dates ->
    exists es,
      dict_get d daily_data = Some es /\ Forall readable es /\
      forall p, List.filter (part_is p) es <> [] ->
                returns (_get_weather_for_day (List.filter (part_is p) es)).
Proof.
  revert wf. induction dates as [|date dates IH]; intros wf H d Hd;
    [destruct Hd|].
  cbn [foldR] in H.
  destruct (process_date daily_data wf date) as [wf1|err] eqn:E1;
    [|discriminate H].
  cbn [rbind] in H. destruct Hd as [<-|Hd].
  - exact (process_date_inv _ _ _ _ E1).
  - exact (IH wf1 H d Hd).
Qed.

(** ** [_get_daily_data] *)

Lemma _get_daily_data_get (data : list Observation) (d : string) :
  dict_get d (_get_daily_data data) =
    match on_date d data with
    | [] => None
    | es => Some es
    end.
Proof.
  change (_get_daily_data data) with (group_fold date_of data []).
  rewrite dict_get_group_fold. cbn [dict_get]. unfold on_date.
  now destruct (List.filter _ data).
Qed.

Lemma _get_daily_data_NoDup (data : list Observation) :
  List.NoDup (map fst (_get_daily_data data)).
Proof.
  change (_get_daily_data data) with (group_fold date_of data []).
  apply group_fold_NoDup. constructor.
Qed.

Lemma _get_daily_data_keys (data : list Observation) (d : string) :
  In d (map fst (_get_daily_data data)) <->
  exists e, In e data /\ date_of e = d.
Proof.
  change (_get_daily_data data) with (group_fold date_of data []).
  apply group_fold_keys.
Qed.

Lemma on_date_In (d : string) (data : list Observation) (e : Observation) :
  In e (on_date d data) <-> In e data /\ date_of e = d.
Proof.
  unfold on_date. rewrite filter_In.
  split; intros [Hin He]; (split; [assumption|]).
  - now apply bool_decide_eq_true_1 in He.
  - now apply bool_decide_eq_true_2.
Qed.

Lemma on_date_nil (d : string) (data : list Observation) :
  on_date d data = [] <-> ~ exists e, In e data /\ date_of e = d.
Proof.
  split.
  - intros Hnil (e & He). apply on_date_In in He. rewrite Hnil in He.
    destruct He.
  - intros Hno. destruct (on_date d data) as [|e es] eqn:E; [reflexivity|].
    exfalso. apply Hno. exists e. apply on_date_In. rewrite E. now left.
Qed.

(** ** The aggregator as a whole *)

(** With readable time stamps and a summary for each bucket the aggregator
    returns, and what it holds for a date and a day-part is the summary of
    that bucket. *)
Lemma get_day_periods_weather_ok (data : list Observation) :
  Forall readable data ->
  (forall d p, bucket d p data <> [] ->
               returns (_get_weather_for_day (bucket d p data))) ->
  exists wf,
    get_day_periods_weather data = Ok wf /\
    no_empty_date wf /\
    forall d p,
      lookup2 wf d p =
        match bucket d p data with
        | [] => None
        | b => value_of (_get_weather_for_day b)
        end.
Proof.
  intros Hall Hsum. unfold get_day_periods_weather.
  set (dd := _get_daily_data data).
  set (dates := py_sorted String.ltb (map fst dd)).
  assert (Hperm : Permutation dates (map fst dd)) by apply py_sorted_perm.
  destruct (dates_loop_ok dd dates ∅) as (wf & Hok & Hinv & Hl).
  - apply (Permutation_NoDup (Permutation_sym Hperm)).
    apply _get_daily_data_NoDup.
  - intros d Hd. apply (Permutation_in _ Hperm) in Hd.
    apply _get_daily_data_keys in Hd.
    unfold dd. rewrite _get_daily_data_get.
    pose proof (Hsum d) as Hsumd. unfold bucket in Hsumd.
    destruct (on_date d data) as [|e es] eqn:E.
    + exfalso. now apply (proj1 (on_date_nil d data) E).
    + exists (e :: es). split; [reflexivity|]. split; [|exact Hsumd].
      rewrite <- E.
      apply List.Forall_forall. intros x Hx. apply on_date_In in Hx as [Hx _].
      rewrite List.Forall_forall in Hall. now apply Hall.
  - intros d p _. unfold lookup2. now rewrite lookup_empty.
  - exists wf. split; [exact Hok|]. split.
    + apply Hinv. intros d ps. now rewrite lookup_empty.
    + intros d p. rewrite Hl. unfold stored, bucket, dd.
      rewrite _get_daily_data_get.
      destruct (in_dec String.string_dec d dates) as [Hin|Hnin].
      * now destruct (on_date d data).
      * unfold lookup2. rewrite lookup_empty. cbn.
        assert (Hnil : on_date d data = []).
        { apply on_date_nil. intros He. apply Hnin.
          apply (Permutation_in _ (Permutation_sym Hperm)).
          now apply _get_daily_data_keys. }
        now rewrite Hnil.
Qed.

(** The aggregator returns only if every time stamp is readable and every
    bucket has a summary. *)
Lemma get_day_periods_weather_inv (data : list Observation)
    (wf : gmap string (gmap string PeriodSummary)) :
  get_day_periods_weather data = Ok wf ->
  Forall readable data /\
  forall d p, bucket d p data <> [] ->
              returns (_get_weather_for_day (bucket d p data)).
Proof.
  unfold get_day_periods_weather. intros H.
  assert (Hdate : forall d, on_date d data <> [] ->
            Forall readable (on_date d data) /\
            forall p, List.filter (part_is p) (on_date d data) <> [] ->
              returns (_get_weather_for_day
                         (List.filter (part_is p) (on_date d data)))).
  { intros d Hne.
    destruct (dates_loop_inv _ _ _ _ H d) as (es & Hget & Hall & Hsum).
    - apply (Permutation_in _ (Permutation_sym (py_sorted_perm _ _))).
      apply _get_daily_data_keys.
      destruct (on_date d data) as [|x xs] eqn:E; [congruence|].
      exists x. apply on_date_In. rewrite E. now left.
    - rewrite _get_daily_data_get in Hget.
      destruct (on_date d data) as [|x xs]; [congruence|].
      injection Hget as <-. now split. }
  split.
  - apply List.Forall_forall. intros e He.
    assert (Hin : In e (on_date (date_of e) data))
      by (apply on_date_In; auto).
    destruct (Hdate (date_of e)) as [Hall _].
    { intros Hnil. rewrite Hnil in Hin. destruct Hin. }
    rewrite List.Forall_forall in Hall. now apply Hall.
  - intros d p Hne. unfold bucket in *.
    destruct (Hdate d) as [_ Hsum]; [|now apply Hsum].
    intros Hnil. rewrite Hnil in Hne. now apply Hne.
Qed.

Lemma bucket_In (d p : string) (data : list Observation) (e : Observation) :
  In e (bucket d p data) -> In e data.
Proof.
  unfold bucket. intros H. apply filter_In in H as [H _].
  now apply on_date_In in H.
Qed.

Lemma Forall_bucket (P : Observation -> Prop) (d p : string)
    (data : list Observation) :
  Forall P data -> Forall P (bucket d p data).
Proof.
  rewrite !List.Forall_forall. intros H e He. apply H.
  exact (bucket_In d p data e He).
Qed.

Lemma Forall_on_date (P : Observation -> Prop) (d : string)
    (data : list Observation) :
  Forall P data -> Forall P (on_date d data).
Proof.
  rewrite !List.Forall_forall. intros H e He. apply H.
  now apply on_date_In in He.
Qed.

(** With readable time stamps and finite temperatures the aggregator
    returns. *)
Lemma get_day_periods_weather_finite (data : list Observation) :
  Forall readable data -> Forall finite_temps data ->
  exists wf,
    get_day_periods_weather data = Ok wf /\
    no_empty_date wf /\
    forall d p,
      lookup2 wf d p =
        match bucket d p data with
        | [] => None
        | b => value_of (_get_weather_for_day b)
        end.
Proof.
  intros Hall Hfin. apply get_day_periods_weather_ok; [exact Hall|].
  intros d p Hne. apply _get_weather_for_day_total; [exact Hne|].
  now apply Forall_bucket.
Qed.

(** ** [get_highs_lows] *)

Lemma highs_lows_step_eq (acc : gmap string DailyHighLow)
    (item : string * list Observation) :
  highs_lows_step acc item =
  rbind (high_low_res (snd item)) (fun x => Ok (<[fst item := x]> acc)).
Proof.
  unfold highs_lows_step, high_low_res, rbind.
  destruct (_calculate_high_low (map maxScreenAirTemp (snd item)))
    as [hl|]; [|reflexivity].
  destruct (py_round (fst hl)); [|reflexivity].
  destruct (py_round (snd hl)); reflexivity.
Qed.

(** The steps of a day's high and low that led to a result. *)
Lemma high_low_res_inv (es : list Observation) (hl : DailyHighLow) :
  high_low_res es = Ok hl ->
  exists hi lo : Q,
    py_max num_ltb (map maxScreenAirTemp es) = Ok (Fin hi) /\
    py_min num_ltb (map maxScreenAirTemp es) = Ok (Fin lo) /\
    hl = {| high := round_half_even hi; low := round_half_even lo |}.
Proof.
  unfold high_low_res, _calculate_high_low, rbind.
  destruct (py_max num_ltb (map maxScreenAirTemp es)) as [hi|];
    [|discriminate].
  destruct (py_min num_ltb (map maxScreenAirTemp es)) as [lo|];
    [|discriminate].
  cbn [fst snd].
  destruct hi as [qh| | |]; try discriminate.
  destruct lo as [ql| | |]; try discriminate.
  cbn. intros [= <-]. exists qh, ql. repeat split; reflexivity.
Qed.

Lemma Forall_map_max_finite (es : list Observation) :
  Forall finite_max es -> Forall is_finite (map maxScreenAirTemp es).
Proof. induction 1; constructor; auto. Qed.

Lemma Forall_is_finite_not_nan (l : list num) :
  Forall is_finite l -> Forall not_nan l.
Proof. apply List.Forall_impl. exact is_finite_not_nan. Qed.

(** A date with an entry and finite maximum temperatures has a high and a
    low: the rounded greatest and least of these temperatures. *)
Lemma high_low_res_finite (es : list Observation) :
  es <> [] -> Forall finite_max es ->
  exists hi lo : Q,
    high_low_res es =
      Ok {| high := round_half_even hi; low := round_half_even lo |} /\
    Nmax_of (Fin hi) (map maxScreenAirTemp es) /\
    Nmin_of (Fin lo) (map maxScreenAirTemp es).
Proof.
  intros Hne Hfin. apply Forall_map_max_finite in Hfin.
  pose proof (Forall_is_finite_not_nan _ Hfin) as Hnn.
  assert (Hne' : map maxScreenAirTemp es <> [])
    by (destruct es; [congruence|discriminate]).
  destruct (py_max_total num_ltb _ Hne') as [hi Hhi].
  destruct (py_min_total num_ltb _ Hne') as [lo Hlo].
  pose proof (py_max_N _ _ Hnn Hhi) as Hmax.
  pose proof (py_min_N _ _ Hnn Hlo) as Hmin.
  rewrite List.Forall_forall in Hfin.
  pose proof (Hfin hi (proj1 Hmax)) as Fhi.
  pose proof (Hfin lo (proj1 Hmin)) as Flo.
  destruct hi as [qh| | |]; try destruct Fhi.
  destruct lo as [ql| | |]; try destruct Flo.
  exists qh, ql. split; [|split; assumption].
  unfold high_low_res, _calculate_high_low. rewrite Hhi, Hlo. reflexivity.
Qed.

(** Without NaN the only exception is the [OverflowError] of [round]. *)
Lemma high_low_res_error (es : list Observation) (e : exn) :
  es <> [] -> Forall no_nan_temps es ->
  high_low_res es = Err e -> e = OverflowError.
Proof.
  intros Hne Hnn. destruct (Forall_map_not_nan es Hnn) as [Hnx _].
  rewrite List.Forall_forall in Hnx.
  assert (Hne' : map maxScreenAirTemp es <> [])
    by (destruct es; [congruence|discriminate]).
  destruct (py_max_total num_ltb _ Hne') as [hi Hhi].
  destruct (py_min_total num_ltb _ Hne') as [lo Hlo].
  pose proof (proj1 (py_max_spec num_ltb num_ltb_irrefl num_ltb_trans _ _ Hhi))
    as Ihi.
  pose proof (proj1 (py_min_spec num_ltb num_ltb_irrefl num_ltb_trans _ _ Hlo))
    as Ilo.
  unfold high_low_res, _calculate_high_low. rewrite Hhi, Hlo.
  cbn [rbind fst snd].
  destruct (py_round hi) as [zh|eh] eqn:Eh; cbn [rbind].
  - destruct (py_round lo) as [zl|el] eqn:El; cbn [rbind]; [discriminate|].
    intros [= <-]. exact (py_round_error lo el El (Hnx lo Ilo)).
  - intros [= <-]. exact (py_round_error hi eh Eh (Hnx hi Ihi)).
Qed.

(** Without NaN, the outcome for a date does not depend on the order of its
    entries. *)
Lemma high_low_res_perm (es es' : list Observation) :
  Permutation es es' -> Forall no_nan_temps es ->
  high_low_res es = high_low_res es'.
Proof.
  intros Hp Hnn. destruct es as [|e es].
  - apply Permutation_nil in Hp. now subst.
  - assert (Hnn' : Forall no_nan_temps es') by exact (Forall_perm _ _ _ Hp Hnn).
    destruct (Forall_map_not_nan _ Hnn) as [Hnx _].
    destruct (Forall_map_not_nan _ Hnn') as [Hnx' _].
    assert (Hne : map maxScreenAirTemp (e :: es) <> []) by discriminate.
    assert (Hne' : map maxScreenAirTemp es' <> []).
    { destruct es'; [|discriminate].
      apply Permutation_sym, Permutation_nil in Hp. discriminate. }
    destruct (py_max_total num_ltb _ Hne) as [hi Hhi].
    destruct (py_min_total num_ltb _ Hne) as [lo Hlo].
    destruct (py_max_total num_ltb _ Hne') as [hi' Hhi'].
    destruct (py_min_total num_ltb _ Hne') as [lo' Hlo'].
    pose proof (Permutation_map maxScreenAirTemp Hp) as Hpm.
    unfold high_low_res, _calculate_high_low.
    rewrite Hhi, Hlo, Hhi', Hlo'. cbn [rbind fst snd].
    rewrite (Nmax_of_perm _ _ _ _ Hpm (py_max_N _ _ Hnx Hhi)
               (py_max_N _ _ Hnx' Hhi')).
    rewrite (Nmin_of_perm _ _ _ _ Hpm (py_min_N _ _ Hnx Hlo)
               (py_min_N _ _ Hnx' Hlo')).
    reflexivity.
Qed.

Lemma highs_lows_loop (dd : dict (list Observation))
    (acc : gmap string DailyHighLow) :
  List.NoDup (map fst dd) ->
  (forall k es, In (k, es) dd -> returns (high_low_res es)) ->
  exists hls,
    foldR highs_lows_step dd acc = Ok hls /\
    forall d,
      hls !! d = match dict_get d dd with
                 | Some es => high_low_of es
                 | None => acc !! d
                 end.
Proof.
  revert acc. induction dd as [|[k es] dd IH]; intros acc Hnd Hret.
  - exists acc. split; reflexivity.
  - cbn [map fst] in Hnd. apply List.NoDup_cons_iff in Hnd as [Hnin Hnd].
    destruct (Hret k es) as [hl Hhl]; [now left|].
    cbn [foldR]. rewrite highs_lows_step_eq. cbn [fst snd].
    rewrite Hhl. cbn [rbind].
    destruct (IH (<[k := hl]> acc) Hnd) as (hls & Hok & Hl).
    { intros k' es' Hin. apply (Hret k'). now right. }
    exists hls. split; [exact Hok|]. intros d. rewrite Hl. cbn [dict_get].
    destruct (decide (d = k)) as [->|Hd].
    + apply dict_get_None in Hnin. rewrite Hnin, lookup_insert_eq.
      unfold high_low_of. now rewrite Hhl.
    + rewrite lookup_insert_ne by congruence. reflexivity.
Qed.

(** The loop stops at the first date whose high or low raises. *)
Lemma highs_lows_loop_cases (dd : dict (list Observation))
    (acc : gmap string DailyHighLow) :
  match foldR highs_lows_step dd acc with
  | Ok _ => forall k es, In (k, es) dd -> returns (high_low_res es)
  | Err e => exists k es, In (k, es) dd /\ high_low_res es = Err e
  end.
Proof.
  revert acc. induction dd as [|[k es] dd IH]; intros acc.
  - cbn. intros k es [].
  - cbn [foldR]. rewrite highs_lows_step_eq. cbn [fst snd].
    destruct (high_low_res es) as [hl|e] eqn:Ehl; cbn [rbind].
    + specialize (IH (<[k := hl]> acc)).
      destruct (foldR highs_lows_step dd (<[k := hl]> acc)) as [hls|e].
      * intros k' es' [[= <- <-]|Hin]; [now exists hl|]. now apply (IH k').
      * destruct IH as (k' & es' & Hin & He). exists k', es'.
        split; [now right|exact He].
    + exists k, es. split; [now left|exact Ehl].
Qed.

Lemma _get_daily_data_In (data : list Observation) (d : string)
    (es : list Observation) :
  In (d, es) (_get_daily_data data) <-> es <> [] /\ es = on_date d data.
Proof.
  split.
  - intros Hin.
    apply (dict_get_In d es _ (_get_daily_data_NoDup data)) in Hin.
    rewrite _get_daily_data_get in Hin.
    destruct (on_date d data) as [|x xs]; [discriminate Hin|].
    injection Hin as <-. split; [discriminate|reflexivity].
  - intros [Hne ->]. apply dict_get_Some_In. rewrite _get_daily_data_get.
    destruct (on_date d data); [congruence|reflexivity].
Qed.

(** When the high and low of every date of the feed can be computed,
    [get_highs_lows] returns them. *)
Lemma get_highs_lows_ok (data : list Observation) :
  (forall d, on_date d data <> [] -> returns (high_low_res (on_date d data)))
  ->
  exists hls,
    get_highs_lows data = Ok hls /\
    forall d,
      hls !! d = match on_date d data with
                 | [] => None
                 | es => high_low_of es
                 end.
Proof.
  intros Hret. unfold get_highs_lows.
  destruct (highs_lows_loop (_get_daily_data data) ∅) as (hls & Hok & Hl).
  - apply _get_daily_data_NoDup.
  - intros k es Hin. apply _get_daily_data_In in Hin as [Hne ->].
    now apply Hret.
  - exists hls. split; [exact Hok|]. intros d.
    rewrite Hl, _get_daily_data_get, lookup_empty.
    now destruct (on_date d data).
Qed.

Lemma get_highs_lows_cases (data : list Observation) :
  match get_highs_lows data with
  | Ok _ => forall d, on_date d data <> [] ->
                      returns (high_low_res (on_date d data))
  | Err e => exists d, on_date d data <> [] /\
                       high_low_res (on_date d data) = Err e
  end.
Proof.
  unfold get_highs_lows.
  pose proof (highs_lows_loop_cases (_get_daily_data data) ∅) as H.
  destruct (foldR highs_lows_step (_get_daily_data data) ∅) as [hls|e].
  - intros d Hne. apply (H d). now apply _get_daily_data_In.
  - destruct H as (d & es & Hin & He).
    apply _get_daily_data_In in Hin as [Hne ->]. eauto.
Qed.

(** With finite maximum temperatures [get_highs_lows] returns. *)
Lemma get_highs_lows_finite (data : list Observation) :
  Forall finite_max data ->
  exists hls,
    get_highs_lows data = Ok hls /\
    forall d,
      hls !! d = match on_date d data with
                 | [] => None
                 | es => high_low_of es
                 end.
Proof.
  intros Hfin. apply get_highs_lows_ok. intros d Hne.
  destruct (high_low_res_finite (on_date d data) Hne) as (hi & lo & H & _).
  - now apply Forall_on_date.
  - eexists. exact H.
Qed.

Lemma finite_temps_max (data : list Observation) :
  Forall finite_temps data -> Forall finite_max data.
Proof. apply List.Forall_impl. now intros e [H _]. Qed.

Lemma filter_perm {A} (f : A -> bool) (l l' : list A) :
  Permutation l l' -> Permutation (List.filter f l) (List.filter f l').
Proof.
  induction 1 as [|x l l' Hp IH|x y l|l l' l'' Hp1 IH1 Hp2 IH2]; simpl.
  - reflexivity.
  - destruct (f x); [now constructor|assumption].
  - destruct (f x), (f y); try reflexivity. apply perm_swap.
  - now transitivity (List.filter f l').
Qed.

Lemma match_nil_perm {A B} (l l' : list A) (f : list A -> option B) :
  Permutation l l' -> f l = f l' ->
  match l with [] => None | x :: xs => f (x :: xs) end =
  match l' with [] => None | x :: xs => f (x :: xs) end.
Proof.
  intros Hp Hf. destruct l as [|x l].
  - apply Permutation_nil in Hp. now subst.
  - destruct l' as [|x' l'];
      [apply Permutation_sym, Permutation_nil in Hp; discriminate|].
    exact Hf.
Qed.

Lemma perm_nil_iff {A} (l l' : list A) :
  Permutation l l' -> l <> [] -> l' <> [].
Proof.
  intros Hp Hne ->. apply Hne. now apply Permutation_nil, Permutation_sym.
Qed.

Lemma forecast_ext (wf1 wf2 : gmap string (gmap string PeriodSummary)) :
  no_empty_date wf1 -> no_empty_date wf2 ->
  (forall d p, lookup2 wf1 d p = lookup2 wf2 d p) ->
  wf1 = wf2.
Proof.
  intros Hne1 Hne2 Hl. apply map_eq. intros d.
  assert (Hside : forall (a b : gmap string (gmap string PeriodSummary)) ps,
             no_empty_date a -> a !! d = Some ps -> b !! d = None ->
             (forall p, lookup2 a d p = lookup2 b d p) -> False).
  { intros a b ps Hne Ha Hb Hab.
    destruct (map_choose ps (Hne d ps Ha)) as (p & s & Hp).
    specialize (Hab p). unfold lookup2 in Hab. rewrite Ha, Hb in Hab.
    cbn in Hab. congruence. }
  destruct (wf1 !! d) as [ps1|] eqn:E1, (wf2 !! d) as [ps2|] eqn:E2.
  - f_equal. apply map_eq. intros p. specialize (Hl d p).
    unfold lookup2 in Hl. now rewrite E1, E2 in Hl.
  - exfalso. exact (Hside wf1 wf2 ps1 Hne1 E1 E2 (Hl d)).
  - exfalso. apply (Hside wf2 wf1 ps2 Hne2 E2 E1). intros p. now rewrite Hl.
  - reflexivity.
Qed.

(** ** C8 *)

Lemma bucket_lookup (data : list Observation)
    (wf : gmap string (gmap string PeriodSummary)) (d p : string) :
  (forall d p, lookup2 wf d p =
                 match bucket d p data with
                 | [] => None
                 | b => value_of (_get_weather_for_day b)
                 end) ->
  Forall finite_temps data ->
  bucket d p data <> [] ->
  exists s, lookup2 wf d p = Some s /\
            _get_weather_for_day (bucket d p data) = Ok s.
Proof.
  intros Hl Hfin Hne.
  destruct (_get_weather_for_day_total _ Hne (Forall_bucket _ d p _ Hfin))
    as [s Hs].
  exists s. split; [|exact Hs]. rewrite Hl.
  destruct (bucket d p data); [congruence|]. now rewrite Hs.
Qed.

(** C8: on a feed with readable time stamps and finite temperatures the
    aggregator returns, and for every (date, day-part) bucket with at least
    one observation the stored summary has max_temp = round of the greatest
    maximum temperature, min_temp = round of the least minimum temperature,
    weather_code = the distinct codes in strictly ascending order, uv_index
    and prob_of_rain the greatest values observed; a bucket without
    observation has no summary. *)
Theorem C8_period_summary (data : list Observation) :
  Forall readable data ->
  Forall finite_temps data ->
  exists wf,
    get_day_periods_weather data = Ok wf /\
    forall d p,
      (bucket d p data = [] -> lookup2 wf d p = None) /\
      (bucket d p data <> [] ->
       exists s (mx mn : Q),
         lookup2 wf d p = Some s /\
         Nmax_of (Fin mx) (map maxScreenAirTemp (bucket d p data)) /\
         max_temp s = round_half_even mx /\
         Nmin_of (Fin mn) (map minScreenAirTemp (bucket d p data)) /\
         min_temp s = round_half_even mn /\
         StronglySorted Z.lt (weather_code s) /\
         (forall c, In c (weather_code s) <->
                    exists e, In e (bucket d p data) /\
                              significantWeatherCode e = c) /\
         Zmax_of (uv_index s) (map uvIndex (bucket d p data)) /\
         Zmax_of (prob_of_rain s) (map probOfRain (bucket d p data))).
Proof.
  intros Hall Hfin.
  destruct (get_day_periods_weather_finite data Hall Hfin)
    as (wf & Hok & _ & Hl).
  exists wf. split; [exact Hok|]. intros d p. split.
  - intros Hnil. now rewrite Hl, Hnil.
  - intros Hne.
    destruct (bucket_lookup data wf d p Hl Hfin Hne) as (s & Hs & Hsum).
    assert (Hnn : Forall no_nan_temps (bucket d p data))
      by (apply finite_no_nan; now apply Forall_bucket).
    destruct (_get_weather_for_day_spec _ _ Hnn Hsum)
      as ((mx & Hmx & Emx) & (mn & Hmn & Emn) & Hsorted & Hcodes & Huv & Hrain).
    exists s, mx, mn. auto 10.
Qed.

Lemma feed_sample_readable : Forall readable feed_sample.
Proof.
  repeat (constructor; [eexists; vm_compute; reflexivity|]). constructor.
Defined.

Lemma feed_sample_finite : Forall finite_temps feed_sample.
Proof.
  repeat (constructor; [split; exact I|]). constructor.
Defined.

Lemma C8_period_summary_witness :
  exists wf,
    get_day_periods_weather feed_sample = Ok wf /\
    forall d p,
      (bucket d p feed_sample = [] -> lookup2 wf d p = None) /\
      (bucket d p feed_sample <> [] ->
       exists s (mx mn : Q),
         lookup2 wf d p = Some s /\
         Nmax_of (Fin mx) (map maxScreenAirTemp (bucket d p feed_sample)) /\
         max_temp s = round_half_even mx /\
         Nmin_of (Fin mn) (map minScreenAirTemp (bucket d p feed_sample)) /\
         min_temp s = round_half_even mn /\
         StronglySorted Z.lt (weather_code s) /\
         (forall c, In c (weather_code s) <->
                    exists e, In e (bucket d p feed_sample) /\
                              significantWeatherCode e = c) /\
         Zmax_of (uv_index s) (map uvIndex (bucket d p feed_sample)) /\
         Zmax_of (prob_of_rain s) (map probOfRain (bucket d p feed_sample))).
Proof.
  exact (C8_period_summary feed_sample feed_sample_readable
           feed_sample_finite).
Defined.

(** The summary of the morning of 2024-05-01 in the sample feed. *)
Example feed_sample_morning :
  value_of (get_day_periods_weather feed_sample)
    ≫= (fun wf => lookup2 wf "2024-05-01" "morning") =
  Some {| max_temp := 14; min_temp := 10; weather_code := [3; 7];
          uv_index := 2; prob_of_rain := 20 |}.
Proof. vm_compute. reflexivity. Qed.

(** ** C1 *)

(** The claim as stated fails: an entry at six o'clock is "overnight" under
    Scheme A, and the aggregator files its code under "morning". *)
Lemma C1_counterexample :
  ~ (forall (data : list Observation) wf (e : Observation) (h : Z),
       get_day_periods_weather data = Ok wf ->
       In e data ->
       hour_of (time e) = Ok h ->
       exists s, lookup2 wf (date_of e) (scheme_A h) = Some s /\
                 In (significantWeatherCode e) (weather_code s)).
Proof.
  intros Hclaim.
  assert (Hr : Forall readable feed_six).
  { constructor; [eexists; vm_compute; reflexivity|constructor]. }
  assert (Hf : Forall finite_temps feed_six).
  { constructor; [split; exact I|constructor]. }
  destruct (get_day_periods_weather_finite feed_six Hr Hf)
    as (wf & Hok & _ & Hl).
  destruct (Hclaim feed_six wf
              (obs "2024-05-01T06:00Z" (25 # 2) (10 # 1) 1 1 10) 6 Hok)
    as (s & Hs & _).
  - now left.
  - vm_compute. reflexivity.
  - rewrite Hl in Hs. vm_compute in Hs. discriminate Hs.
Qed.

(** C1 (amended): the day-part grouping of the aggregator uses the boundaries
    of [_determine_day_part] (Scheme B: morning [6,12), afternoon [12,18),
    evening [18,24), overnight otherwise): on a feed with readable time
    stamps and finite temperatures, the code of every observation appears in
    the per-date output under the day-part Scheme B gives its hour, and
    every code listed under a date and day-part comes from an observation of
    that date whose hour Scheme B maps to that day-part. *)
Theorem C1_day_part_by_scheme_B (data : list Observation) :
  Forall readable data ->
  Forall finite_temps data ->
  exists wf,
    get_day_periods_weather data = Ok wf /\
    (forall e, In e data ->
       exists h s,
         hour_of (time e) = Ok h /\
         lookup2 wf (date_of e) (scheme_B h) = Some s /\
         In (significantWeatherCode e) (weather_code s)) /\
    (forall d p s c,
       lookup2 wf d p = Some s -> In c (weather_code s) ->
       exists e h,
         In e data /\ date_of e = d /\ hour_of (time e) = Ok h /\
         scheme_B h = p /\ significantWeatherCode e = c).
Proof.
  intros Hall Hfin.
  destruct (get_day_periods_weather_finite data Hall Hfin)
    as (wf & Hok & _ & Hl).
  exists wf. split; [exact Hok|]. split.
  - intros e He.
    assert (Hre : readable e) by (rewrite List.Forall_forall in Hall; auto).
    destruct Hre as [h Hh]. exists h.
    assert (Hpart : _determine_day_part (time e) = Ok (scheme_B h)).
    { rewrite _determine_day_part_eq, Hh. reflexivity. }
    assert (Hin : In e (bucket (date_of e) (scheme_B h) data)).
    { unfold bucket. apply filter_In. split; [now apply on_date_In|].
      unfold part_is. rewrite Hpart. now apply bool_decide_eq_true_2. }
    destruct (bucket_lookup data wf (date_of e) (scheme_B h) Hl Hfin)
      as (s & Hs & Hsum).
    { intros Hnil. rewrite Hnil in Hin. destruct Hin. }
    exists s. split; [exact Hh|]. split; [exact Hs|].
    destruct (_get_weather_for_day_codes _ _ Hsum) as [_ Hcodes].
    apply Hcodes. eauto.
  - intros d p s c Hs Hc. rewrite Hl in Hs.
    destruct (bucket d p data) as [|x xs] eqn:Eb; [discriminate Hs|].
    destruct (_get_weather_for_day (x :: xs)) as [s'|err] eqn:Esum;
      [|discriminate Hs].
    injection Hs as ->.
    destruct (_get_weather_for_day_codes _ _ Esum) as [_ Hcodes].
    apply Hcodes in Hc as (e & He & Hcode). rewrite <- Eb in He.
    unfold bucket in He. apply filter_In in He as [Hdate Hpart].
    apply on_date_In in Hdate as [Hin Hdate].
    unfold part_is in Hpart. rewrite _determine_day_part_eq in Hpart.
    destruct (hour_of (time e)) as [h|err] eqn:Eh; [|discriminate Hpart].
    cbn [rbind] in Hpart. apply bool_decide_eq_true_1 in Hpart.
    exists e, h. auto.
Qed.

Lemma C1_day_part_by_scheme_B_witness :
  exists wf,
    get_day_periods_weather feed_sample = Ok wf /\
    (forall e, In e feed_sample ->
       exists h s,
         hour_of (time e) = Ok h /\
         lookup2 wf (date_of e) (scheme_B h) = Some s /\
         In (significantWeatherCode e) (weather_code s)) /\
    (forall d p s c,
       lookup2 wf d p = Some s -> In c (weather_code s) ->
       exists e h,
         In e feed_sample /\ date_of e = d /\ hour_of (time e) = Ok h /\
         scheme_B h = p /\ significantWeatherCode e = c).
Proof.
  exact (C1_day_part_by_scheme_B feed_sample feed_sample_readable
           feed_sample_finite).
Defined.

(** ** C2 *)

Lemma on_date_with_min (f : Observation -> num) (d : string)
    (data : list Observation) :
  on_date d (map (with_min f) data) = map (with_min f) (on_date d data).
Proof.
  unfold on_date. induction data as [|e data IH]; [reflexivity|].
  cbn [map List.filter].
  change (date_of (with_min f e)) with (date_of e).
  destruct (bool_decide (date_of e = d)); cbn [map]; now rewrite IH.
Qed.

Lemma high_low_res_with_min (f : Observation -> num)
    (es : list Observation) :
  high_low_res (map (with_min f) es) = high_low_res es.
Proof.
  unfold high_low_res. rewrite List.map_map.
  now rewrite (List.map_ext (fun x => maxScreenAirTemp (with_min f x))
                 maxScreenAirTemp) by reflexivity.
Qed.

Lemma dict_append_with_min (f : Observation -> num) (e : Observation)
    (acc : dict (list Observation)) :
  dict_append (date_of e) (with_min f e)
    (map (fun item => (fst item, map (with_min f) (snd item))) acc) =
  map (fun item => (fst item, map (with_min f) (snd item)))
    (dict_append (date_of e) e acc).
Proof.
  induction acc as [|[k vs] acc IH]; [reflexivity|].
  cbn [map dict_append fst snd].
  destruct (decide (date_of e = k)) as [Heq|Hne]; cbn [map fst snd].
  - now rewrite List.map_app.
  - now rewrite IH.
Qed.

Lemma _get_daily_data_with_min (f : Observation -> num)
    (data : list Observation) :
  _get_daily_data (map (with_min f) data) =
  map (fun item => (fst item, map (with_min f) (snd item)))
    (_get_daily_data data).
Proof.
  unfold _get_daily_data.
  assert (H : forall acc : dict (list Observation),
    fold_left
      (fun daily_data entry => dict_append (date_of entry) entry daily_data)
      (map (with_min f) data)
      (map (fun item => (fst item, map (with_min f) (snd item))) acc) =
    map (fun item => (fst item, map (with_min f) (snd item)))
      (fold_left
         (fun daily_data entry => dict_append (date_of entry) entry daily_data)
         data acc)).
  { induction data as [|e data IH]; intros acc; [reflexivity|].
    cbn [map fold_left].
    change (date_of (with_min f e)) with (date_of e).
    rewrite dict_append_with_min. apply IH. }
  exact (H []).
Qed.

(** The minimum temperatures play no part in [get_highs_lows], whatever
    they are and whether it returns or raises. *)
Lemma get_highs_lows_with_min (f : Observation -> num)
    (data : list Observation) :
  get_highs_lows (map (with_min f) data) = get_highs_lows data.
Proof.
  unfold get_highs_lows. rewrite _get_daily_data_with_min.
  generalize (∅ : gmap string DailyHighLow).
  induction (_get_daily_data data) as [|[k es] dd IH]; intros acc;
    [reflexivity|].
  cbn [map foldR]. rewrite !highs_lows_step_eq. cbn [fst snd].
  rewrite high_low_res_with_min.
  destruct (high_low_res es); cbn [rbind]; [apply IH|reflexivity].
Qed.

(** C2: on a feed with finite maximum temperatures, for every date with at
    least one observation [get_highs_lows] holds high = round of the
    greatest and low = round of the least value of the maxScreenAirTemp
    field over the observations of that date; replacing the minScreenAirTemp
    fields by anything changes nothing. *)
Theorem C2_high_low_from_max_field (data : list Observation) (d : string) :
  Forall finite_max data ->
  on_date d data <> [] ->
  exists hls (hi lo : Q),
    get_highs_lows data = Ok hls /\
    hls !! d = Some {| high := round_half_even hi;
                       low := round_half_even lo |} /\
    Nmax_of (Fin hi) (map maxScreenAirTemp (on_date d data)) /\
    Nmin_of (Fin lo) (map maxScreenAirTemp (on_date d data)) /\
    forall f : Observation -> num,
      get_highs_lows (map (with_min f) data) = get_highs_lows data.
Proof.
  intros Hfin Hne.
  destruct (get_highs_lows_finite data Hfin) as (hls & Hok & Hl).
  destruct (high_low_res_finite _ Hne (Forall_on_date _ d _ Hfin))
    as (hi & lo & Hhl & Hhi & Hlo).
  exists hls, hi, lo. split; [exact Hok|].
  split; [|split; [exact Hhi|split; [exact Hlo|]]].
  - rewrite Hl. destruct (on_date d data) as [|x xs]; [congruence|].
    unfold high_low_of. now rewrite Hhl.
  - intros f. apply get_highs_lows_with_min.
Qed.

Lemma feed_sample_finite_max : Forall finite_max feed_sample.
Proof.
  repeat (constructor; [exact I|]). constructor.
Defined.

Lemma C2_high_low_from_max_field_witness :
  exists hls (hi lo : Q),
    get_highs_lows feed_sample = Ok hls /\
    hls !! "2024-05-01" = Some {| high := round_half_even hi;
                                  low := round_half_even lo |} /\
    Nmax_of (Fin hi)
      (map maxScreenAirTemp (on_date "2024-05-01" feed_sample)) /\
    Nmin_of (Fin lo)
      (map maxScreenAirTemp (on_date "2024-05-01" feed_sample)) /\
    forall f : Observation -> num,
      get_highs_lows (map (with_min f) feed_sample) =
      get_highs_lows feed_sample.
Proof.
  apply (C2_high_low_from_max_field feed_sample "2024-05-01").
  - exact feed_sample_finite_max.
  - vm_compute. discriminate.
Defined.

(** On the sample feed: 17.5 rounds to 18 and 12.5 to 12 (ties to even); the
    minimum temperatures (10, 11, 11.5) play no part. *)
Example feed_sample_high_low :
  value_of (get_highs_lows feed_sample) ≫= (.!! "2024-05-01") =
  Some {| high := 18; low := 12 |}.
Proof. vm_compute. reflexivity. Qed.

(** ** C9 *)

Lemma bucket_perm (d p : string) (data data' : list Observation) :
  Permutation data data' -> Permutation (bucket d p data) (bucket d p data').
Proof. intros Hp. unfold bucket, on_date. now do 2 apply filter_perm. Qed.

Lemma on_date_perm (d : string) (data data' : list Observation) :
  Permutation data data' -> Permutation (on_date d data) (on_date d data').
Proof. intros Hp. unfold on_date. now apply filter_perm. Qed.

(** Without NaN, a permuted feed has a high and a low for every date as soon
    as the feed has. *)
Lemma get_highs_lows_perm_ok (data data' : list Observation)
    (hls : gmap string DailyHighLow) :
  Forall no_nan_temps data -> Permutation data data' ->
  get_highs_lows data = Ok hls -> get_highs_lows data' = Ok hls.
Proof.
  intros Hnn Hp Hok.
  assert (Heq : forall d, high_low_res (on_date d data) =
                          high_low_res (on_date d data')).
  { intros d. apply high_low_res_perm; [now apply on_date_perm|].
    now apply Forall_on_date. }
  pose proof (get_highs_lows_cases data) as Hret. rewrite Hok in Hret.
  destruct (get_highs_lows_ok data Hret) as (hls1 & Hok1 & Hl1).
  destruct (get_highs_lows_ok data') as (hls2 & Hok2 & Hl2).
  { intros d Hne. rewrite <- Heq. apply Hret.
    exact (perm_nil_iff _ _ (Permutation_sym (on_date_perm d _ _ Hp)) Hne). }
  rewrite Hok in Hok1. injection Hok1 as <-. rewrite Hok2. f_equal.
  apply map_eq. intros d. rewrite Hl1, Hl2. symmetry.
  apply (match_nil_perm _ _ high_low_of).
  - now apply on_date_perm.
  - unfold high_low_of. now rewrite Heq.
Qed.

Lemma get_highs_lows_error (data : list Observation) (e : exn) :
  Forall no_nan_temps data ->
  get_highs_lows data = Err e -> e = OverflowError.
Proof.
  intros Hnn Herr. pose proof (get_highs_lows_cases data) as H.
  rewrite Herr in H. destruct H as (d & Hne & He).
  apply (high_low_res_error (on_date d data) e Hne); [|exact He].
  now apply Forall_on_date.
Qed.

Lemma get_highs_lows_perm (data data' : list Observation) :
  Forall no_nan_temps data -> Permutation data data' ->
  get_highs_lows data' = get_highs_lows data.
Proof.
  intros Hnn Hp.
  assert (Hnn' : Forall no_nan_temps data') by exact (Forall_perm _ _ _ Hp Hnn).
  destruct (get_highs_lows data) as [hls|e] eqn:E.
  - exact (get_highs_lows_perm_ok data data' hls Hnn Hp E).
  - destruct (get_highs_lows data') as [hls'|e'] eqn:E'.
    + rewrite (get_highs_lows_perm_ok data' data hls' Hnn'
                 (Permutation_sym Hp) E') in E.
      discriminate E.
    + now rewrite (get_highs_lows_error data e Hnn E),
                  (get_highs_lows_error data' e' Hnn' E').
Qed.

Lemma get_day_periods_weather_perm (data data' : list Observation)
    (wf : gmap string (gmap string PeriodSummary)) :
  Forall no_nan_temps data -> Permutation data data' ->
  get_day_periods_weather data = Ok wf ->
  get_day_periods_weather data' = Ok wf.
Proof.
  intros Hnn Hp Hok.
  destruct (get_day_periods_weather_inv data wf Hok) as [Hall Hsum].
  assert (Hall' : Forall readable data') by exact (Forall_perm _ _ _ Hp Hall).
  assert (Heq : forall d p, _get_weather_for_day (bucket d p data) =
                            _get_weather_for_day (bucket d p data')).
  { intros d p. apply _get_weather_for_day_perm; [now apply bucket_perm|].
    now apply Forall_bucket. }
  destruct (get_day_periods_weather_ok data Hall Hsum)
    as (wf1 & Hok1 & Hne1 & Hl1).
  destruct (get_day_periods_weather_ok data' Hall')
    as (wf2 & Hok2 & Hne2 & Hl2).
  { intros d p Hne. rewrite <- Heq. apply Hsum.
    exact (perm_nil_iff _ _ (Permutation_sym (bucket_perm d p _ _ Hp)) Hne). }
  rewrite Hok in Hok1. injection Hok1 as <-. rewrite Hok2. f_equal.
  apply forecast_ext; [assumption|assumption|].
  intros d p. rewrite Hl1, Hl2. symmetry.
  apply (match_nil_perm _ _ (fun b => value_of (_get_weather_for_day b))).
  - now apply bucket_perm.
  - now rewrite Heq.
Qed.

(** The claim as stated fails: Python's [max] and [min] keep a leading NaN
    and skip a later one, so the place of a NaN in the feed decides whether
    [round] is handed NaN. With NaN first both functions raise
    [ValueError]; with the same two observations in the other order both
    return. *)
Lemma C9_counterexample :
  Permutation feed_nan_first feed_nan_last /\
  get_highs_lows feed_nan_first = Err ValueError /\
  get_highs_lows feed_nan_last =
    Ok {[ "2024-05-01" := {| high := 1; low := 1 |} ]} /\
  get_day_periods_weather feed_nan_first = Err ValueError /\
  value_of (get_day_periods_weather feed_nan_last)
    ≫= (fun wf => lookup2 wf "2024-05-01" "morning") =
  Some {| max_temp := 1; min_temp := 1; weather_code := [1];
          uv_index := 1; prob_of_rain := 10 |} /\
  ~ (forall data data' : list Observation,
       Permutation data data' ->
       value_of (get_highs_lows data') = value_of (get_highs_lows data) /\
       value_of (get_day_periods_weather data') =
         value_of (get_day_periods_weather data)).
Proof.
  assert (Hp : Permutation feed_nan_first feed_nan_last) by apply perm_swap.
  split; [exact Hp|].
  split; [vm_compute; reflexivity|].
  split; [vm_compute; reflexivity|].
  split; [vm_compute; reflexivity|].
  split; [vm_compute; reflexivity|].
  intros Hclaim. destruct (Hclaim _ _ Hp) as [H _].
  vm_compute in H. discriminate H.
Qed.

(** C9 (amended): when no temperature of the feed is NaN, aggregation is
    independent of the order of the observations: on a permutation of the
    feed [get_highs_lows] has the same outcome (the same highs and lows, or
    the same exception) and [get_day_periods_weather] returns the same
    summaries (and raises on the one exactly when it raises on the other);
    run again on the same feed each returns the same output. *)
Theorem C9_order_independent (data data' : list Observation) :
  Forall no_nan_temps data ->
  Permutation data data' ->
  get_highs_lows data' = get_highs_lows data /\
  value_of (get_day_periods_weather data') =
    value_of (get_day_periods_weather data) /\
  (forall wf, get_day_periods_weather data = Ok wf ->
              get_day_periods_weather data' = Ok wf).
Proof.
  intros Hnn Hp.
  assert (Hnn' : Forall no_nan_temps data') by exact (Forall_perm _ _ _ Hp Hnn).
  split; [now apply get_highs_lows_perm|].
  split; [|intros wf; now apply get_day_periods_weather_perm].
  destruct (get_day_periods_weather data) as [wf|err] eqn:E.
  - now rewrite (get_day_periods_weather_perm data data' wf Hnn Hp E).
  - destruct (get_day_periods_weather data') as [wf'|err'] eqn:E';
      [|reflexivity].
    rewrite (get_day_periods_weather_perm data' data wf' Hnn'
               (Permutation_sym Hp) E') in E.
    discriminate E.
Qed.

Lemma feed_shuffled_perm : Permutation feed_sample feed_shuffled.
Proof.
  unfold feed_sample, feed_shuffled.
  eapply perm_trans; [apply perm_swap|].
  apply perm_skip.
  eapply perm_trans; [apply perm_skip, perm_swap|]. apply perm_swap.
Defined.

Lemma feed_sample_no_nan : Forall no_nan_temps feed_sample.
Proof.
  repeat (constructor; [split; exact I|]). constructor.
Defined.

Lemma C9_order_independent_witness :
  get_highs_lows feed_shuffled = get_highs_lows feed_sample /\
  value_of (get_day_periods_weather feed_shuffled) =
    value_of (get_day_periods_weather feed_sample) /\
  (forall wf, get_day_periods_weather feed_sample = Ok wf ->
              get_day_periods_weather feed_shuffled = Ok wf).
Proof.
  exact (C9_order_independent feed_sample feed_shuffled feed_sample_no_nan
           feed_shuffled_perm).
Defined.

(** * Further properties of the renderer *)

Lemma append_empty_r (s : string) : s +:+ "" = s.
Proof.
  induction s as [|c s IH]; [reflexivity|].
  change (String c (s +:+ "") = String c s). now rewrite IH.
Qed.

(** The two tests on [len(codes)] in the second loop always hold when they
    are reached: what is appended before the phrase is [separator]. *)
Lemma separator_step (w : string) (i len : nat) :
  (S i <= len)%nat ->
  (if (Z.of_nat i + 1 =? 3) && (3 <=? len)%nat
   then (if (Z.of_nat i + 1 =? 2) && (2 <=? len)%nat
         then w +:+ ", with " else w) +:+ " and "
   else (if (Z.of_nat i + 1 =? 2) && (2 <=? len)%nat
         then w +:+ ", with " else w))
  = w +:+ separator (S i).
Proof.
  intros Hlen.
  destruct (Z.eqb_spec (Z.of_nat i + 1) 3) as [H3|H3];
    destruct (Z.eqb_spec (Z.of_nat i + 1) 2) as [H2|H2]; try lia.
  - assert (i = 2%nat) as -> by lia.
    destruct (Nat.leb_spec 3 len); [|lia]. reflexivity.
  - assert (i = 1%nat) as -> by lia.
    destruct (Nat.leb_spec 2 len); [|lia]. reflexivity.
  - cbn [andb].
    assert (Hsep : separator (S i) = "").
    { destruct i as [|[|[|i]]]; try reflexivity; lia. }
    now rewrite Hsep, append_empty_r.
Qed.

Lemma render_loop_join (skip : gset Z) (len : nat) (codes : list Z)
    (w : string) (i : nat) :
  (i + length codes <= len)%nat ->
  render_loop (Some skip) len codes w (Z.of_nat i) =
    Ok (w +:+ join_from i (narrated skip codes)).
Proof.
  revert w i. induction codes as [|c codes IH]; intros w i Hlen.
  - cbn. now rewrite append_empty_r.
  - cbn [render_loop narrated List.filter]. cbn [length] in Hlen.
    destruct (decide (c ∈ skip)) as [Hin|Hnin].
    + rewrite bool_decide_eq_true_2 by assumption. cbn [negb].
      apply IH. lia.
    + rewrite bool_decide_eq_false_2 by assumption. cbn [negb].
      cbv zeta. rewrite separator_step by lia.
      replace (Z.of_nat i + 1) with (Z.of_nat (S i)) by lia.
      fold (narrated skip codes). rewrite IH by lia.
      cbn [join_from]. now rewrite !append_assoc.
Qed.

Lemma join_from_three (i : nat) (codes : list Z) :
  (3 <= i)%nat ->
  join_from i codes = fold_right (fun c s => phrase c +:+ s) "" codes.
Proof.
  revert i. induction codes as [|c codes IH]; intros i Hi; [reflexivity|].
  cbn [join_from fold_right]. rewrite (IH (S i)) by lia.
  destruct i as [|[|[|i]]]; try lia. reflexivity.
Qed.

Lemma metoffice_join (part : string) (skip : gset Z) (codes : list Z) :
  codes_to_skip_of part = Some skip ->
  metoffice_weather_codes_to_str part codes =
    (pruned codes, Ok (join_from 0 (narrated skip (pruned codes)))).
Proof.
  intros Hskip. rewrite metoffice_weather_codes_to_str_eq, Hskip. f_equal.
  now rewrite (render_loop_join skip _ (pruned codes) "" 0).
Qed.

(** X1: For "day" and "night" the phrase is the join of the phrases of the
    codes that survive pruning and are not skipped: the first alone, the
    second after ", with ", the third after " and ", any further one with no
    separator. *)
Theorem render_joins_narrated (part : string) (skip : gset Z)
    (codes : list Z) :
  codes_to_skip_of part = Some skip ->
  metoffice_weather_codes_to_str part codes =
    (pruned codes, Ok (join_from 0 (narrated skip (pruned codes))))
  /\ (forall a, join_from 0 [a] = phrase a)
  /\ (forall a b, join_from 0 [a; b] = phrase a +:+ ", with " +:+ phrase b)
  /\ (forall a b c rest,
        join_from 0 (a :: b :: c :: rest) =
          phrase a +:+ ", with " +:+ phrase b +:+ " and " +:+ phrase c
          +:+ fold_right (fun c s => phrase c +:+ s) "" rest).
Proof.
  intros Hskip. split; [|split; [|split]].
  - now apply metoffice_join.
  - intros a. cbn. apply append_empty_r.
  - intros a b. cbn. now rewrite append_empty_r.
  - intros a b c rest. cbn [join_from separator].
    now rewrite (join_from_three 3 rest).
Qed.

Lemma render_joins_narrated_witness :
  metoffice_weather_codes_to_str "day" [1; 9; 12; 15; 8] =
    ([1; 9; 12; 15; 8],
     Ok "Clear and sunny, with Light rain and Heavy rainOvercast").
Proof.
  rewrite (proj1 (render_joins_narrated "day" night_skip_codes
                    [1; 9; 12; 15; 8] eq_refl)).
  vm_compute. reflexivity.
Defined.

(** X2: The in-place pruning never makes [remove] raise, whatever the list (with
    repeated codes too): the only exception of the renderer is the unbound
    skip set.  A list without code 3 is left as it was. *)
Theorem render_remove_never_raises (part : string) (codes : list Z) :
  fst (metoffice_weather_codes_to_str part codes) =
    (if py_in 3 codes
     then List.filter (fun c => negb (c =? 7) && negb (c =? 2)) codes
     else codes)
  /\ (forall e, snd (metoffice_weather_codes_to_str part codes) = Err e ->
                e = UnboundLocalError /\ part <> "day" /\ part <> "night")
  /\ (~ In 3 codes ->
      fst (metoffice_weather_codes_to_str part codes) = codes).
Proof.
  rewrite metoffice_weather_codes_to_str_eq. cbn [fst snd].
  split; [reflexivity|]. split.
  - intros e He. unfold codes_to_skip_of in He.
    destruct (decide (part = "night")) as [->|Hn].
    { destruct (render_loop_total day_skip_codes
                  (length (pruned codes)) (pruned codes) "" 0) as [s Hs].
      rewrite Hs in He. discriminate He. }
    destruct (decide (part = "day")) as [->|Hd].
    { destruct (render_loop_total night_skip_codes
                  (length (pruned codes)) (pruned codes) "" 0) as [s Hs].
      rewrite Hs in He. discriminate He. }
    split; [|split; assumption].
    destruct (pruned codes); cbn in He; congruence.
  - intros H3. unfold pruned.
    destruct (py_in 3 codes) eqn:E; [|reflexivity].
    apply py_in_In in E. contradiction.
Qed.

Lemma render_remove_never_raises_witness :
  fst (metoffice_weather_codes_to_str "day" [7; 2; 7; 1]) = [7; 2; 7; 1].
Proof.
  apply (proj2 (proj2 (render_remove_never_raises "day" [7; 2; 7; 1]))).
  simpl. intuition discriminate.
Defined.

(** X3: Rendering the list the renderer left behind gives the same phrase again
    and leaves the list as it is: a second call sees no further change. *)
Theorem render_twice (part : string) (codes : list Z) :
  metoffice_weather_codes_to_str part
    (fst (metoffice_weather_codes_to_str part codes)) =
  metoffice_weather_codes_to_str part codes.
Proof.
  rewrite !metoffice_weather_codes_to_str_eq. cbn [fst].
  now rewrite pruned_idem.
Qed.

Lemma narrated_all_skipped (skip : gset Z) (codes : list Z) :
  Forall (fun c => c ∈ skip) codes -> narrated skip codes = [].
Proof.
  induction 1 as [|c codes Hc Hall IH]; [reflexivity|].
  cbn [narrated List.filter]. rewrite bool_decide_eq_true_2 by assumption.
  exact IH.
Qed.

Lemma pruned_incl (codes : list Z) (c : Z) : In c (pruned codes) -> In c codes.
Proof.
  unfold pruned. destruct (py_in 3 codes); [|auto].
  intros Hin. now apply filter_In in Hin.
Qed.

(** X4: When every code of the list is in the skip set of the part, the phrase
    is the empty string (no fallback text). *)
Theorem render_all_skipped (part : string) (skip : gset Z) (codes : list Z) :
  codes_to_skip_of part = Some skip ->
  Forall (fun c => c ∈ skip) codes ->
  snd (metoffice_weather_codes_to_str part codes) = Ok "".
Proof.
  intros Hskip Hall.
  rewrite (metoffice_join part skip codes Hskip). cbn [snd].
  rewrite narrated_all_skipped; [reflexivity|].
  apply List.Forall_forall. intros c Hc.
  rewrite List.Forall_forall in Hall. now apply Hall, pruned_incl.
Qed.

Lemma in_skip_list (c : Z) (l : list Z) :
  c ∈ (list_to_set l : gset Z) <-> In c l.
Proof. now rewrite elem_of_list_to_set, list_elem_of_In. Qed.

Lemma render_all_skipped_witness :
  snd (metoffice_weather_codes_to_str "night" [1; 12]) = Ok "".
Proof.
  apply (render_all_skipped "night" day_skip_codes [1; 12] eq_refl).
  repeat constructor; apply in_skip_list; simpl; auto 20.
Defined.

Lemma values_range (c : Z) (s : string) : values c = Some s -> 0 <= c <= 30.
Proof.
  intros H. unfold values in H.
  destruct c as [|p|p]; [lia| |discriminate H].
  do 5 (try destruct p as [p|p|]; try discriminate H; try lia).
Qed.

(** X5: A code outside 0..30 is in neither skip set and has no phrase of its
    own: alone in the list it is rendered as "Some weather" for "day" and
    for "night". *)
Theorem render_unknown_code (c : Z) (part : string) :
  c < 0 \/ 30 < c ->
  part = "day" \/ part = "night" ->
  metoffice_weather_codes_to_str part [c] = ([c], Ok "Some weather").
Proof.
  intros Hc Hpart.
  assert (Hphrase : phrase c = "Some weather").
  { unfold phrase. destruct (values c) as [s|] eqn:E; [|reflexivity].
    apply values_range in E. lia. }
  assert (Hpr : pruned [c] = [c]).
  { unfold pruned. cbn [py_in existsb].
    destruct (Z.eqb_spec 3 c); [lia|reflexivity]. }
  assert (Hd : c ∉ day_skip_codes).
  { unfold day_skip_codes. rewrite in_skip_list. simpl. lia. }
  assert (Hn : c ∉ night_skip_codes).
  { unfold night_skip_codes. rewrite in_skip_list. simpl. lia. }
  destruct Hpart as [->| ->].
  - rewrite (metoffice_join "day" night_skip_codes [c] eq_refl), Hpr.
    cbn [narrated List.filter]. rewrite bool_decide_eq_false_2 by assumption.
    cbn. now rewrite Hphrase.
  - rewrite (metoffice_join "night" day_skip_codes [c] eq_refl), Hpr.
    cbn [narrated List.filter]. rewrite bool_decide_eq_false_2 by assumption.
    cbn. now rewrite Hphrase.
Qed.

Lemma render_unknown_code_witness :
  metoffice_weather_codes_to_str "day" [31] = ([31], Ok "Some weather").
Proof.
  apply render_unknown_code; [right; lia|now left].
Defined.

(** X6: Every code from 0 to 30 is in exactly one of the two skip sets: it is
    skipped either for "night" or for "day", never for both and never for
    neither. *)
Theorem skip_sets_partition (c : Z) :
  0 <= c <= 30 ->
  ((c ∈ day_skip_codes) /\ (c ∉ night_skip_codes)) \/
  ((c ∉ day_skip_codes) /\ (c ∈ night_skip_codes)).
Proof.
  intros Hc. unfold day_skip_codes, night_skip_codes.
  rewrite !in_skip_list, <- !py_in_In.
  replace c with (Z.of_nat (Z.to_nat c)) by lia.
  assert (Hn : (Z.to_nat c <= 30)%nat) by lia.
  revert Hn. generalize (Z.to_nat c). intros n Hn.
  do 31 (destruct n as [|n];
         [vm_compute; first [left; split; congruence|right; split; congruence]
         |]).
  lia.
Qed.

Lemma skip_sets_partition_witness :
  ((9 ∈ day_skip_codes) /\ (9 ∉ night_skip_codes)) \/
  ((9 ∉ day_skip_codes) /\ (9 ∈ night_skip_codes)).
Proof. apply skip_sets_partition. lia. Defined.

(** * Further properties of the composer *)

Ltac window_true :=
  symmetry; apply andb_true_intro; split;
  [apply Z.leb_le|apply Z.ltb_lt]; lia.

Ltac window_false :=
  symmetry; apply andb_false_iff;
  first [left; apply Z.leb_gt; lia|right; apply Z.ltb_ge; lia].

Lemma compose_present (ix : ForecastIndex) (hour : Z)
    (today tomorrow : string) :
  (forall dp, In dp (required_periods hour today tomorrow) ->
              is_Some (lookup2 (forecast ix) (fst dp) (snd dp))) ->
  is_Some (temps ix !! required_temps hour today tomorrow) ->
  exists bulletin, snd (compose hour today tomorrow ix) = Ok bulletin.
Proof.
  pose proof (evolves_refl today tomorrow ix) as Hev0.
  intros Hper Htemps. unfold compose, required_periods, required_temps in *.
  destruct ((5 <=? hour) && (hour <? 11));
    [|destruct ((11 <=? hour) && (hour <? 17));
      [|destruct ((17 <=? hour) && (hour <? 24))]];
    repeat (template_step today tomorrow;
            [exfalso;
             match goal with
             | H : lookup2 _ ?d ?p = None |- _ =>
                 destruct (Hper (d, p)) as [? Hsome];
                 [simpl; auto 6|cbn [fst snd] in Hsome; congruence]
             end|]);
    (template_step today tomorrow;
     [exfalso; destruct Htemps as [? Hsome]; congruence|]);
    eexists; reflexivity.
Qed.

(** X7: The composer raises nothing but [KeyError], and when every period the
    template subscripts and the date whose highs and lows it reads are in
    the index, it returns a bulletin. *)
Theorem compose_returns_when_present (ix : ForecastIndex) (hour : Z)
    (today tomorrow : string) :
  (forall e, snd (compose hour today tomorrow ix) = Err e -> e = KeyError)
  /\
  ((forall dp, In dp (required_periods hour today tomorrow) ->
               is_Some (lookup2 (forecast ix) (fst dp) (snd dp))) ->
   is_Some (temps ix !! required_temps hour today tomorrow) ->
   exists bulletin, snd (compose hour today tomorrow ix) = Ok bulletin).
Proof.
  split; [|apply compose_present].
  pose proof (evolves_refl today tomorrow ix) as Hev0.
  intros e. unfold compose.
  destruct ((5 <=? hour) && (hour <? 11));
    [|destruct ((11 <=? hour) && (hour <? 17));
      [|destruct ((17 <=? hour) && (hour <? 24))]];
    repeat (template_step today tomorrow; [congruence|]);
    (template_step today tomorrow; [cbn; congruence|]);
    cbn; discriminate.
Qed.

Lemma compose_returns_when_present_witness :
  exists bulletin,
    snd (compose 20 "2024-05-01" "2024-05-02" ix_two_days) = Ok bulletin.
Proof.
  apply (proj2 (compose_returns_when_present
                  ix_two_days 20 "2024-05-01" "2024-05-02")).
  - intros dp Hin. simpl in Hin.
    destruct Hin as [<-|[<-|[<-|[]]]]; eexists; vm_compute; reflexivity.
  - eexists. vm_compute. reflexivity.
Defined.

(** X8: The afternoon template (hour in [11,17)): the afternoon phrase, then
    ", continuing into the evening" when the evening renders to the same
    string and the evening phrase otherwise, then today's high. *)
Theorem compose_afternoon_template (ix : ForecastIndex) (hour : Z)
    (today tomorrow : string) (sa se : PeriodSummary) (hl : DailyHighLow) :
  11 <= hour < 17 ->
  lookup2 (forecast ix) today "afternoon" = Some sa ->
  lookup2 (forecast ix) today "evening" = Some se ->
  temps ix !! today = Some hl ->
  exists a e : string,
    snd (metoffice_weather_codes_to_str "day" (weather_code sa)) = Ok a /\
    snd (metoffice_weather_codes_to_str "day" (weather_code se)) = Ok e /\
    snd (compose hour today tomorrow ix) =
      Ok (a +:+ " this afternoon" +:+
          (if decide (a = e) then ", continuing into the evening"
           else ", " +:+ e +:+ " later into the evening") +:+
          ". Highs across North East Somerset of " +:+
          py_str_int (high hl) +:+ " degrees.").
Proof.
  intros Hhour Ha He Ht.
  pose proof (evolves_refl today tomorrow ix) as Hev0.
  unfold compose.
  replace ((5 <=? hour) && (hour <? 11)) with false by window_false.
  replace ((11 <=? hour) && (hour <? 17)) with true by window_true.
  template_step today tomorrow; [congruence|].
  template_step today tomorrow; [congruence|].
  template_step today tomorrow; [congruence|].
  rewrite Ha in Hlook. rewrite He in Hlook0. rewrite Ht in Htemps.
  injection Hlook as <-. injection Hlook0 as <-. injection Htemps as <-.
  exists str, str0. split; [assumption|]. split; [assumption|].
  unfold mret. cbn [snd].
  destruct (decide (str = str0)); now rewrite !append_assoc.
Qed.

Lemma compose_afternoon_template_witness :
  snd (compose 12 "2024-05-01" "2024-05-02" ix_two_days) =
    Ok ("Clear and sunny this afternoon, Cloudy skies, with Light rain later "
        +:+ "into the evening. Highs across North East Somerset of 18 degrees.").
Proof.
  destruct (compose_afternoon_template ix_two_days 12
              "2024-05-01" "2024-05-02"
              (summary_of_codes [1; 9]) (summary_of_codes [7; 12])
              {| high := 18; low := 12 |})
    as (a & e & Ha & He & Hc);
    [lia|vm_compute; reflexivity|vm_compute; reflexivity
    |vm_compute; reflexivity|].
  vm_compute in Ha, He. injection Ha as <-. injection He as <-.
  rewrite Hc. vm_compute. reflexivity.
Defined.

(** X9: The evening template (hour in [17,24)): this evening's phrase, the
    phrase of tomorrow's overnight (rendered for "night") with tomorrow's
    low, and the phrase of tomorrow morning with tomorrow's high. *)
Theorem compose_evening_template (ix : ForecastIndex) (hour : Z)
    (today tomorrow : string) (se so sm : PeriodSummary)
    (hl : DailyHighLow) :
  17 <= hour < 24 ->
  lookup2 (forecast ix) today "evening" = Some se ->
  lookup2 (forecast ix) tomorrow "overnight" = Some so ->
  lookup2 (forecast ix) tomorrow "morning" = Some sm ->
  temps ix !! tomorrow = Some hl ->
  exists e o m : string,
    snd (metoffice_weather_codes_to_str "day" (weather_code se)) = Ok e /\
    snd (metoffice_weather_codes_to_str "night" (weather_code so)) = Ok o /\
    snd (metoffice_weather_codes_to_str "day" (weather_code sm)) = Ok m /\
    snd (compose hour today tomorrow ix) =
      Ok (e +:+ " this evening. " +:+
          o +:+ " overnight with lows of " +:+ py_str_int (low hl) +:+
          " degrees. " +:+
          "Tomorrow we will expect " +:+ m +:+ " with highs of " +:+
          py_str_int (high hl) +:+ ".").
Proof.
  intros Hhour He Ho Hm Ht.
  pose proof (evolves_refl today tomorrow ix) as Hev0.
  unfold compose.
  replace ((5 <=? hour) && (hour <? 11)) with false by window_false.
  replace ((11 <=? hour) && (hour <? 17)) with false by window_false.
  replace ((17 <=? hour) && (hour <? 24)) with true by window_true.
  template_step today tomorrow; [congruence|].
  template_step today tomorrow; [congruence|].
  template_step today tomorrow; [congruence|].
  template_step today tomorrow; [congruence|].
  rewrite He in Hlook. rewrite Ho in Hlook0. rewrite Hm in Hlook1.
  rewrite Ht in Htemps.
  injection Hlook as <-. injection Hlook0 as <-. injection Hlook1 as <-.
  injection Htemps as <-.
  exists str, str0, str1. do 3 (split; [assumption|]).
  unfold mret. cbn [snd]. now rewrite !append_assoc.
Qed.

Lemma compose_evening_template_witness :
  snd (compose 20 "2024-05-01" "2024-05-02" ix_two_days) =
    Ok ("Cloudy skies, with Light rain this evening. Clear overnight with "
        +:+ "lows of 11 degrees. Tomorrow we will expect Cloudy skies, with "
        +:+ "Overcast with highs of 16.").
Proof.
  destruct (compose_evening_template ix_two_days 20
              "2024-05-01" "2024-05-02"
              (summary_of_codes [7; 12]) (summary_of_codes [0; 2])
              (summary_of_codes [7; 8]) {| high := 16; low := 11 |})
    as (e & o & m & He & Ho & Hm & Hc);
    [lia|vm_compute; reflexivity|vm_compute; reflexivity
    |vm_compute; reflexivity|vm_compute; reflexivity|].
  vm_compute in He, Ho, Hm.
  injection He as <-. injection Ho as <-. injection Hm as <-.
  rewrite Hc. vm_compute. reflexivity.
Defined.

(** X10: The overnight template (any hour outside [5,24)): tomorrow's overnight
    phrase with tomorrow's low, then one clause for the whole of tomorrow
    when its morning and afternoon render to the same string, and the two
    phrases otherwise, with tomorrow's high. *)
Theorem compose_overnight_template (ix : ForecastIndex) (hour : Z)
    (today tomorrow : string) (so sm sa : PeriodSummary)
    (hl : DailyHighLow) :
  hour < 5 \/ 24 <= hour ->
  lookup2 (forecast ix) tomorrow "overnight" = Some so ->
  lookup2 (forecast ix) tomorrow "morning" = Some sm ->
  lookup2 (forecast ix) tomorrow "afternoon" = Some sa ->
  temps ix !! tomorrow = Some hl ->
  exists o m a : string,
    snd (metoffice_weather_codes_to_str "night" (weather_code so)) = Ok o /\
    snd (metoffice_weather_codes_to_str "day" (weather_code sm)) = Ok m /\
    snd (metoffice_weather_codes_to_str "day" (weather_code sa)) = Ok a /\
    snd (compose hour today tomorrow ix) =
      Ok (o +:+ " overnight with lows of " +:+ py_str_int (low hl) +:+
          " degrees. " +:+
          (if decide (m = a) then
             "Tomorrow we are expecting " +:+ m +:+ ", " +:+
             "with temperatures reaching highs of " +:+
             py_str_int (high hl) +:+ " degrees."
           else
             "Tomorrow morning will start with " +:+ m +:+ ", " +:+
             a +:+ " later on, highs of " +:+ py_str_int (high hl) +:+ ".")).
Proof.
  intros Hhour Ho Hm Ha Ht.
  pose proof (evolves_refl today tomorrow ix) as Hev0.
  assert (Hw : forall lo hi, 5 <= lo -> hi <= 24 ->
                 (lo <=? hour) && (hour <? hi) = false).
  { intros lo hi Hlo Hhi. apply andb_false_iff.
    destruct Hhour; [left; apply Z.leb_gt; lia|right; apply Z.ltb_ge; lia]. }
  unfold compose. rewrite !Hw by lia.
  template_step today tomorrow; [congruence|].
  template_step today tomorrow; [congruence|].
  template_step today tomorrow; [congruence|].
  template_step today tomorrow; [congruence|].
  rewrite Ho in Hlook. rewrite Hm in Hlook0. rewrite Ha in Hlook1.
  rewrite Ht in Htemps.
  injection Hlook as <-. injection Hlook0 as <-. injection Hlook1 as <-.
  injection Htemps as <-.
  exists str, str0, str1. do 3 (split; [assumption|]).
  unfold mret. cbn [snd].
  destruct (decide (str0 = str1)); now rewrite !append_assoc.
Qed.

Lemma compose_overnight_template_witness :
  snd (compose 2 "2024-05-01" "2024-05-02" ix_two_days) =
    Ok ("Clear overnight with lows of 11 degrees. Tomorrow morning will start "
        +:+ "with Cloudy skies, with Overcast, Overcast, with Heavy rain "
        +:+ "later on, highs of 16.").
Proof.
  destruct (compose_overnight_template ix_two_days 2
              "2024-05-01" "2024-05-02"
              (summary_of_codes [0; 2]) (summary_of_codes [7; 8])
              (summary_of_codes [8; 15]) {| high := 16; low := 11 |})
    as (o & m & a & Ho & Hm & Ha & Hc);
    [lia|vm_compute; reflexivity|vm_compute; reflexivity
    |vm_compute; reflexivity|vm_compute; reflexivity|].
  vm_compute in Ho, Hm, Ha.
  injection Ho as <-. injection Hm as <-. injection Ha as <-.
  rewrite Hc. vm_compute. reflexivity.
Defined.

(** * Further properties of the aggregator *)

(** ** [_get_daily_data] *)

Lemma all_entries_append {V} (k : string) (x : V) (d : dict (list V)) :
  Permutation (all_entries (dict_append k x d)) (x :: all_entries d).
Proof.
  unfold all_entries. induction d as [|[k' vs] d IH]; simpl.
  - reflexivity.
  - destruct (decide (k = k')) as [->|Hne]; simpl.
    + rewrite <- app_assoc. simpl. symmetry. apply Permutation_middle.
    + rewrite IH. symmetry. apply Permutation_middle.
Qed.

Lemma all_entries_group_fold {V} (key : V -> string) (l : list V)
    (d : dict (list V)) :
  Permutation (all_entries (group_fold key l d)) (l ++ all_entries d).
Proof.
  revert d. induction l as [|e l IH]; intros d; simpl; [reflexivity|].
  rewrite IH, all_entries_append. symmetry. apply Permutation_middle.
Qed.

(** X11: [_get_daily_data] files every entry under its date, once: the dates are
    distinct, the list of a date holds exactly the entries of that date in
    feed order (so no date has an empty list), and all lists together are a
    rearrangement of the feed. *)
Theorem daily_data_groups_by_date (data : list Observation) :
  List.NoDup (map fst (_get_daily_data data))
  /\ (forall d,
        dict_get d (_get_daily_data data) =
          match on_date d data with
          | [] => None
          | es => Some es
          end)
  /\ (forall d es, In (d, es) (_get_daily_data data) ->
        es <> [] /\ es = on_date d data)
  /\ Permutation (all_entries (_get_daily_data data)) data.
Proof.
  split; [apply _get_daily_data_NoDup|].
  split; [apply _get_daily_data_get|]. split.
  - intros d es Hin.
    apply (dict_get_In d es _ (_get_daily_data_NoDup data)) in Hin.
    rewrite _get_daily_data_get in Hin.
    destruct (on_date d data) as [|x xs]; [discriminate Hin|].
    injection Hin as <-. split; [discriminate|reflexivity].
  - change (_get_daily_data data) with (group_fold date_of data []).
    rewrite all_entries_group_fold. unfold all_entries. simpl.
    now rewrite app_nil_r.
Qed.

(** ** [get_highs_lows] *)

Lemma round_half_even_bounds (x : Q) :
  Qfloor x <= round_half_even x <= Qfloor x + 1.
Proof.
  unfold round_half_even.
  destruct (x - inject_Z (Qfloor x) ?= 1 # 2)%Q; [|lia|lia].
  destruct (Z.even (Qfloor x)); lia.
Qed.

(** Rounding keeps the order. *)
Lemma round_half_even_mono (x y : Q) :
  (x <= y)%Q -> round_half_even x <= round_half_even y.
Proof.
  intros Hle. pose proof (Qfloor_resp_le x y Hle) as Hf.
  destruct (Z.eq_dec (Qfloor x) (Qfloor y)) as [Heq|Hne].
  - unfold round_half_even. rewrite Heq.
    destruct (Qcompare_spec (x - inject_Z (Qfloor y)) (1 # 2)) as [Hx|Hx|Hx];
      destruct (Qcompare_spec (y - inject_Z (Qfloor y)) (1 # 2))
        as [Hy|Hy|Hy];
      try (destruct (Z.even (Qfloor y))); try lia; exfalso; lra.
  - pose proof (round_half_even_bounds x).
    pose proof (round_half_even_bounds y). lia.
Qed.

(** X12: on a feed whose maximum temperatures are finite numbers,
    [get_highs_lows] returns; it has an entry exactly for the dates that
    occur in the feed, and in every entry the low is at most the high. *)
Theorem highs_lows_total_and_ordered (data : list Observation) :
  Forall finite_max data ->
  exists hls,
    get_highs_lows data = Ok hls
    /\ (forall d, is_Some (hls !! d) <->
                  exists e, In e data /\ date_of e = d)
    /\ (forall d hl, hls !! d = Some hl -> low hl <= high hl).
Proof.
  intros Hfin.
  destruct (get_highs_lows_finite data Hfin) as (hls & Hok & Hl).
  exists hls. split; [exact Hok|]. split.
  - intros d. rewrite Hl. destruct (on_date d data) as [|x xs] eqn:E.
    + split; [intros [? H]; discriminate H|].
      intros He. now apply (proj1 (on_date_nil d data) E) in He.
    + destruct (high_low_res_finite (x :: xs)) as (hi & lo & Hres & _);
        [discriminate|rewrite <- E; now apply Forall_on_date|].
      unfold high_low_of. rewrite Hres. cbn [value_of].
      split; [|eauto]. intros _. exists x.
      apply on_date_In. rewrite E. now left.
  - intros d hl. rewrite Hl. destruct (on_date d data) as [|x xs] eqn:E;
      [discriminate|].
    destruct (high_low_res_finite (x :: xs))
      as (hi & lo & Hres & [_ Hhi] & [Hlo _]);
      [discriminate|rewrite <- E; now apply Forall_on_date|].
    unfold high_low_of. rewrite Hres. cbn [value_of].
    intros [= <-]. cbn [low high]. apply round_half_even_mono.
    exact (Hhi (Fin lo) Hlo).
Qed.

Lemma highs_lows_total_and_ordered_witness :
  exists hls,
    get_highs_lows feed_sample = Ok hls
    /\ (forall d, is_Some (hls !! d) <->
                  exists e, In e feed_sample /\ date_of e = d)
    /\ (forall d hl, hls !! d = Some hl -> low hl <= high hl).
Proof.
  apply highs_lows_total_and_ordered.
  repeat (constructor; [exact I|]). constructor.
Defined.

(** X25: an infinite maximum temperature in a feed without NaN makes
    [get_highs_lows] raise the [OverflowError] of [round]. *)
Theorem highs_lows_overflow (data : list Observation) (e : Observation) :
  Forall no_nan_temps data ->
  In e data ->
  ~ is_finite (maxScreenAirTemp e) ->
  get_highs_lows data = Err OverflowError.
Proof.
  intros Hnn Hin Hinf.
  destruct (get_highs_lows data) as [hls|err] eqn:E.
  - exfalso. pose proof (get_highs_lows_cases data) as Hret.
    rewrite E in Hret.
    assert (Hd : In e (on_date (date_of e) data))
      by (apply on_date_In; auto).
    destruct (Hret (date_of e)) as [hl Hhl].
    { intros Hnil. rewrite Hnil in Hd. destruct Hd. }
    destruct (high_low_res_inv _ _ Hhl) as (hi & lo & Hhi & Hlo & _).
    destruct (Forall_map_not_nan _ (Forall_on_date _ (date_of e) _ Hnn))
      as [Hnx _].
    destruct (py_max_N _ _ Hnx Hhi) as [_ Hub].
    destruct (py_min_N _ _ Hnx Hlo) as [_ Hlb].
    assert (Hm : In (maxScreenAirTemp e)
                   (map maxScreenAirTemp (on_date (date_of e) data)))
      by (apply in_map; exact Hd).
    specialize (Hub _ Hm). specialize (Hlb _ Hm).
    destruct (maxScreenAirTemp e); cbn in Hinf, Hub, Hlb; tauto.
  - f_equal. exact (get_highs_lows_error data err Hnn E).
Qed.

Lemma highs_lows_overflow_witness :
  get_highs_lows feed_inf = Err OverflowError.
Proof.
  apply (highs_lows_overflow feed_inf
           {| time := "2024-05-01T09:00Z"; maxScreenAirTemp := PInf;
              minScreenAirTemp := Fin (1 # 1); significantWeatherCode := 1;
              uvIndex := 1; probOfRain := 10 |}).
  - repeat (constructor; [split; exact I|]). constructor.
  - simpl. auto.
  - simpl. tauto.
Defined.

(** ** [get_day_periods_weather] *)

(** X13: on a feed with finite temperatures the aggregator returns exactly
    when every time stamp has an hour [_determine_day_part] can read; one
    unreadable entry makes it raise. *)
Theorem aggregator_returns_iff_readable (data : list Observation) :
  Forall finite_temps data ->
  (exists wf, get_day_periods_weather data = Ok wf) <-> Forall readable data.
Proof.
  intros Hfin. split.
  - intros [wf Hok]. exact (proj1 (get_day_periods_weather_inv data wf Hok)).
  - intros Hall.
    destruct (get_day_periods_weather_finite data Hall Hfin) as (wf & Hok & _).
    eauto.
Qed.

Lemma aggregator_returns_iff_readable_witness :
  exists wf, get_day_periods_weather feed_sample = Ok wf.
Proof.
  exact (proj2 (aggregator_returns_iff_readable feed_sample
                  feed_sample_finite)
           feed_sample_readable).
Defined.

Lemma bucket_of_entry (data : list Observation) (e : Observation) :
  readable e -> In e data -> In e (bucket (date_of e) (part_of e) data).
Proof.
  intros Hr Hin. unfold bucket. apply filter_In.
  split; [now apply on_date_In|].
  rewrite part_is_part_of by assumption. now apply bool_decide_eq_true_2.
Qed.

(** X14: On a readable feed with finite temperatures the two halves of the
    index cover the same dates, those that occur in the feed, and no date of
    the forecast has an empty set of day-parts. *)
Theorem index_dates_agree (data : list Observation) :
  Forall readable data ->
  Forall finite_temps data ->
  exists wf hls,
    get_day_periods_weather data = Ok wf /\
    get_highs_lows data = Ok hls /\
    (forall d, is_Some (wf !! d) <-> exists e, In e data /\ date_of e = d) /\
    (forall d, is_Some (wf !! d) <-> is_Some (hls !! d)) /\
    (forall d ps, wf !! d = Some ps -> exists p s, ps !! p = Some s).
Proof.
  intros Hall Hfin.
  destruct (get_day_periods_weather_finite data Hall Hfin)
    as (wf & Hok & Hne & Hl).
  destruct (get_highs_lows_finite data (finite_temps_max data Hfin))
    as (hls & Hok' & Hl').
  exists wf, hls. split; [exact Hok|]. split; [exact Hok'|].
  assert (Hdates : forall d, is_Some (wf !! d) <->
                             exists e, In e data /\ date_of e = d).
  { intros d. split.
    - intros [ps Hps]. destruct (map_choose ps (Hne d ps Hps)) as (p & s & Hp).
      assert (Hs : lookup2 wf d p = Some s)
        by (unfold lookup2; rewrite Hps; exact Hp).
      rewrite Hl in Hs. destruct (bucket d p data) as [|x xs] eqn:Eb;
        [discriminate Hs|].
      exists x. apply on_date_In.
      assert (Hx : In x (bucket d p data)) by (rewrite Eb; now left).
      unfold bucket in Hx. now apply filter_In in Hx as [Hx _].
    - intros (e & Hin & <-).
      assert (Hr : readable e) by (rewrite List.Forall_forall in Hall; auto).
      pose proof (bucket_of_entry data e Hr Hin) as Hb.
      destruct (bucket_lookup data wf (date_of e) (part_of e) Hl Hfin)
        as (s & Hs & _).
      { intros Hnil. rewrite Hnil in Hb. destruct Hb. }
      unfold lookup2 in Hs.
      destruct (wf !! date_of e); [eauto|discriminate Hs]. }
  split; [exact Hdates|]. split.
  - intros d. rewrite Hdates, Hl'.
    destruct (on_date d data) as [|x xs] eqn:E.
    + split; [|intros [? H]; discriminate H].
      intros He. now apply (proj1 (on_date_nil d data) E) in He.
    + destruct (high_low_res_finite (x :: xs)) as (hi & lo & Hres & _);
        [discriminate
        |rewrite <- E; apply Forall_on_date; now apply finite_temps_max|].
      unfold high_low_of. rewrite Hres. cbn [value_of].
      split; [eauto|]. intros _. exists x.
      apply on_date_In. rewrite E. now left.
  - intros d ps Hps. exact (map_choose ps (Hne d ps Hps)).
Qed.

Lemma index_dates_agree_witness :
  exists wf hls,
    get_day_periods_weather feed_sample = Ok wf /\
    get_highs_lows feed_sample = Ok hls /\
    (forall d, is_Some (wf !! d) <->
               exists e, In e feed_sample /\ date_of e = d) /\
    (forall d, is_Some (wf !! d) <-> is_Some (hls !! d)) /\
    (forall d ps, wf !! d = Some ps -> exists p s, ps !! p = Some s).
Proof.
  exact (index_dates_agree feed_sample feed_sample_readable
           feed_sample_finite).
Defined.

(** ** [_determine_day_part] *)

Lemma py_split_nonempty (sep : ascii) (s : string) :
  exists w ws, py_split sep s = w :: ws.
Proof.
  induction s as [|c s (w & ws & IH)]; simpl; [eauto|].
  destruct (Ascii.eqb c sep); [eauto|]. rewrite IH. eauto.
Qed.

Lemma py_split_absent (sep : ascii) (s : string) :
  occurs sep s = false -> py_split sep s = [s].
Proof.
  induction s as [|c s IH]; simpl; [reflexivity|].
  intros H. apply orb_false_iff in H as [Hc Hs].
  rewrite Hc, (IH Hs). reflexivity.
Qed.

Lemma py_split_prefix (sep : ascii) (pre rest : string) :
  occurs sep pre = false ->
  py_split sep (pre +:+ String sep rest) = pre :: py_split sep rest.
Proof.
  induction pre as [|c pre IH]; intros H.
  - change ("" +:+ String sep rest) with (String sep rest).
    simpl. now rewrite Ascii.eqb_refl.
  - simpl in H. apply orb_false_iff in H as [Hc Hs].
    change (String c pre +:+ String sep rest)
      with (String c (pre +:+ String sep rest)).
    cbn [py_split]. rewrite Hc, (IH Hs). reflexivity.
Qed.

Lemma py_split_head (sep c : ascii) (s : string) :
  Ascii.eqb c sep = false ->
  exists w ws,
    py_split sep s = w :: ws /\ py_split sep (String c s) = String c w :: ws.
Proof.
  intros Hc. destruct (py_split_nonempty sep s) as (w & ws & Hs).
  exists w, ws. split; [exact Hs|]. cbn [py_split]. now rewrite Hc, Hs.
Qed.

Lemma digit_cases (c : ascii) (a : Z) :
  digit_of c = Some a ->
  In (c, a)
    [("0", 0); ("1", 1); ("2", 2); ("3", 3); ("4", 4);
     ("5", 5); ("6", 6); ("7", 7); ("8", 8); ("9", 9)]%char.
Proof.
  destruct c as [[] [] [] [] [] [] [] []]; cbv;
    intros H; try discriminate H; injection H as <-; auto 12.
Qed.

Lemma py_int_two_digits (c1 c2 : ascii) (a b : Z) :
  digit_of c1 = Some a -> digit_of c2 = Some b ->
  py_int (String c1 (String c2 "")) = Ok (10 * a + b).
Proof.
  intros H1 H2. apply digit_cases in H1, H2. simpl in H1, H2.
  repeat (destruct H1 as [H1|H1]; [injection H1 as <- <-|]); [..|destruct H1];
    repeat (destruct H2 as [H2|H2]; [injection H2 as <- <-|]);
    try (destruct H2); vm_compute; reflexivity.
Qed.

Lemma digit_not_sep (c : ascii) (a : Z) :
  digit_of c = Some a ->
  Ascii.eqb c "T" = false /\ Ascii.eqb c ":" = false.
Proof.
  intros H. apply digit_cases in H. simpl in H.
  repeat (destruct H as [H|H]; [injection H as <- <-; split; reflexivity|]).
  destruct H.
Qed.

(** X15: A time stamp "<date>T<hh>:<rest>" with a two-digit hour and no "T" in
    the date is read as that hour and classified by the 6/12/18
    boundaries. *)
Theorem determine_day_part_well_formed (date rest : string) (c1 c2 : ascii)
    (a b : Z) :
  occurs "T" date = false ->
  digit_of c1 = Some a -> digit_of c2 = Some b ->
  _determine_day_part
    (date +:+ String "T" (String c1 (String c2 (String ":" rest)))) =
  Ok (let hour := 10 * a + b in
      if (6 <=? hour) && (hour <? 12) then "morning"
      else if (12 <=? hour) && (hour <? 18) then "afternoon"
      else if (18 <=? hour) && (hour <? 24) then "evening"
      else "overnight").
Proof.
  intros Hdate H1 H2.
  destruct (digit_not_sep c1 a H1) as [H1T H1c].
  destruct (digit_not_sep c2 b H2) as [H2T H2c].
  unfold _determine_day_part. rewrite (py_split_prefix "T" date _ Hdate).
  destruct (py_split_head "T" ":" rest eq_refl) as (w0 & ws0 & _ & E0).
  destruct (py_split_head "T" c2 (String ":" rest) H2T)
    as (w1 & ws1 & E1 & E1').
  rewrite E0 in E1. injection E1 as <- <-.
  destruct (py_split_head "T" c1 (String c2 (String ":" rest)) H1T)
    as (w2 & ws2 & E2 & E2').
  rewrite E1' in E2. injection E2 as <- <-.
  rewrite E2'. cbn [py_index nth_error rbind].
  assert (Hsplit : exists ws,
             py_split ":" (String c1 (String c2 (String ":" w0))) =
             String c1 (String c2 "") :: ws).
  { cbn [py_split]. rewrite H1c, H2c, Ascii.eqb_refl. eauto. }
  destruct Hsplit as [ws ->]. cbn [py_index nth_error rbind].
  rewrite (py_int_two_digits c1 c2 a b H1 H2). reflexivity.
Qed.

Lemma determine_day_part_well_formed_witness :
  _determine_day_part "2024-05-01T17:00Z" = Ok "afternoon".
Proof.
  exact (determine_day_part_well_formed "2024-05-01" "00Z" "1" "7" 1 7
           eq_refl eq_refl eq_refl).
Defined.

(** X16: A time stamp without a "T" makes [_determine_day_part] raise
    [IndexError], whatever else it contains. *)
Theorem determine_day_part_no_T (the_time : string) :
  occurs "T" the_time = false ->
  _determine_day_part the_time = Err IndexError.
Proof.
  intros H. unfold _determine_day_part.
  now rewrite (py_split_absent "T" the_time H).
Qed.

Lemma determine_day_part_no_T_witness :
  _determine_day_part "2024-05-01 06:00" = Err IndexError.
Proof. apply determine_day_part_no_T. reflexivity. Defined.

(** ** [_get_day_periods] *)

Lemma py_int_error (s : string) (err : exn) :
  py_int s = Err err -> err = ValueError.
Proof.
  unfold py_int.
  destruct (match rstrip (lstrip s) with
            | String "-"%char r => Z.opp <$> parse_digits r 0 false
            | String "+"%char r => parse_digits r 0 false
            | _ => parse_digits (rstrip (lstrip s)) 0 false
            end); congruence.
Qed.

Lemma in_period_A_hour (p : string) (e : Observation) (h : Z) :
  hour_A e = Ok h -> in_period_A p e = bool_decide (scheme_A h = p).
Proof. intros Hh. unfold in_period_A. now rewrite Hh. Qed.

Lemma extend_periods_step (acc : DayPeriods) (e : Observation)
    (es : list Observation) (h : Z) :
  hour_A e = Ok h ->
  extend_periods
    (if (7 <=? h) && (h <? 12) then
       {| dp_morning := dp_morning acc ++ [e];
          dp_afternoon := dp_afternoon acc;
          dp_evening := dp_evening acc;
          dp_overnight := dp_overnight acc |}
     else if (12 <=? h) && (h <? 17) then
       {| dp_morning := dp_morning acc;
          dp_afternoon := dp_afternoon acc ++ [e];
          dp_evening := dp_evening acc;
          dp_overnight := dp_overnight acc |}
     else if (17 <=? h) && (h <? 24) then
       {| dp_morning := dp_morning acc;
          dp_afternoon := dp_afternoon acc;
          dp_evening := dp_evening acc ++ [e];
          dp_overnight := dp_overnight acc |}
     else
       {| dp_morning := dp_morning acc;
          dp_afternoon := dp_afternoon acc;
          dp_evening := dp_evening acc;
          dp_overnight := dp_overnight acc ++ [e] |}) es
  = extend_periods acc (e :: es).
Proof.
  intros Hh. unfold extend_periods. cbn [List.filter].
  rewrite !(in_period_A_hour _ e h Hh). unfold scheme_A.
  destruct ((7 <=? h) && (h <? 12));
    [|destruct ((12 <=? h) && (h <? 17));
      [|destruct ((17 <=? h) && (h <? 24))]];
    cbn [dp_morning dp_afternoon dp_evening dp_overnight];
    rewrite ?bool_decide_eq_true_2 by reflexivity;
    rewrite ?bool_decide_eq_false_2 by discriminate;
    now rewrite <- ?app_assoc.
Qed.

(** [_get_day_periods] in closed form. *)
Lemma _get_day_periods_eq (dd : dict (list Observation)) :
  _get_day_periods dd =
    if forallb hour_A_ok (all_entries dd)
    then Ok (extend_periods
               {| dp_morning := []; dp_afternoon := []; dp_evening := [];
                  dp_overnight := [] |} (all_entries dd))
    else Err ValueError.
Proof.
  unfold _get_day_periods.
  match goal with
  | |- foldR (fun dps item => foldR ?f (snd item) dps) dd ?init = _ =>
      set (step := f); generalize init
  end.
  assert (Hinner : forall es acc,
             foldR step es acc =
               if forallb hour_A_ok es then Ok (extend_periods acc es)
               else Err ValueError).
  { induction es as [|e es IH]; intros acc.
    - cbn. unfold extend_periods. cbn. rewrite !app_nil_r. now destruct acc.
    - cbn [foldR forallb]. unfold step at 1. unfold hour_A_ok at 1.
      fold (hour_A e). destruct (hour_A e) as [h|err] eqn:Eh.
      + cbn [rbind andb]. rewrite IH.
        destruct (forallb hour_A_ok es); [|reflexivity].
        now rewrite (extend_periods_step acc e es h Eh).
      + cbn [rbind andb]. unfold hour_A in Eh.
        now rewrite (py_int_error _ _ Eh). }
  induction dd as [|[k es] dd IH]; intros acc.
  - cbn. unfold extend_periods. cbn. rewrite !app_nil_r. now destruct acc.
  - cbn [foldR snd]. rewrite Hinner.
    change (all_entries ((k, es) :: dd)) with (es ++ all_entries dd).
    rewrite forallb_app.
    destruct (forallb hour_A_ok es); [|reflexivity].
    cbn [rbind andb]. rewrite IH.
    destruct (forallb hour_A_ok (all_entries dd)); [|reflexivity].
    f_equal. unfold extend_periods. cbn.
    now rewrite !List.filter_app, !app_assoc.
Qed.

Lemma scheme_A_parts (h : Z) :
  In (scheme_A h) ["morning"; "afternoon"; "evening"; "overnight"].
Proof.
  unfold scheme_A.
  destruct ((7 <=? h) && (h <? 12));
    [|destruct ((12 <=? h) && (h <? 17));
      [|destruct ((17 <=? h) && (h <? 24))]]; simpl; auto.
Qed.

Lemma periods_A_perm (es : list Observation) :
  forallb hour_A_ok es = true ->
  Permutation
    (List.filter (in_period_A "morning") es ++
     List.filter (in_period_A "afternoon") es ++
     List.filter (in_period_A "evening") es ++
     List.filter (in_period_A "overnight") es) es.
Proof.
  induction es as [|e es IH]; [reflexivity|].
  cbn [forallb]. intros H. apply andb_true_iff in H as [He Hes].
  specialize (IH Hes). cbn [List.filter].
  unfold hour_A_ok in He.
  destruct (hour_A e) as [h|] eqn:Eh; [|discriminate He].
  rewrite !(in_period_A_hour _ e h Eh).
  set (M := List.filter (in_period_A "morning") es) in *.
  set (A := List.filter (in_period_A "afternoon") es) in *.
  set (E := List.filter (in_period_A "evening") es) in *.
  set (O := List.filter (in_period_A "overnight") es) in *.
  pose proof (scheme_A_parts h) as Hp. simpl in Hp.
  destruct Hp as [Hp|[Hp|[Hp|[Hp|[]]]]]; rewrite <- Hp;
    rewrite ?bool_decide_eq_true_2 by reflexivity;
    rewrite ?bool_decide_eq_false_2 by discriminate;
    symmetry.
  - apply (Permutation_cons_app [] (M ++ A ++ E ++ O)). now symmetry.
  - apply (Permutation_cons_app M (A ++ E ++ O)). now symmetry.
  - rewrite app_assoc. apply (Permutation_cons_app (M ++ A) (E ++ O)).
    rewrite <- app_assoc. now symmetry.
  - rewrite !app_assoc. apply (Permutation_cons_app ((M ++ A) ++ E) O).
    rewrite <- !app_assoc. now symmetry.
Qed.

(** X17: With readable hours [_get_day_periods] files every entry of every date,
    in order, in exactly one of its four lists, by the 7/12/17 boundaries of
    the hour at characters 11-12 of the time stamp; the dates are not kept
    apart. *)
Theorem get_day_periods_partitions (dd : dict (list Observation)) :
  Forall (fun e => exists h, hour_A e = Ok h) (all_entries dd) ->
  exists dp,
    _get_day_periods dd = Ok dp /\
    dp_morning dp = List.filter (in_period_A "morning") (all_entries dd) /\
    dp_afternoon dp =
      List.filter (in_period_A "afternoon") (all_entries dd) /\
    dp_evening dp = List.filter (in_period_A "evening") (all_entries dd) /\
    dp_overnight dp =
      List.filter (in_period_A "overnight") (all_entries dd) /\
    Permutation
      (dp_morning dp ++ dp_afternoon dp ++ dp_evening dp ++ dp_overnight dp)
      (all_entries dd) /\
    (forall e p, in_period_A p e = true <->
                 exists h, hour_A e = Ok h /\ scheme_A h = p).
Proof.
  intros Hall.
  assert (Hok : forallb hour_A_ok (all_entries dd) = true).
  { apply forallb_forall. intros e He.
    rewrite List.Forall_forall in Hall. destruct (Hall e He) as [h Hh].
    unfold hour_A_ok. now rewrite Hh. }
  rewrite _get_day_periods_eq, Hok. eexists. split; [reflexivity|].
  cbn [dp_morning dp_afternoon dp_evening dp_overnight extend_periods app].
  do 4 (split; [reflexivity|]). split; [now apply periods_A_perm|].
  intros e p. unfold in_period_A. destruct (hour_A e) as [h|err].
  - rewrite bool_decide_eq_true. split; [eauto|].
    now intros (h' & [= <-] & Hp).
  - split; [discriminate|]. intros (h & Hh & _). discriminate Hh.
Qed.

Lemma get_day_periods_partitions_witness :
  exists dp,
    _get_day_periods daily_sample = Ok dp /\
    map time (dp_morning dp) = ["2024-05-01T09:00Z"] /\
    map time (dp_overnight dp) = ["2024-05-01T06:00Z"] /\
    map time (dp_evening dp) = ["2024-04-30T21:00Z"].
Proof.
  destruct (get_day_periods_partitions daily_sample)
    as (dp & Hok & Hm & _ & He & Ho & _).
  - repeat (constructor; [eexists; vm_compute; reflexivity|]). constructor.
  - exists dp. split; [exact Hok|]. rewrite Hm, He, Ho.
    repeat split; vm_compute; reflexivity.
Defined.

(** X18: An entry whose hour cannot be read (a time stamp too short, or no number
    at characters 11-12) makes [_get_day_periods] raise [ValueError]. *)
Theorem get_day_periods_unreadable (dd : dict (list Observation)) :
  (exists e err, In e (all_entries dd) /\ hour_A e = Err err) ->
  _get_day_periods dd = Err ValueError.
Proof.
  intros (e & err & Hin & Herr). rewrite _get_day_periods_eq.
  destruct (forallb hour_A_ok (all_entries dd)) eqn:E; [|reflexivity].
  rewrite forallb_forall in E. specialize (E e Hin).
  unfold hour_A_ok in E. rewrite Herr in E. discriminate E.
Qed.

Lemma get_day_periods_unreadable_witness :
  _get_day_periods daily_short = Err ValueError.
Proof.
  apply get_day_periods_unreadable.
  exists (obs "2024-05-01" (25 # 2) (10 # 1) 1 1 10), ValueError.
  split; [now left|vm_compute; reflexivity].
Defined.

(** ** [get_weather_forecast_types] *)

Lemma weather_types_range (c : Z) (t : string) :
  weather_types c = Some t -> 0 <= c <= 30 /\ c <> 4 /\ t <> "".
Proof.
  intros H. unfold weather_types in H.
  destruct c as [|p|p];
    [injection H as <-; repeat split; first [lia|discriminate]
    | |discriminate H].
  do 5 (try destruct p as [p|p|]; try discriminate H;
        try (injection H as <-; repeat split; first [lia|discriminate])).
Qed.

Lemma weather_types_known (c : Z) :
  0 <= c <= 30 -> c <> 4 -> exists t, weather_types c = Some t.
Proof.
  intros Hc H4.
  replace c with (Z.of_nat (Z.to_nat c)) in * by lia.
  assert (Hn : (Z.to_nat c <= 30)%nat) by lia.
  revert Hn H4. generalize (Z.to_nat c). intros n Hn H4.
  do 31 (destruct n as [|n];
         [first [eexists; reflexivity|exfalso; apply H4; reflexivity]|]).
  lia.
Qed.

Lemma forecast_types_loop (data : list Observation) (acc : gset string) :
  (forall e, In e data ->
     exists t, weather_types (significantWeatherCode e) = Some t) ->
  exists types,
    foldR forecast_types_step data acc = Ok types /\
    forall t, t ∈ types <->
              t ∈ acc \/
              exists e, In e data /\
                        weather_types (significantWeatherCode e) = Some t.
Proof.
  revert acc. induction data as [|e data IH]; intros acc Hall.
  - exists acc. split; [reflexivity|]. intros t. split; [auto|].
    intros [H|(e & [] & _)]. exact H.
  - destruct (Hall e (or_introl eq_refl)) as [t0 Ht0].
    cbn [foldR]. unfold forecast_types_step at 1, _get_weather_type.
    rewrite Ht0. cbn [rbind].
    rewrite decide_False by (apply (weather_types_range _ _ Ht0)).
    destruct (IH ({[t0]} ∪ acc)) as (types & Hok & Hin).
    { intros e' He'. apply Hall. now right. }
    exists types. split; [exact Hok|]. intros t. rewrite Hin.
    rewrite elem_of_union, elem_of_singleton. split.
    + intros [[->|H]|(e' & He' & Ht)]; [right|now left|right].
      * exists e. split; [now left|exact Ht0].
      * exists e'. split; [now right|exact Ht].
    + intros [H|(e' & [<-|He'] & Ht)]; [now left; right| |].
      * left. left. congruence.
      * right. eauto.
Qed.

(** X19: When every code of the feed is one of the table (0..30 without 4),
    [get_weather_forecast_types] returns the type names of the codes that
    occur, each once. *)
Theorem forecast_types_of_known_codes (data : list Observation) :
  (forall e, In e data ->
     0 <= significantWeatherCode e <= 30 /\ significantWeatherCode e <> 4) ->
  exists types,
    get_weather_forecast_types data = Ok types /\
    List.NoDup types /\
    forall t, In t types <->
              exists e, In e data /\
                        weather_types (significantWeatherCode e) = Some t.
Proof.
  intros Hall. unfold get_weather_forecast_types.
  destruct (forecast_types_loop data ∅) as (types & Hok & Hin).
  { intros e He. destruct (Hall e He). now apply weather_types_known. }
  rewrite Hok. cbn [rbind]. eexists. split; [reflexivity|].
  split; [apply NoDup_ListNoDup, NoDup_elements|].
  intros t. rewrite <- list_elem_of_In, elem_of_elements, Hin.
  split; [intros [H|H]; [now apply not_elem_of_empty in H|exact H]|auto].
Qed.

Lemma forecast_types_of_known_codes_witness :
  exists types,
    get_weather_forecast_types feed_sample = Ok types /\
    List.NoDup types /\
    forall t, In t types <->
              exists e, In e feed_sample /\
                        weather_types (significantWeatherCode e) = Some t.
Proof.
  apply forecast_types_of_known_codes.
  intros e He. simpl in He.
  destruct He as [<-|[<-|[<-|[<-|[]]]]]; cbn; lia.
Defined.

(** X20: A feed with a code outside the table (4, a negative code, a code above
    30) makes [get_weather_forecast_types] raise [KeyError]. *)
Theorem forecast_types_unknown_code (data : list Observation) :
  (exists e, In e data /\
             (significantWeatherCode e = 4 \/ significantWeatherCode e < 0 \/
              30 < significantWeatherCode e)) ->
  get_weather_forecast_types data = Err KeyError.
Proof.
  intros (e & Hin & Hcode). unfold get_weather_forecast_types.
  assert (Hnone : weather_types (significantWeatherCode e) = None).
  { destruct (weather_types (significantWeatherCode e)) as [t|] eqn:E;
      [|reflexivity].
    apply weather_types_range in E. lia. }
  assert (Hloop : forall acc, foldR forecast_types_step data acc = Err KeyError).
  { clear Hcode. induction data as [|x data IH]; intros acc; [destruct Hin|].
    cbn [foldR]. unfold forecast_types_step at 1, _get_weather_type.
    destruct (weather_types (significantWeatherCode x)) as [t|] eqn:E;
      [|reflexivity].
    cbn [rbind]. destruct Hin as [->|Hin]; [congruence|]. now apply IH. }
  now rewrite Hloop.
Qed.

Lemma forecast_types_unknown_code_witness :
  get_weather_forecast_types feed_code4 = Err KeyError.
Proof.
  apply forecast_types_unknown_code.
  exists (obs "2024-05-01T09:00Z" (27 # 2) (11 # 1) 4 2 20).
  split; [simpl; auto|now left].
Defined.

(** ** [bulletin_metoffice] *)

Lemma compose_missing_temps (ix : ForecastIndex) (hour : Z)
    (today tomorrow : string) :
  temps ix !! required_temps hour today tomorrow = None ->
  snd (compose hour today tomorrow ix) = Err KeyError.
Proof.
  intros Hmiss.
  pose proof (evolves_refl today tomorrow ix) as Hev0.
  unfold compose, required_temps in *.
  destruct ((5 <=? hour) && (hour <? 11));
    [|destruct ((11 <=? hour) && (hour <? 17));
      [|destruct ((17 <=? hour) && (hour <? 24))]];
    repeat (template_step today tomorrow; [assumption|]);
    (template_step today tomorrow; [reflexivity|]);
    congruence.
Qed.

(** X21: The bulletin does not depend on the order of the entries of a
    readable feed with finite temperatures. *)
Theorem bulletin_order_independent (data data' : list Observation)
    (hour : Z) (today tomorrow : string) :
  Permutation data data' ->
  Forall readable data ->
  Forall finite_temps data ->
  bulletin_metoffice data' hour today tomorrow =
  bulletin_metoffice data hour today tomorrow.
Proof.
  intros Hp Hall Hfin. unfold bulletin_metoffice.
  pose proof (finite_no_nan data Hfin) as Hnn.
  destruct (get_day_periods_weather_finite data Hall Hfin) as (wf & Hok & _).
  rewrite (get_day_periods_weather_perm data data' wf Hnn Hp Hok), Hok.
  now rewrite (get_highs_lows_perm data data' Hnn Hp).
Qed.

Lemma bulletin_order_independent_witness :
  bulletin_metoffice feed_shuffled 6 "2024-05-01" "2024-05-02" =
  bulletin_metoffice feed_sample 6 "2024-05-01" "2024-05-02".
Proof.
  exact (bulletin_order_independent feed_sample feed_shuffled 6
           "2024-05-01" "2024-05-02" feed_shuffled_perm feed_sample_readable
           feed_sample_finite).
Defined.

(** X22: A readable feed with finite temperatures and without any entry for
    the date the template needs (today between 5 and 17 o'clock, tomorrow
    otherwise) gives [KeyError], not a bulletin. *)
Theorem bulletin_feed_without_date (data : list Observation) (hour : Z)
    (today tomorrow : string) :
  Forall readable data ->
  Forall finite_temps data ->
  (forall e, In e data ->
             date_of e <> required_temps hour today tomorrow) ->
  bulletin_metoffice data hour today tomorrow = Err KeyError.
Proof.
  intros Hall Hfin Hdate. unfold bulletin_metoffice.
  destruct (get_day_periods_weather_finite data Hall Hfin) as (wf & Hok & _).
  destruct (get_highs_lows_finite data (finite_temps_max data Hfin))
    as (hls & Hok' & Hl).
  rewrite Hok, Hok'. cbn [rbind].
  apply compose_missing_temps. cbn [temps]. rewrite Hl.
  assert (Hnil : on_date (required_temps hour today tomorrow) data = []).
  { apply on_date_nil. intros (e & He & Heq). exact (Hdate e He Heq). }
  now rewrite Hnil.
Qed.

Lemma bulletin_feed_without_date_witness :
  bulletin_metoffice feed_sample 20 "2024-05-01" "2024-05-02" = Err KeyError.
Proof.
  apply bulletin_feed_without_date;
    [exact feed_sample_readable|exact feed_sample_finite|].
  intros e He. simpl in He.
  destruct He as [<-|[<-|[<-|[<-|[]]]]]; vm_compute; discriminate.
Defined.

(** * get_metoffice_forecast *)

Lemma fetch_loop_cases (network : nat -> option string)
    (retries made : nat) (slept : Z) :
  (0 < retries)%nat ->
  (exists k text,
     (k < retries)%nat /\
     network (made + k)%nat = Some text /\
     (forall j, (j < k)%nat -> network (made + j)%nat = None) /\
     fetch_loop network retries made slept =
       {| outcome := Fetched text;
          requests_made := S (made + k);
          seconds_slept := slept + 10 * Z.of_nat k |})
  \/
  ((forall j, (j < retries)%nat -> network (made + j)%nat = None) /\
   fetch_loop network retries made slept =
     {| outcome := Exited;
        requests_made := (made + retries)%nat;
        seconds_slept := slept + 10 * Z.of_nat retries |}).
Proof.
  revert made slept. induction retries as [|r IH]; intros made slept Hpos;
    [lia|].
  cbn [fetch_loop]. destruct (network made) as [text|] eqn:E.
  - left. exists 0%nat, text. rewrite Nat.add_0_r.
    split; [lia|]. split; [exact E|]. split; [intros j Hj; lia|].
    f_equal. lia.
  - destruct r as [|r].
    + right. cbn [Nat.eqb]. split.
      * intros j Hj. assert (j = 0%nat) as -> by lia.
        now rewrite Nat.add_0_r.
      * f_equal; lia.
    + cbn [Nat.eqb].
      destruct (IH (S made) (slept + 10)) as
        [(k & text & Hk & Hsome & Hnone & Hrun)|(Hnone & Hrun)]; [lia| |].
      * left. exists (S k), text. split; [lia|].
        split; [now rewrite Nat.add_succ_r|]. split.
        -- intros j Hj. destruct j as [|j]; [now rewrite Nat.add_0_r|].
           rewrite Nat.add_succ_r. apply (Hnone j). lia.
        -- rewrite Hrun. f_equal; lia.
      * right. split.
        -- intros j Hj. destruct j as [|j]; [now rewrite Nat.add_0_r|].
           rewrite Nat.add_succ_r. apply (Hnone j). lia.
        -- rewrite Hrun. f_equal; lia.
Qed.

(** X24: The retry loop makes at most five requests.  It returns the text of the
    first request that succeeds, having slept ten seconds after each failed
    one; when the first five requests all fail it exits, after fifty seconds
    of sleep.  It never reaches the lines after the loop without a
    response. *)
Theorem fetch_retries_five_times (network : nat -> option string) :
  (exists k text,
     (k < 5)%nat /\
     network k = Some text /\
     (forall j, (j < k)%nat -> network j = None) /\
     get_metoffice_forecast network =
       {| outcome := Fetched text;
          requests_made := S k;
          seconds_slept := 10 * Z.of_nat k |})
  \/
  ((forall j, (j < 5)%nat -> network j = None) /\
   get_metoffice_forecast network =
     {| outcome := Exited; requests_made := 5; seconds_slept := 50 |}).
Proof.
  unfold get_metoffice_forecast.
  destruct (fetch_loop_cases network 5 0 0) as
    [(k & text & Hk & Hsome & Hnone & Hrun)|(Hnone & Hrun)]; [lia| |].
  - left. exists k, text. cbn [Nat.add] in *. rewrite Z.add_0_l in Hrun. auto.
  - right. cbn [Nat.add] in *. split; [exact Hnone|exact Hrun].
Qed.

(** On a network that fails twice and then answers, the text of the third
    request is returned after twenty seconds of sleep. *)
Example fetch_third_attempt :
  get_metoffice_forecast network_third =
    {| outcome := Fetched "{}"; requests_made := 3; seconds_slept := 20 |}.
Proof. reflexivity. Qed.

(** * The program end to end *)

Lemma required_temps_period (hour : Z) (today tomorrow : string) :
  exists p, In (required_temps hour today tomorrow, p)
              (required_periods hour today tomorrow).
Proof.
  unfold required_periods, required_temps.
  destruct ((5 <=? hour) && (hour <? 11));
    [|destruct ((11 <=? hour) && (hour <? 17));
      [|destruct ((17 <=? hour) && (hour <? 24))]];
    eexists; simpl; eauto.
Qed.

(** X23: On a readable feed with finite temperatures that has at least one
    entry in every (date, day-part) bucket the template of the hour needs,
    [bulletin_metoffice] returns a bulletin. *)
Theorem bulletin_returns_when_covered (data : list Observation) (hour : Z)
    (today tomorrow : string) :
  Forall readable data ->
  Forall finite_temps data ->
  (forall dp, In dp (required_periods hour today tomorrow) ->
              bucket (fst dp) (snd dp) data <> []) ->
  exists bulletin,
    bulletin_metoffice data hour today tomorrow = Ok bulletin.
Proof.
  intros Hall Hfin Hcov. unfold bulletin_metoffice.
  destruct (get_day_periods_weather_finite data Hall Hfin)
    as (wf & Hok & _ & Hl).
  destruct (get_highs_lows_finite data (finite_temps_max data Hfin))
    as (hls & Hok' & Hl').
  rewrite Hok, Hok'. cbn [rbind].
  apply compose_present; cbn [forecast temps].
  - intros dp Hdp.
    destruct (bucket_lookup data wf _ _ Hl Hfin (Hcov dp Hdp))
      as (s & Hs & _). eauto.
  - destruct (required_temps_period hour today tomorrow) as [p Hp].
    pose proof (Hcov _ Hp) as Hne. cbn [fst snd] in Hne.
    rewrite Hl'.
    destruct (on_date (required_temps hour today tomorrow) data)
      as [|x xs] eqn:E.
    + exfalso. apply Hne. unfold bucket. now rewrite E.
    + destruct (high_low_res_finite (x :: xs)) as (hi & lo & Hres & _);
        [discriminate
        |rewrite <- E; apply Forall_on_date; now apply finite_temps_max|].
      unfold high_low_of. rewrite Hres. cbn [value_of]. eauto.
Qed.

Lemma bulletin_returns_when_covered_witness :
  exists bulletin,
    bulletin_metoffice feed_sample 6 "2024-05-01" "2024-05-02" = Ok bulletin.
Proof.
  apply bulletin_returns_when_covered;
    [exact feed_sample_readable|exact feed_sample_finite|].
  intros dp Hdp. simpl in Hdp.
  destruct Hdp as [<-|[<-|[]]]; vm_compute; discriminate.
Defined.
